(** * StoreScout analytics core

    A shallow embedding of [app/services/analyze.py], the aggregation engine
    that turns a list of normalized product records into an insights
    report, together with the properties of it that the specification
    states.  The first part holds the model, function by function and under
    the names of the source; the second part the vocabulary of the
    properties and the sample records; the third part the proofs.

    Modelling conventions.
    - A Python [float] is an exact rational ([Q]): the arithmetic is exact,
      [round(x, n)] is round-half-to-even on the exact value, and NaN and
      the infinities are left out.  Binary floating point can leave a
      decimal tie on either side (for a price of 67 and a compare-at price
      of 160 the program computes the discount 58.13, the exact value being
      58.125); where a property speaks of the value of a rounding, it
      bounds the distance to the exact value and leaves the neighbour
      open.  A Python [int] is a [Z].
    - [None] is [None]; an [Optional[float]] is an [option Q].  A product
      record has the fields and types that [normalize_product] produces.
    - A timezone-aware UTC [datetime] is its instant, in microseconds since
      0001-01-01T00:00:00 ([Z]); [parse_dt] returns no other kind.  Sort
      keys, which may also be the naive [datetime.min], are values of
      [datetime].
    - [datetime.fromisoformat] is a parameter of the model: a function from
      strings to the parsed local time and UTC offset, or [None] where it
      raises.  [fromisoformat_basic] is an instance for the common formats.
    - The system clock is a stream of readings; every call of
      [datetime.now] or [datetime.utcnow] consumes the next one.
    - An exception that escapes is a value of [exn]; the only operation of
      the program that can raise on a list of product records is the order
      comparison of a naive with an aware [datetime].
    - A string is a sequence of bytes.  [str.strip] removes ASCII white
      space, which is all that Python removes from a string of ASCII
      characters; [strftime] pads the year to four digits. *)

From Stdlib Require Import ZArith QArith Qround Qabs Lqa Lia.
From Stdlib Require Import List String Ascii Bool DecimalString.
From Stdlib Require Import Sorting.Sorted Sorting.Permutation.
Import ListNotations.

Local Open Scope Z_scope.

(** ** Numbers *)

Definition Qlt_bool (a b : Q) : bool := negb (Qle_bool b a).

Fixpoint pow10 (n : nat) : positive :=
  match n with
  | O => 1%positive
  | S k => (10 * pow10 k)%positive
  end.

(** [round(x)]: nearest integer, ties to the even one. *)
Definition round_half_even (x : Q) : Z :=
  let f := Qfloor x in
  match Qcompare (x - inject_Z f) (1 # 2) with
  | Lt => f
  | Gt => f + 1
  | Eq => if Z.even f then f else f + 1
  end.

(** [round(x, ndigits)], kept in lowest terms. *)
Definition round_nd (x : Q) (ndigits : nat) : Q :=
  Qred (Qmake (round_half_even (x * inject_Z (Zpos (pow10 ndigits)))) (pow10 ndigits)).

(** The builtins [min(a, b)] and [max(a, b)] on two floats. *)
Definition py_min (a b : Q) : Q := if Qlt_bool b a then b else a.
Definition py_max (a b : Q) : Q := if Qlt_bool a b then b else a.

(** [sum(xs)] over floats: a left fold from 0. *)
Definition fsum (xs : list Q) : Q := fold_left Qplus xs 0%Q.

Definition len {A : Type} (l : list A) : Z := Z.of_nat (List.length l).

(** [safe_float]: the normalized record already holds a float or [None]. *)
Definition safe_float (x : option Q) : option Q := x.

(** [pct(n, d)]. *)
Definition pct (n d : Z) : Q :=
  if d =? 0 then 0%Q
  else round_nd (inject_Z n / inject_Z d * 100) 2.

(** [compute_discount_pct(price_min, compare_at_min)]. *)
Definition compute_discount_pct (price_min compare_at_min : option Q) : option Q :=
  match price_min, compare_at_min with
  | Some p, Some c =>
      if Qlt_bool p c && Qlt_bool 0 c
      then Some (round_nd ((c - p) / c * 100) 2)
      else None
  | _, _ => None
  end.

(** [price_bucket(price)]. *)
Definition price_bucket (price : Q) : string :=
  if Qlt_bool price 25 then "<$25"
  else if Qlt_bool price 50 then "$25–$49"
  else if Qlt_bool price 100 then "$50–$99"
  else if Qlt_bool price 200 then "$100–$199"
  else if Qlt_bool price 300 then "$200–$299"
  else if Qlt_bool price 500 then "$300–$499"
  else "$500+".

(** Stable ascending sort of floats, as [sorted(xs)]. *)
Fixpoint insert_asc (x : Q) (l : list Q) : list Q :=
  match l with
  | [] => [x]
  | y :: ys => if Qlt_bool y x then y :: insert_asc x ys else x :: l
  end.

Definition sorted_asc (l : list Q) : list Q := fold_right insert_asc [] l.

(** [statistics.median] on a non-empty list (the callers guard emptiness;
    on the empty list the library raises, here the value is 0). *)
Definition median (xs : list Q) : Q :=
  let data := sorted_asc xs in
  let n := List.length data in
  if Nat.even n
  then ((nth (n / 2 - 1) data 0 + nth (n / 2) data 0) / 2)%Q
  else nth (n / 2) data 0%Q.

(** Drops the [None] entries of a list of optional floats. *)
Fixpoint somes {A : Type} (l : list (option A)) : list A :=
  match l with
  | [] => []
  | Some x :: r => x :: somes r
  | None :: r => somes r
  end.

(** [median_or_none(xs)]. *)
Definition median_or_none (xs : list (option Q)) : option Q :=
  match somes xs with
  | [] => None
  | ys => Some (round_nd (median ys) 2)
  end.

(** [quantile(values, q)]. *)
Definition quantile (values : list Q) (q : Q) : option Q :=
  match values with
  | [] => None
  | _ =>
      let xs := sorted_asc values in
      if Qle_bool q 0 then Some (nth 0 xs 0%Q)
      else if Qle_bool 1 q then Some (last xs 0%Q)
      else
        let pos := (inject_Z (len xs - 1) * q)%Q in
        let lo := Qfloor pos in
        let hi := Qceiling pos in
        if lo =? hi then Some (nth (Z.to_nat lo) xs 0%Q)
        else
          let w := (pos - inject_Z lo)%Q in
          Some (nth (Z.to_nat lo) xs 0 * (1 - w) + nth (Z.to_nat hi) xs 0 * w)%Q
  end.

(** ** Positioning scores (closures of [analyze_products]) *)

(** [clamp(x, lo=0.0, hi=100.0)]. *)
Definition clamp (x : Q) : Q := py_max 0 (py_min 100 x).

(** The pairs of [parts] whose value is not [None]. *)
Fixpoint usable_parts (parts : list (option Q * Q)) : list (Q * Q) :=
  match parts with
  | [] => []
  | (Some v, w) :: r => (v, w) :: usable_parts r
  | (None, _) :: r => usable_parts r
  end.

(** [score_weighted(parts)]. *)
Definition score_weighted (parts : list (option Q * Q)) : Z :=
  let usable := usable_parts parts in
  match usable with
  | [] => 0
  | _ =>
      let total_w := fsum (map snd usable) in
      if Qle_bool total_w 0 then 0
      else
        let s := (fsum (map (fun vw => clamp (fst vw) * snd vw) usable) / total_w)%Q in
        round_half_even (clamp s)
  end.

(** [score_label(score)]. *)
Definition score_label (score : Z) : string :=
  if 75 <=? score then "High"
  else if 45 <=? score then "Medium"
  else "Low".


(** ** Strings and formatting *)

Definition str_int (z : Z) : string := NilZero.string_of_int (Z.to_int z).

Fixpoint zeros (n : nat) : string :=
  match n with
  | O => EmptyString
  | S k => String "0" (zeros k)
  end.

(** Left-pads a decimal numeral with zeros up to [width] characters. *)
Definition pad0 (width : nat) (s : string) : string :=
  String.append (zeros (width - String.length s)) s.

(** The format specs [:.Nf] ([plus = false]) and [:+.Nf] ([plus = true]). *)
Definition fmt_fixed (plus : bool) (nd : nat) (x : Q) : string :=
  let n := round_half_even (Qabs x * inject_Z (Zpos (pow10 nd))) in
  let sign := (if Qlt_bool x 0 then "-" else if plus then "+" else EmptyString)%string in
  let ip := str_int (n / Zpos (pow10 nd)) in
  match nd with
  | O => String.append sign ip
  | _ => String.append sign
           (String.append ip
              (String.append "." (pad0 nd (str_int (n mod Zpos (pow10 nd))))))
  end.

(** [str(x)] of a float that was rounded to at most two decimals (every
    float that the report interpolates into a sentence is one): the
    shortest decimal numeral, with at least one fractional digit. *)
Definition str_float (x : Q) : string :=
  let n := round_half_even (Qabs x * 100) in
  let sign := (if Qlt_bool x 0 then "-" else EmptyString)%string in
  let fp := n mod 100 in
  let frac := if fp mod 10 =? 0 then str_int (fp / 10) else pad0 2 (str_int fp) in
  String.append sign (String.append (str_int (n / 100)) (String.append "." frac)).

(** ASCII white space, as removed by [str.strip()]. *)
Definition is_space (c : ascii) : bool :=
  let n := nat_of_ascii c in
  ((9 <=? n) && (n <=? 13) || (28 <=? n) && (n <=? 32))%nat.

Fixpoint lstrip (s : string) : string :=
  match s with
  | String c r => if is_space c then lstrip r else s
  | EmptyString => EmptyString
  end.

Fixpoint rstrip (s : string) : string :=
  match s with
  | EmptyString => EmptyString
  | String c r =>
      match rstrip r with
      | EmptyString => if is_space c then EmptyString else String c EmptyString
      | r' => String c r'
      end
  end.

Definition strip (s : string) : string := rstrip (lstrip s).

(** [ss[:-1] + "+00:00"] when [ss.endswith("Z")], else [ss]. *)
Fixpoint replace_final_Z (s : string) : string :=
  match s with
  | EmptyString => EmptyString
  | String c EmptyString => if Ascii.eqb c "Z" then "+00:00"%string else s
  | String c r => String c (replace_final_Z r)
  end.

(** ** Dates and times *)

Definition US_PER_SECOND : Z := 1000000.
Definition US_PER_DAY : Z := 86400 * US_PER_SECOND.

(** [datetime.max], in microseconds since 0001-01-01T00:00:00. *)
Definition MAX_US : Z := 3652059 * US_PER_DAY - 1.

(** A [datetime] used as a sort key: timezone-aware in UTC, or naive. *)
Inductive datetime :=
| Aware (utc_us : Z)
| Naive (wall_us : Z).

(** [datetime.min]: naive. *)
Definition datetime_min : datetime := Naive 0.

Inductive exn :=
| TypeError (msg : string).

Inductive result (A : Type) :=
| Ok (a : A)
| Raise (e : exn).
Arguments Ok {A} a.
Arguments Raise {A} e.

(** [a < b] on datetimes: an order comparison of a naive with an aware
    datetime raises. *)
Definition datetime_lt (a b : datetime) : result bool :=
  match a, b with
  | Aware x, Aware y => Ok (x <? y)
  | Naive x, Naive y => Ok (x <? y)
  | _, _ => Raise (TypeError "can't compare offset-naive and offset-aware datetimes")
  end.

(** (year, month, day) of a day count from 0001-01-01 (proleptic Gregorian). *)
Definition civil_from_days (d0 : Z) : Z * Z * Z :=
  let z := d0 + 306 in
  let era := z / 146097 in
  let doe := z - era * 146097 in
  let yoe := (doe - doe / 1460 + doe / 36524 - doe / 146096) / 365 in
  let doy := doe - (365 * yoe + yoe / 4 - yoe / 100) in
  let mp := (5 * doy + 2) / 153 in
  let d := doy - (153 * mp + 2) / 5 + 1 in
  let m := if mp <? 10 then mp + 3 else mp - 9 in
  let y := yoe + era * 400 + (if m <=? 2 then 1 else 0) in
  (y, m, d).

(** [d.strftime("%Y-%m-%d")]. *)
Definition strftime_ymd (t : Z) : string :=
  let '(y, m, d) := civil_from_days (t / US_PER_DAY) in
  String.append (pad0 4 (str_int y))
    (String.append "-" (String.append (pad0 2 (str_int m))
       (String.append "-" (pad0 2 (str_int d))))).

(** [d.strftime("%Y-%m")]. *)
Definition strftime_ym (t : Z) : string :=
  let '(y, m, d) := civil_from_days (t / US_PER_DAY) in
  String.append (pad0 4 (str_int y)) (String.append "-" (pad0 2 (str_int m))).

(** [d.strftime("%Y-%m-%d %H:00")]. *)
Definition strftime_ymdh (t : Z) : string :=
  String.append (strftime_ymd t)
    (String.append " "
       (String.append (pad0 2 (str_int ((t mod US_PER_DAY) / (3600 * US_PER_SECOND)))) ":00")).

(** [d.isoformat()] of a naive datetime. *)
Definition isoformat (t : Z) : string :=
  let r := t mod US_PER_DAY in
  let us := r mod US_PER_SECOND in
  let s := r / US_PER_SECOND in
  String.append (strftime_ymd t)
    (String.append "T"
       (String.append (pad0 2 (str_int (s / 3600)))
          (String.append ":"
             (String.append (pad0 2 (str_int ((s / 60) mod 60)))
                (String.append ":"
                   (String.append (pad0 2 (str_int (s mod 60)))
                      (if us =? 0 then EmptyString
                       else String.append "." (pad0 6 (str_int us))))))))).

(** [timedelta(days=n)] in microseconds, and [td.days]. *)
Definition days (n : Z) : Z := n * US_PER_DAY.
Definition timedelta_days (td : Z) : Z := td / US_PER_DAY.

(** ** Containers *)

(** A [Counter]: keys in insertion order with their counts. *)
Section Counters.
Context {K : Type} (keq : K -> K -> bool).

Fixpoint counter_incr (k : K) (c : list (K * Z)) : list (K * Z) :=
  match c with
  | [] => [(k, 1)]
  | (k', n) :: r =>
      if keq k' k then (k', n + 1) :: r else (k', n) :: counter_incr k r
  end.

(** [Counter(keys)]. *)
Definition Counter (keys : list K) : list (K * Z) :=
  fold_left (fun c k => counter_incr k c) keys [].
End Counters.

(** Stable descending sort: [sorted(l, key=..., reverse=True)] for keys
    whose comparison cannot raise; [lt a b] is [key(a) < key(b)]. *)
Section SortDesc.
Context {A : Type} (lt : A -> A -> bool).

Fixpoint insert_desc (x : A) (l : list A) : list A :=
  match l with
  | [] => [x]
  | y :: ys => if lt x y then y :: insert_desc x ys else x :: l
  end.

Definition sorted_desc (l : list A) : list A := fold_right insert_desc [] l.
End SortDesc.

(** [c.most_common(n)]: the [n] largest counts, first-inserted first among
    equal counts. *)
Definition most_common {K : Type} (n : nat) (c : list (K * Z)) : list (K * Z) :=
  firstn n (sorted_desc (fun a b => snd a <? snd b) c).

(** The same sort for [datetime] keys, whose comparison can raise.  The sort
    compares every element with one placed before it, so a key list mixing
    naive and aware datetimes always raises, as it does in CPython's
    [list.sort]. *)
Section SortDatetime.
Context {A : Type} (key : A -> datetime).

Fixpoint insert_desc_dt (x : A) (l : list A) : result (list A) :=
  match l with
  | [] => Ok [x]
  | y :: ys =>
      match datetime_lt (key x) (key y) with
      | Raise e => Raise e
      | Ok true =>
          match insert_desc_dt x ys with
          | Ok r => Ok (y :: r)
          | Raise e => Raise e
          end
      | Ok false => Ok (x :: l)
      end
  end.

Fixpoint sorted_desc_dt (l : list A) : result (list A) :=
  match l with
  | [] => Ok []
  | x :: r =>
      match sorted_desc_dt r with
      | Ok r' => insert_desc_dt x r'
      | Raise e => Raise e
      end
  end.
End SortDatetime.

(** ** Product records (the output of [normalize_product]) *)

Record product := {
  title : option string;
  product_url : option string;
  created_at : option string;
  published_at : option string;
  updated_at : option string;
  vendor : option string;
  variants_count : option Z;
  available : bool;
  price_min : option Q;
  compare_at_min : option Q;
  images : list string
}.

(** [a or b] on optional values none of which is falsy when present. *)
Definition or_else {A : Type} (a b : option A) : option A :=
  match a with
  | Some _ => a
  | None => b
  end.

Definition count_if {A : Type} (f : A -> bool) (l : list A) : Z := len (filter f l).

(** ** Bulk-update detection *)

(** [detect_bulk_update_spike(update_datetimes, bucket)]. *)
Definition detect_bulk_update_spike (update_datetimes : list Z) (bucket : string)
  : bool * option string * Q :=
  match update_datetimes with
  | [] => (false, None, 0%Q)
  | _ =>
      let key_fn := if String.eqb bucket "hour" then strftime_ymdh else strftime_ymd in
      let buckets := map key_fn update_datetimes in
      let c := Counter String.eqb buckets in
      match most_common 1 c with
      | (top_bucket, top_count) :: _ =>
          let dominant_pct :=
            round_nd (100 * inject_Z top_count / inject_Z (len update_datetimes)) 1 in
          let is_bulk := Qle_bool 70 dominant_pct && (30 <=? len update_datetimes) in
          (is_bulk, Some top_bucket, dominant_pct)
      | [] => (false, None, 0%Q)
      end
  end.

Definition GRACE_SECONDS : Z := 6 * 3600.

(** [bucket_day(dt)]. *)
Definition bucket_day (dt : Z) : string := strftime_ymd dt.

(** Lines 153-167 of [compute_new_vs_old_and_updates]: the organic updates
    [filtered_updates] and [bulk_filter_applied]. *)
Definition organic_updates (meaningful_updates : list Z) (is_bulk : bool)
    (top_bucket : option string) : list Z * bool :=
  match is_bulk, top_bucket with
  | true, Some tb =>
      if String.eqb tb EmptyString then (meaningful_updates, false)
      else
        let candidate :=
          filter (fun d => negb (String.eqb (bucket_day d) tb)) meaningful_updates in
        if 10 <=? len candidate then (candidate, true)
        else (meaningful_updates, false)
  | _, _ => (meaningful_updates, false)
  end.

Record new_old := {
  created_30 : Z; created_90 : Z; created_180 : Z;
  created_30_pct : Q; created_90_pct : Q; created_180_pct : Q;
  catalog_median_price : option Q;
  new_90_median_price : option Q
}.

Record update_activity := {
  updated_30 : Z; updated_90 : Z; updated_180 : Z;
  updated_30_pct : Q; updated_90_pct : Q; updated_180_pct : Q;
  updated_30_raw : Z; updated_90_raw : Z; updated_180_raw : Z;
  updated_30_raw_pct : Q; updated_90_raw_pct : Q; updated_180_raw_pct : Q;
  meaningful_update_count : Z;
  organic_update_count : Z;
  bulk_update_flag : bool;
  bulk_update_bucket : option string;
  bulk_update_dominant_pct : Q;
  bulk_filter_applied : bool
}.

(** ** The clock and exceptions *)

(** A computation that reads the clock (the next reading is number [k]) and
    may raise. *)
Definition M (A : Type) : Type := nat -> result (A * nat).

Definition ret {A : Type} (a : A) : M A := fun k => Ok (a, k).

Definition bind {A B : Type} (c : M A) (f : A -> M B) : M B :=
  fun k =>
    match c k with
    | Ok (a, k') => f a k'
    | Raise e => Raise e
    end.

Definition lift {A : Type} (r : result A) : M A :=
  fun k =>
    match r with
    | Ok a => Ok (a, k)
    | Raise e => Raise e
    end.

Notation "x <- c ;; f" := (bind c (fun x => f))
  (at level 61, c at next level, right associativity).

Section Analyze.

(** [datetime.fromisoformat]: the local time in microseconds and the UTC
    offset if the string carries one, or [None] when it raises. *)
Variable fromisoformat : string -> option (Z * option Z).

(** The readings of the system clock, in the order they are taken. *)
Variable clock : nat -> Z.

(** [parse_dt(s)]: the instant of the aware UTC datetime it returns. *)
Definition parse_dt (s : option string) : option Z :=
  match s with
  | None => None
  | Some s =>
      if String.eqb s EmptyString then None
      else
        let ss := replace_final_Z (strip s) in
        match fromisoformat ss with
        | None => None
        | Some (wall, off) =>
            let t := match off with
                     | None => wall
                     | Some o => wall - o
                     end in
            if (0 <=? t) && (t <=? MAX_US) then Some t else None
        end
  end.

(** [now_utc()]; also [datetime.now(timezone.utc)] and [datetime.utcnow()]. *)
Definition now_utc : M Z := fun k => Ok (clock k, S k).

(** [cutoff_days(days)]. *)
Definition cutoff_days (n : Z) : M Z :=
  now <- now_utc ;; ret (now - days n).

(** The closures [created_dt], [updated_dt] and [meaningful_update_dt]. *)
Definition created_dt (p : product) : option Z :=
  or_else (parse_dt (created_at p)) (parse_dt (published_at p)).

Definition updated_dt (p : product) : option Z := parse_dt (updated_at p).

Definition meaningful_update_dt (p : product) : option Z :=
  match updated_dt p with
  | None => None
  | Some ud =>
      match created_dt p with
      | Some cd =>
          if Z.abs (ud - cd) <=? GRACE_SECONDS * US_PER_SECOND then None else Some ud
      | None => Some ud
      end
  end.

Definition created_since (cutoff : Z) (p : product) : bool :=
  match created_dt p with
  | Some cd => cutoff <=? cd
  | None => false
  end.

(** [meaningful_updates]: one entry per product that has one. *)
Definition meaningful_updates (products : list product) : list Z :=
  somes (map meaningful_update_dt products).

(** The body of [compute_new_vs_old_and_updates] after the clock was read. *)
Definition new_vs_old_and_updates_at (now : Z) (products : list product)
  : option new_old * option update_activity :=
  let total := len products in
  if total =? 0 then (None, None)
  else
    let w30 := now - days 30 in
    let w90 := now - days 90 in
    let w180 := now - days 180 in
    let group (cutoff : Z) := filter (created_since cutoff) products in
    let mu := meaningful_updates products in
    let '(is_bulk, top_bucket, dominant_pct) := detect_bulk_update_spike mu "day" in
    let '(filtered_updates, applied) := organic_updates mu is_bulk top_bucket in
    let organic_cnt (cutoff : Z) := count_if (fun d => cutoff <=? d) filtered_updates in
    let raw_cnt (cutoff : Z) := count_if (fun d => cutoff <=? d) mu in
    let catalog_median := median_or_none (map (fun p => safe_float (price_min p)) products) in
    let new_90_median :=
      median_or_none (map (fun p => safe_float (price_min p)) (group w90)) in
    (Some {| created_30 := len (group w30);
             created_90 := len (group w90);
             created_180 := len (group w180);
             created_30_pct := pct (len (group w30)) total;
             created_90_pct := pct (len (group w90)) total;
             created_180_pct := pct (len (group w180)) total;
             catalog_median_price := catalog_median;
             new_90_median_price := new_90_median |},
     Some {| updated_30 := organic_cnt w30;
             updated_90 := organic_cnt w90;
             updated_180 := organic_cnt w180;
             updated_30_pct := pct (organic_cnt w30) total;
             updated_90_pct := pct (organic_cnt w90) total;
             updated_180_pct := pct (organic_cnt w180) total;
             updated_30_raw := raw_cnt w30;
             updated_90_raw := raw_cnt w90;
             updated_180_raw := raw_cnt w180;
             updated_30_raw_pct := pct (raw_cnt w30) total;
             updated_90_raw_pct := pct (raw_cnt w90) total;
             updated_180_raw_pct := pct (raw_cnt w180) total;
             meaningful_update_count := len mu;
             organic_update_count := len filtered_updates;
             bulk_update_flag := is_bulk;
             bulk_update_bucket := top_bucket;
             bulk_update_dominant_pct := dominant_pct;
             bulk_filter_applied := applied |}).

(** [compute_new_vs_old_and_updates(products)]. *)
Definition compute_new_vs_old_and_updates (products : list product)
  : M (option new_old * option update_activity) :=
  now <- now_utc ;; ret (new_vs_old_and_updates_at now products).

(** ** Launch timeline *)

Section SortAsc.
Context {A : Type} (lt : A -> A -> bool).

Fixpoint insert_asc_by (x : A) (l : list A) : list A :=
  match l with
  | [] => [x]
  | y :: ys => if lt y x then y :: insert_asc_by x ys else x :: l
  end.

(** Stable ascending sort: [l.sort(key=...)]; [lt a b] is [key(a) < key(b)]. *)
Definition sorted_asc_by (l : list A) : list A := fold_right insert_asc_by [] l.
End SortAsc.

Record launch_count := { lc_count : Z; lc_pct : Q }.

Record launch_counts_t := {
  lc_7d : launch_count; lc_30d : launch_count; lc_90d : launch_count;
  lc_180d : launch_count; lc_1yr : launch_count
}.

Record velocity_t := { last_30d : Q; last_90d : Q; last_1yr : Q }.

Record acceleration_t := { accel_30d_vs_90d_pct : option Q; trend : string }.

Record price_positioning_t := {
  pp_catalog_median : option Q;
  pp_new_30d_median : option Q;
  pp_new_90d_median : option Q;
  pp_delta_30d_pct : option Q;
  pp_delta_90d_pct : option Q;
  pp_strategy : string
}.

Record vendor_share := { vs_vendor : option string; vs_count : Z; vs_pct : Q }.

Record product_age := { pa_title : option string; pa_created : string; pa_age_days : Z }.

Record launch_full := {
  launch_counts : launch_counts_t;
  velocity : velocity_t;
  acceleration : acceleration_t;
  price_positioning : price_positioning_t;
  monthly_counts : list (string * Z);
  peak_months : list (string * Z);
  new_vendors_90d_top_3 : list vendor_share;
  oldest_product : option product_age;
  newest_product : option product_age
}.

(** The value of [analyze_launch_timeline]: [{}], the error marker, or the
    full section. *)
Inductive launch :=
| LaunchEmpty
| LaunchError (msg : string)
| LaunchFull (l : launch_full).

(** Truthiness of an optional float and of an optional string. *)
Definition truthy_q (o : option Q) : bool :=
  match o with
  | Some x => negb (Qeq_bool x 0)
  | None => false
  end.

Definition truthy_s (o : option string) : bool :=
  match o with
  | Some x => negb (String.eqb x EmptyString)
  | None => false
  end.

(** [calc_velocity(days, count)]. *)
Definition calc_velocity (ndays count : Z) : Q :=
  if ndays =? 0 then 0%Q
  else
    let months := (inject_Z ndays / 30)%Q in
    if Qlt_bool 0 months then round_nd (inject_Z count / months) 1 else 0%Q.

(** [delta_pct(new_val, catalog_val)] of [analyze_launch_timeline]. *)
Definition launch_delta_pct (new_val catalog_val : option Q) : option Q :=
  match new_val, catalog_val with
  | Some n, Some c =>
      if Qeq_bool c 0 then None else Some (round_nd ((n - c) / c * 100) 1)
  | _, _ => None
  end.

Definition positive_price (o : option Q) : option Q :=
  match o with
  | Some x => if Qlt_bool 0 x then Some x else None
  | None => None
  end.

Definition median_2 (xs : list Q) : option Q :=
  match xs with
  | [] => None
  | _ => Some (round_nd (median xs) 2)
  end.

Definition option_eqb (a b : option string) : bool :=
  match a, b with
  | Some x, Some y => String.eqb x y
  | None, None => true
  | _, _ => false
  end.

(** The body of [analyze_launch_timeline] after the clock was read. *)
Definition launch_timeline_at (now : Z) (products : list product) : launch :=
  let total := len products in
  let dated :=
    somes (map (fun p => match created_dt p with
                         | Some dt => Some (p, dt)
                         | None => None
                         end) products) in
  match dated with
  | [] => LaunchError "No products have created_at/published_at dates"
  | _ =>
      let dated_products := sorted_asc_by (fun a b => snd a <? snd b) dated in
      let group (n : Z) := filter (fun dp => now - days n <=? snd dp) dated_products in
      let count (n : Z) :=
        {| lc_count := len (group n); lc_pct := pct (len (group n)) total |} in
      let v30 := calc_velocity 30 (len (group 30)) in
      let v90 := calc_velocity 90 (len (group 90)) in
      let v1y := calc_velocity 365 (len (group 365)) in
      let accel_30_vs_90 :=
        if Qlt_bool 0 v90 then Some (round_nd ((v30 - v90) / v90 * 100) 1) else None in
      let catalog_prices := somes (map (fun p => positive_price (safe_float (price_min p))) products) in
      let catalog_median := median_2 catalog_prices in
      let new_prices (n : Z) :=
        somes (map (fun dp => positive_price (safe_float (price_min (fst dp)))) (group n)) in
      let new_30d_median := median_2 (new_prices 30) in
      let new_90d_median := median_2 (new_prices 90) in
      let price_delta_30d := launch_delta_pct new_30d_median catalog_median in
      let price_delta_90d := launch_delta_pct new_90d_median catalog_median in
      let monthly := Counter String.eqb (map (fun dp => strftime_ym (snd dp)) (group 365)) in
      let new_90d_vendors := Counter option_eqb (map (fun dp => vendor (fst dp)) (group 90)) in
      let age (dp : product * Z) :=
        {| pa_title := title (fst dp);
           pa_created := strftime_ymd (snd dp);
           pa_age_days := timedelta_days (now - snd dp) |} in
      LaunchFull
        {| launch_counts :=
             {| lc_7d := count 7; lc_30d := count 30; lc_90d := count 90;
                lc_180d := count 180; lc_1yr := count 365 |};
           velocity := {| last_30d := v30; last_90d := v90; last_1yr := v1y |};
           acceleration :=
             {| accel_30d_vs_90d_pct := accel_30_vs_90;
                trend :=
                  match accel_30_vs_90 with
                  | Some a =>
                      if truthy_q accel_30_vs_90 && Qlt_bool 15 a then "Accelerating"
                      else if truthy_q accel_30_vs_90 && Qlt_bool a (-15) then "Decelerating"
                      else "Steady"
                  | None => "Steady"
                  end |};
           price_positioning :=
             {| pp_catalog_median := catalog_median;
                pp_new_30d_median := new_30d_median;
                pp_new_90d_median := new_90d_median;
                pp_delta_30d_pct := price_delta_30d;
                pp_delta_90d_pct := price_delta_90d;
                pp_strategy :=
                  match price_delta_90d with
                  | Some d =>
                      if truthy_q price_delta_90d && Qlt_bool 15 d then "Premium expansion"
                      else if truthy_q price_delta_90d && Qlt_bool d (-15) then "Budget expansion"
                      else "Consistent positioning"
                  | None => "Consistent positioning"
                  end |};
           monthly_counts := monthly;
           peak_months := most_common 3 monthly;
           new_vendors_90d_top_3 :=
             match group 90 with
             | [] => []
             | _ =>
                 map (fun vc => {| vs_vendor := fst vc; vs_count := snd vc;
                                   vs_pct := pct (snd vc) (len (group 90)) |})
                     (most_common 3 new_90d_vendors)
             end;
           oldest_product := option_map age (hd_error dated_products);
           newest_product := option_map age (hd_error (rev dated_products)) |}
  end.

(** [analyze_launch_timeline(products)]: the clock is read only when there
    are products. *)
Definition analyze_launch_timeline (products : list product) : M launch :=
  if len products =? 0 then ret LaunchEmpty
  else now <- now_utc ;; ret (launch_timeline_at now products).

(** [generate_launch_insights(analysis)]. *)
Definition generate_launch_insights (analysis : launch) : list string :=
  let full := match analysis with
              | LaunchFull l => Some l
              | _ => None
              end in
  let v30 := option_map (fun l => last_30d (velocity l)) full in
  let v30_val := match v30 with Some v => v | None => 0%Q end in
  let v30_str := match v30 with Some v => str_float v | None => "0"%string end in
  let velocity_insight :=
    if Qle_bool 10 v30_val then
      [String.append "High launch velocity: "
         (String.append v30_str " products/month recently, indicating aggressive expansion.")]
    else if Qle_bool 3 v30_val then
      [String.append "Moderate launch velocity: "
         (String.append v30_str " products/month, showing steady growth.")]
    else
      [String.append "Low launch velocity: "
         (String.append v30_str " products/month, suggesting mature/stable catalog.")] in
  let acceleration_insight :=
    match full with
    | Some l =>
        let accel_val := accel_30d_vs_90d_pct (acceleration l) in
        match accel_val with
        | Some a =>
            if String.eqb (trend (acceleration l)) "Accelerating" && truthy_q accel_val then
              [String.append "Launch rate accelerating ("
                 (String.append (fmt_fixed true 0 a) "% vs 90d avg)—they're ramping up.")]
            else if String.eqb (trend (acceleration l)) "Decelerating" && truthy_q accel_val then
              [String.append "Launch rate decelerating ("
                 (String.append (fmt_fixed true 0 a) "% vs 90d avg)—expansion cooling off.")]
            else []
        | None => []
        end
    | None => []
    end in
  let strategy_insight :=
    match full with
    | Some l =>
        let pp := price_positioning l in
        match pp_delta_90d_pct pp, pp_new_90d_median pp, pp_catalog_median pp with
        | Some delta, Some new_median, Some cat_median =>
            if negb (String.eqb (pp_strategy pp) EmptyString)
               && truthy_q (Some new_median) && truthy_q (Some cat_median)
            then
              [String.append (pp_strategy pp)
                 (String.append ": New products (90d) at $"
                    (String.append (str_float new_median)
                       (String.append " vs catalog $"
                          (String.append (str_float cat_median)
                             (String.append " ("
                                (String.append (fmt_fixed true 0 delta) "% delta)."))))))]
            else []
        | _, _, _ => []
        end
    | None => []
    end in
  let recency_insight :=
    match full with
    | Some l =>
        let c := lc_30d (launch_counts l) in
        if Qle_bool 5 (lc_pct c) then
          [String.append (str_float (lc_pct c))
             (String.append "% of catalog ("
                (String.append (str_int (lc_count c))
                   " products) launched in last 30 days—very fresh inventory."))]
        else []
    | None => []
    end in
  (velocity_insight ++ acceleration_insight ++ strategy_insight ++ recency_insight)%list.

(** ** The report *)

Record count_pct := { cp_count : Z; cp_pct : Q }.

Record cohort := { d30 : count_pct; d90 : count_pct; d180 : count_pct; missing : Z }.

Record new_vs_old_t := { nvo_total : Z; created : cohort; updated : cohort }.

(** [comparisons.update_activity]: the fields of the update pack that the
    report repeats. *)
Record update_view := {
  uv_updated_30 : Z; uv_updated_30_pct : Q;
  uv_updated_90 : Z; uv_updated_90_pct : Q;
  uv_bulk_update_flag : bool;
  uv_bulk_update_bucket : option string;
  uv_bulk_update_dominant_pct : Q;
  uv_bulk_filter_applied : bool;
  uv_updated_30_raw : Z; uv_updated_30_raw_pct : Q;
  uv_updated_90_raw : Z; uv_updated_90_raw_pct : Q
}.

Record discounted_vs_full := {
  dvf_discounted_count : Z;
  dvf_discounted_pct : Q;
  dvf_discounted_median_price : option Q;
  dvf_full_price_median_price : option Q
}.

Record comparisons_t := {
  cmp_new_vs_old : new_old;
  cmp_update_activity : update_view;
  cmp_discounted_vs_full_price : discounted_vs_full
}.

Record score_t := { score : Z; label : string; note : string }.

Record positioning_t := {
  market_position_label : string;
  market_position_note : string;
  promo_intensity : score_t;
  launch_velocity : score_t;
  catalog_complexity : score_t
}.

Record catalog_t := {
  total_products : Z;
  in_stock_count : Z;
  in_stock_pct : Q;
  out_of_stock_count : Z;
  out_of_stock_pct : Q;
  vendors : list (string * Z);
  vendor_count : Z
}.

Record pricing_t := {
  pr_count : Z;
  pr_min : option Q;
  pr_max : option Q;
  pr_median : option Q;
  pr_p25 : option Q;
  pr_p75 : option Q;
  pr_buckets : list (string * Z);
  pr_bucket_order : list string
}.

Record discounts_t := {
  discounted_count : Z;
  discounted_pct : Q;
  avg_discount_pct : option Q;
  median_discount_pct : option Q;
  max_discount_pct : option Q;
  discounts_note : string
}.

Record content_signals_t := {
  avg_images_per_product : Q;
  avg_variants_per_product : option Q
}.

(** The projection [compact(p)] of a product in the top-N lists. *)
Record compact_t := {
  c_title : option string;
  c_product_url : option string;
  c_price_min : option Q;
  c_compare_at_min : option Q;
  c_available : bool;
  c_vendor : option string;
  c_discount_pct : option Q;
  c_created_at : option string;
  c_updated_at : option string;
  c_images : list string
}.

Record lists_t := {
  top_expensive : list compact_t;
  top_discounts : list compact_t;
  newest_products : list compact_t;
  recently_updated : list compact_t
}.

Record report := {
  generated_at : string;
  takeaways : list string;
  positioning : positioning_t;
  new_vs_old : new_vs_old_t;
  comparisons : comparisons_t;
  confidence_notes : list string;
  launch_timeline : launch;
  catalog : catalog_t;
  pricing : pricing_t;
  discounts : discounts_t;
  content_signals : content_signals_t;
  lists : lists_t
}.

(** [comparative], the intermediate dictionary of [analyze_products]. *)
Record comparative_t := {
  discounted_share : count_pct;
  median_price_discounted : option Q;
  median_price_full : option Q;
  cmp_median_discount_pct : option Q;
  np_count : Z;
  np_pct : Q;
  np_median_price : option Q;
  np_catalog_median_price : option Q;
  np_price_delta_pct : option Q
}.

Definition zsum (xs : list Z) : Z := fold_left Z.add xs 0.

(** [min(xs)] and [max(xs)] on a list of floats (first extremum wins). *)
Definition list_min (xs : list Q) : option Q :=
  match xs with
  | [] => None
  | x :: r => Some (fold_left (fun m y => if Qlt_bool y m then y else m) r x)
  end.

Definition list_max (xs : list Q) : option Q :=
  match xs with
  | [] => None
  | x :: r => Some (fold_left (fun m y => if Qlt_bool m y then y else m) r x)
  end.

Definition is_some {A : Type} (o : option A) : bool :=
  match o with
  | Some _ => true
  | None => false
  end.

Definition round_opt (o : option Q) : option Q := option_map (fun x => round_nd x 2) o.

(** [x or -1] for an optional float. *)
Definition or_minus_one (o : option Q) : Q :=
  match o with
  | Some x => if Qeq_bool x 0 then (-1)%Q else x
  | None => (-1)%Q
  end.

(** [a < b] on the [(bool, float)] sort keys. *)
Definition key_lt (a b : bool * Q) : bool :=
  if Bool.eqb (fst a) (fst b) then Qlt_bool (snd a) (snd b)
  else negb (fst a) && fst b.

(** The closures [expensive_key] and [discount_key]. *)
Definition expensive_key (p : product) : bool * Q :=
  let v := safe_float (price_min p) in (is_some v, or_minus_one v).

Definition discount_key (p : product) : bool * Q :=
  let d := compute_discount_pct (safe_float (price_min p)) (safe_float (compare_at_min p)) in
  (is_some d, or_minus_one d).

(** The closures [newest_dt] and [updated_dt] used as sort keys. *)
Definition newest_dt (p : product) : datetime :=
  match or_else (parse_dt (created_at p)) (parse_dt (published_at p)) with
  | Some t => Aware t
  | None => datetime_min
  end.

Definition updated_key (p : product) : datetime :=
  match parse_dt (updated_at p) with
  | Some t => Aware t
  | None => datetime_min
  end.

(** [compact(p)]. *)
Definition compact (p : product) : compact_t :=
  let pr := safe_float (price_min p) in
  let ca := safe_float (compare_at_min p) in
  {| c_title := title p;
     c_product_url := product_url p;
     c_price_min := pr;
     c_compare_at_min := ca;
     c_available := available p;
     c_vendor := vendor p;
     c_discount_pct := compute_discount_pct pr ca;
     c_created_at := created_at p;
     c_updated_at := updated_at p;
     c_images := firstn 1 (images p) |}.

(** [count_since(dts, days)]. *)
Definition count_since (dts : list (option Z)) (n : Z) : M Z :=
  cut <- cutoff_days n ;;
  ret (count_if (fun d => match d with
                          | Some t => cut <=? t
                          | None => false
                          end) dts).

(** Local values of [analyze_products] that depend on the products only. *)
Definition prices_all (products : list product) : list (option Q) :=
  map (fun p => safe_float (price_min p)) products.

Definition prices_pos (products : list product) : list Q :=
  somes (map positive_price (prices_all products)).

Definition zero_price_count (products : list product) : Z :=
  count_if (fun x => match x with
                     | Some v => Qeq_bool v 0
                     | None => false
                     end) (prices_all products).

Definition priced_count (products : list product) : Z :=
  count_if is_some (prices_all products).

Definition bucket_counts (products : list product) : list (string * Z) :=
  Counter String.eqb (map price_bucket (prices_pos products)).

Definition discounts_of (products : list product) : list Q :=
  somes (map (fun p =>
                match positive_price (safe_float (price_min p)) with
                | Some pr => compute_discount_pct (Some pr) (safe_float (compare_at_min p))
                | None => None
                end) products).

Definition in_stock (products : list product) : list product :=
  filter (fun p => available p) products.

Definition out_stock (products : list product) : list product :=
  filter (fun p => negb (available p)) products.

Definition vendors_of (products : list product) : list (string * Z) :=
  Counter String.eqb
    (map (fun p => strip (if truthy_s (vendor p)
                          then match vendor p with Some v => v | None => "Unknown" end
                          else "Unknown")) products).

Definition avg_images (products : list product) : Q :=
  if len products =? 0 then 0%Q
  else round_nd (inject_Z (zsum (map (fun p => len (images p)) products))
                 / inject_Z (len products)) 2.

Definition avg_variants (products : list product) : option Q :=
  match somes (map variants_count products) with
  | [] => None
  | vs => Some (round_nd (inject_Z (zsum vs) / inject_Z (len vs)) 2)
  end.

Definition price_median (products : list product) : option Q :=
  match prices_pos products with
  | [] => None
  | xs => Some (median xs)
  end.

(** The comparative loop: prices of discounted and of full-price products,
    and the discount percentages. *)
Definition discounted_prices (products : list product) : list Q :=
  somes (map (fun p =>
                match safe_float (price_min p) with
                | Some pr =>
                    if is_some (compute_discount_pct (Some pr) (safe_float (compare_at_min p)))
                    then Some pr else None
                | None => None
                end) products).

Definition full_prices (products : list product) : list Q :=
  somes (map (fun p =>
                match safe_float (price_min p) with
                | Some pr =>
                    if is_some (compute_discount_pct (Some pr) (safe_float (compare_at_min p)))
                    then None else Some pr
                | None => None
                end) products).

Definition discount_pcts (products : list product) : list Q :=
  somes (map (fun p =>
                match safe_float (price_min p) with
                | Some pr => compute_discount_pct (Some pr) (safe_float (compare_at_min p))
                | None => None
                end) products).

(** [delta_pct(a, b)] of [analyze_products]. *)
Definition delta_pct (a b : option Q) : option Q :=
  match a, b with
  | Some x, Some y =>
      if Qeq_bool y 0 then None else Some (round_nd ((x - y) / y * 100) 2)
  | _, _ => None
  end.

Definition comparative_of (cut90 : Z) (products : list product) : comparative_t :=
  let total := len products in
  let new90_prices :=
    somes (map (fun p =>
                  match created_dt p, safe_float (price_min p) with
                  | Some dt, Some pr => if cut90 <=? dt then Some pr else None
                  | _, _ => None
                  end) products) in
  let new90_median := median_or_none (map Some new90_prices) in
  let full_median := median_or_none (map Some (full_prices products)) in
  let disc_median := median_or_none (map Some (discounted_prices products)) in
  let disc_pct_median := median_or_none (map Some (discount_pcts products)) in
  {| discounted_share :=
       {| cp_count := len (discounted_prices products);
          cp_pct := pct (len (discounted_prices products)) total |};
     median_price_discounted := round_opt disc_median;
     median_price_full := round_opt full_median;
     cmp_median_discount_pct := round_opt disc_pct_median;
     np_count := len new90_prices;
     np_pct := pct (len new90_prices) total;
     np_median_price := round_opt new90_median;
     np_catalog_median_price := round_opt (price_median products);
     np_price_delta_pct := delta_pct new90_median (price_median products) |}.

Definition market_position_of (products : list product) : string :=
  match price_median products with
  | None => "—"
  | Some m =>
      if Qlt_bool m 40 then "Budget"
      else if Qlt_bool m 120 then "Mid-Market"
      else "Premium"
  end.

Definition scored (s : Z) (n : string) : score_t :=
  {| score := s; label := score_label s; note := n |}.

Definition positioning_of (comparative : comparative_t) (created_d90_pct : Q)
    (updated_90_pct : Q) (products : list product) : positioning_t :=
  let total := len products in
  let promo_intensity_score :=
    score_weighted [(Some (cp_pct (discounted_share comparative)), (6 # 10)%Q);
                    (cmp_median_discount_pct comparative, (4 # 10)%Q)] in
  let launch_velocity_score :=
    score_weighted [(Some created_d90_pct, (6 # 10)%Q); (Some updated_90_pct, (4 # 10)%Q)] in
  let spread_score :=
    match list_min (prices_pos products), list_max (prices_pos products) with
    | Some lo, Some hi =>
        if Qlt_bool lo hi then Some (clamp ((hi - lo) / 300 * 100)) else None
    | _, _ => None
    end in
  let size_score := clamp (inject_Z total / 2500 * 100) in
  let variants_score :=
    option_map (fun a => clamp ((a - 1) / 4 * 100)) (avg_variants products) in
  let catalog_complexity_score :=
    score_weighted [(Some size_score, (45 # 100)%Q);
                    (spread_score, (35 # 100)%Q);
                    (variants_score, (20 # 100)%Q)] in
  {| market_position_label := market_position_of products;
     market_position_note := "Based on catalog median price (simple heuristic).";
     promo_intensity :=
       scored promo_intensity_score "Blend of discounted share + median discount depth.";
     launch_velocity :=
       scored launch_velocity_score "Blend of new product + update activity (last 90 days).";
     catalog_complexity :=
       scored catalog_complexity_score "Blend of catalog size + price spread + variants." |}.

(** ** Takeaways and confidence notes *)

Definition opt_list {A : Type} (o : option A) : list A :=
  match o with
  | Some x => [x]
  | None => []
  end.

(** [compute_confidence_notes(products)]. *)
Definition compute_confidence_notes (products : list product) : list string :=
  let total := len products in
  if total =? 0 then
    ["No products were returned from /products.json. This store may block Shopify product JSON access or is not Shopify."%string]
  else
    let missing_created :=
      count_if (fun p => negb (truthy_s (created_at p) || truthy_s (published_at p))) products in
    let missing_updated := count_if (fun p => negb (truthy_s (updated_at p))) products in
    let missing_prices := count_if (fun p => negb (is_some (safe_float (price_min p)))) products in
    let missing_compare :=
      count_if (fun p => negb (is_some (safe_float (compare_at_min p)))) products in
    [ "This report is based only on the public Shopify product catalog endpoint (/products.json). It does not include traffic, conversion rate, ads, or checkout data."%string;
      String.append "Date coverage: "
        (String.append (str_float (pct (total - missing_created) total))
           (String.append "% of products include created/published dates; "
              (String.append (str_float (pct (total - missing_updated) total))
                 "% include updated_at.")));
      String.append "Pricing coverage: "
        (String.append (str_float (pct (total - missing_prices) total))
           "% of products include a usable price.");
      String.append "Discount coverage: "
        (String.append (str_float (pct (total - missing_compare) total))
           "% include compare-at pricing fields (discounts only count when compare_at > price).");
      "If a store returns HTML/404 for /products.json, it may be non-Shopify, headless Shopify with restrictions, or intentionally blocking the endpoint."%string ].

(** The sentences that [analyze_products] appends to [takeaways] inside
    [if total:], after the launch insights. *)
Definition catalog_takeaways (newest : list product) (products : list product)
  : list string :=
  let total := len products in
  if total =? 0 then []
  else
    let in_stock_pct := pct (len (in_stock products)) total in
    let disc_pct := pct (len (discounts_of products)) total in
    let stock :=
      String.append (str_float in_stock_pct)
        (String.append "% of products are currently in stock, which suggests "
           (String.append
              (if Qle_bool 80 in_stock_pct then "stable inventory"
               else "potential stock gaps to exploit") ".")) in
    let disc :=
      String.append (str_float disc_pct)
        (String.append "% of products show valid discounts (compare-at > price), indicating "
           (String.append
              (if Qle_bool 30 disc_pct then "aggressive promotion"
               else "limited discounting") ".")) in
    let span :=
      match price_median products, list_min (prices_pos products),
            list_max (prices_pos products) with
      | Some med, Some lo, Some hi =>
          Some (String.append "Pricing spans $"
                  (String.append (fmt_fixed false 2 lo)
                     (String.append "–$"
                        (String.append (fmt_fixed false 2 hi)
                           (String.append " with a median of $"
                              (String.append (fmt_fixed false 2 med)
                                 ". Position your core offer near the median to compete directly."))))))
      | _, _, _ => None
      end in
    let band :=
      match most_common 1 (bucket_counts products) with
      | (top_bucket, top_bucket_count) :: _ =>
          Some (String.append "The dominant price band is "
                  (String.append top_bucket
                     (String.append " ("
                        (String.append (str_float (pct top_bucket_count total))
                           "% of products), showing where they primarily compete."))))
      | [] => None
      end in
    let newest_prices := somes (map (fun p => safe_float (price_min p)) newest) in
    let skew :=
      match price_median products, newest_prices with
      | Some med, _ :: _ =>
          let newest_med := median newest_prices in
          if Qlt_bool med newest_med then
            Some "Newest products skew above the store median price, suggesting a premium expansion strategy."%string
          else if Qlt_bool newest_med med then
            Some "Newest products skew below the store median price, suggesting a push toward cheaper volume offers."%string
          else
            Some "Newest products price near the median, suggesting steady positioning rather than a strategic shift."%string
      | _, _ => None
      end in
    let variants :=
      match avg_variants products with
      | Some a =>
          if Qle_bool a (13 # 10) then
            Some "Most products have few variants, suggesting a simpler catalog (often easier ops) and fewer customization options."%string
          else
            Some "Products have multiple variants on average, suggesting upsell/option strategy (sizes, bundles, tiers)."%string
      | None => None
      end in
    ([stock; disc] ++ opt_list span ++ opt_list band ++ opt_list skew ++ opt_list variants)%list.

(** The notes appended to [confidence_notes] before the provenance notes
    of [compute_confidence_notes]. *)
Definition coverage_notes (nvo : new_vs_old_t) (comparative : comparative_t)
    (out_updates : option update_activity) (products : list product) : list string :=
  let total := len products in
  let pricing_notes :=
    if total =? 0 then []
    else
      ((if 0 <? zero_price_count products then
          [String.append (str_int (zero_price_count products))
             " products had a  $0 price and were excluded from price statistics (ofetn samples, placeholders, or gated pricing)"]
        else [])
       ++ (if priced_count products =? 0 then
             ["No usable pricing was found in the public products.json feed"%string]
           else []))%list in
  let timestamp_notes :=
    if total =? 0 then []
    else
      let cm := pct (missing (created nvo)) total in
      let um := pct (missing (updated nvo)) total in
      ((if Qlt_bool 20 cm then
          [String.append "Created dates missing for "
             (String.append (str_float cm)
                "% of products; new-product timing may be understated.")]
        else [])
       ++ (if Qlt_bool 20 um then
             [String.append "Updated dates missing for "
                (String.append (str_float um)
                   "% of products; update-activity may be understated.")]
           else []))%list in
  let discount_notes :=
    if negb (total =? 0) && Qlt_bool (cp_pct (discounted_share comparative)) 5 then
      ["Low discount detection: store may not use compare-at pricing consistently."%string]
    else [] in
  let bulk_notes :=
    match out_updates with
    | Some u =>
        if bulk_update_flag u then
          [String.append "Update activity may be inflated: "
             (String.append (str_float (bulk_update_dominant_pct u))
                (String.append "% of meaningful updates occurred on "
                   (String.append
                      (match bulk_update_bucket u with
                       | Some b => b
                       | None => "None"
                       end)
                      (String.append ". "
                         (if bulk_filter_applied u
                          then "We filtered that spike to estimate organic edits."
                          else "Spike detected, but filtering would remove nearly all updates—showing meaningful updates instead.")))))]
        else []
    | None => []
    end in
  (pricing_notes ++ timestamp_notes ++ discount_notes ++ bulk_notes)%list.

(** ** Assembly *)

Definition default_new_old : new_old :=
  {| created_30 := 0; created_90 := 0; created_180 := 0;
     created_30_pct := 0; created_90_pct := 0; created_180_pct := 0;
     catalog_median_price := None; new_90_median_price := None |}.

(** [out_updates.get(key, default)] for the keys the report repeats. *)
Definition update_view_of (out_updates : option update_activity) : update_view :=
  match out_updates with
  | Some u =>
      {| uv_updated_30 := updated_30 u; uv_updated_30_pct := updated_30_pct u;
         uv_updated_90 := updated_90 u; uv_updated_90_pct := updated_90_pct u;
         uv_bulk_update_flag := bulk_update_flag u;
         uv_bulk_update_bucket := bulk_update_bucket u;
         uv_bulk_update_dominant_pct := bulk_update_dominant_pct u;
         uv_bulk_filter_applied := bulk_filter_applied u;
         uv_updated_30_raw := updated_30_raw u;
         uv_updated_30_raw_pct := updated_30_raw_pct u;
         uv_updated_90_raw := updated_90_raw u;
         uv_updated_90_raw_pct := updated_90_raw_pct u |}
  | None =>
      {| uv_updated_30 := 0; uv_updated_30_pct := 0;
         uv_updated_90 := 0; uv_updated_90_pct := 0;
         uv_bulk_update_flag := false;
         uv_bulk_update_bucket := None;
         uv_bulk_update_dominant_pct := 0;
         uv_bulk_filter_applied := false;
         uv_updated_30_raw := 0; uv_updated_30_raw_pct := 0;
         uv_updated_90_raw := 0; uv_updated_90_raw_pct := 0 |}
  end.

Definition get_updated (f : update_activity -> Z) (out_updates : option update_activity) : Z :=
  match out_updates with
  | Some u => f u
  | None => 0
  end.

(** The [new_vs_old] section. *)
Definition new_vs_old_of (c30 c90 c180 : Z) (out_updates : option update_activity)
    (products : list product) : new_vs_old_t :=
  let total := len products in
  let cp (n : Z) := {| cp_count := n; cp_pct := pct n total |} in
  {| nvo_total := total;
     created :=
       {| d30 := cp c30; d90 := cp c90; d180 := cp c180;
          missing := count_if (fun p => negb (is_some (parse_dt (created_at p)))) products |};
     updated :=
       {| d30 := cp (get_updated updated_30 out_updates);
          d90 := cp (get_updated updated_90 out_updates);
          d180 := cp (get_updated updated_180 out_updates);
          missing := count_if (fun p => negb (is_some (parse_dt (updated_at p)))) products |} |}.

(** The report that [analyze_products] returns, from the values it obtained
    from the clock and from the two datetime-keyed sorts: the update pack,
    the creation counts [c30], [c90], [c180], the lists [newest] and
    [recently_updated], the cutoff [cut90], the launch section and the
    reading taken for [generated_at]. *)
Definition assemble (products : list product)
    (updates_pack : option new_old * option update_activity)
    (c30 c90 c180 : Z) (newest recent : list product) (cut90 : Z)
    (launch : launch) (utcnow : Z) : report :=
  let total := len products in
  let out_new_old := fst updates_pack in
  let out_updates := snd updates_pack in
  let nvo := new_vs_old_of c30 c90 c180 out_updates products in
  let top_exp :=
    firstn 10 (sorted_desc (fun a b => key_lt (expensive_key a) (expensive_key b)) products) in
  let top_disc :=
    firstn 10 (filter (fun p => fst (discount_key p))
                 (sorted_desc (fun a b => key_lt (discount_key a) (discount_key b)) products)) in
  let comparative := comparative_of cut90 products in
  let updated_90_pct_or_0 :=
    match out_updates with
    | Some u => updated_90_pct u
    | None => 0%Q
    end in
  let pos := positioning_of comparative (cp_pct (d90 (created nvo))) updated_90_pct_or_0 products in
  let launch_takeaways :=
    match launch with
    | LaunchEmpty => []
    | _ => generate_launch_insights launch
    end in
  let all_takeaways := (launch_takeaways ++ catalog_takeaways newest products)%list in
  let notes :=
    (coverage_notes nvo comparative out_updates products
     ++ compute_confidence_notes products)%list in
  {| generated_at := String.append (isoformat utcnow) "Z";
         takeaways := all_takeaways;
         positioning := pos;
         new_vs_old := nvo;
         comparisons :=
           {| cmp_new_vs_old :=
                match out_new_old with
                | Some r => r
                | None => default_new_old
                end;
              cmp_update_activity := update_view_of out_updates;
              cmp_discounted_vs_full_price :=
                {| dvf_discounted_count := len (discounted_prices products);
                   dvf_discounted_pct := pct (len (discounted_prices products)) total;
                   dvf_discounted_median_price := median_price_discounted comparative;
                   dvf_full_price_median_price := median_price_full comparative |} |};
         confidence_notes := notes;
         launch_timeline := launch;
         catalog :=
           {| total_products := total;
              in_stock_count := len (in_stock products);
              in_stock_pct := pct (len (in_stock products)) total;
              out_of_stock_count := len (out_stock products);
              out_of_stock_pct := pct (len (out_stock products)) total;
              vendors := vendors_of products;
              vendor_count := len (vendors_of products) |};
         pricing :=
           {| pr_count := len (prices_pos products);
              pr_min := round_opt (list_min (prices_pos products));
              pr_max := round_opt (list_max (prices_pos products));
              pr_median := round_opt (price_median products);
              pr_p25 := round_opt (quantile (prices_pos products) (25 # 100));
              pr_p75 := round_opt (quantile (prices_pos products) (75 # 100));
              pr_buckets := bucket_counts products;
              pr_bucket_order :=
                ["<$25"; "$25–$49"; "$50–$99"; "$100–$199"; "$200–$299"; "$300–$499"; "$500+"]%string |};
         discounts :=
           {| discounted_count := len (discounts_of products);
              discounted_pct := pct (len (discounts_of products)) total;
              avg_discount_pct :=
                match discounts_of products with
                | [] => None
                | ds => Some (round_nd (fsum ds / inject_Z (len ds)) 2)
                end;
              median_discount_pct :=
                match discounts_of products with
                | [] => None
                | ds => Some (round_nd (median ds) 2)
                end;
              max_discount_pct := round_opt (list_max (discounts_of products));
              discounts_note :=
                "A product is only counted as discounted when compare_at_min > price_min." |};
         content_signals :=
           {| avg_images_per_product := avg_images products;
              avg_variants_per_product := avg_variants products |};
         lists :=
           {| top_expensive := map compact top_exp;
              top_discounts := map compact top_disc;
              newest_products := map compact newest;
              recently_updated := map compact recent |} |}.

(** [analyze_products(products)]: the clock reads and the sorts that can
    raise, in program order. *)
Definition analyze_products (products : list product) : M report :=
  updates_pack <- compute_new_vs_old_and_updates products ;;
  let created_dts := map (fun p => parse_dt (created_at p)) products in
  c30 <- count_since created_dts 30 ;;
  c90 <- count_since created_dts 90 ;;
  c180 <- count_since created_dts 180 ;;
  newest <- lift (sorted_desc_dt newest_dt products) ;;
  recently_updated <- lift (sorted_desc_dt updated_key products) ;;
  cut90 <- cutoff_days 90 ;;
  launch <- analyze_launch_timeline products ;;
  utcnow <- now_utc ;;
  ret (assemble products updates_pack c30 c90 c180
         (firstn 10 newest) (firstn 10 recently_updated) cut90 launch utcnow).

End Analyze.

(** ** A concrete instance of the timestamp parser

    [fromisoformat_basic] is [datetime.fromisoformat] restricted to the
    formats [YYYY-MM-DD] and [YYYY-MM-DDTHH:MM:SS] with an optional
    [+HH:MM] / [-HH:MM] offset; every other string is rejected here.  It is
    used to run the model on concrete records. *)

Definition digit_of (c : ascii) : option Z :=
  let n := Z.of_nat (nat_of_ascii c) in
  if (48 <=? n) && (n <=? 57) then Some (n - 48) else None.

(** Reads exactly [n] decimal digits. *)
Fixpoint read_digits (n : nat) (acc : Z) (s : string) : option (Z * string) :=
  match n with
  | O => Some (acc, s)
  | S k =>
      match s with
      | String c r =>
          match digit_of c with
          | Some d => read_digits k (10 * acc + d) r
          | None => None
          end
      | EmptyString => None
      end
  end.

Definition read_char (c : ascii) (s : string) : option string :=
  match s with
  | String c' r => if Ascii.eqb c c' then Some r else None
  | EmptyString => None
  end.

Definition days_from_civil (y m d : Z) : Z :=
  let y' := if m <=? 2 then y - 1 else y in
  let era := y' / 400 in
  let yoe := y' - era * 400 in
  let mp := if 2 <? m then m - 3 else m + 9 in
  let doy := (153 * mp + 2) / 5 + d - 1 in
  let doe := yoe * 365 + yoe / 4 - yoe / 100 + doy in
  era * 146097 + doe - 306.

Definition read_date (s : string) : option (Z * string) :=
  match read_digits 4 0 s with
  | Some (y, s1) =>
      match read_char "-" s1 with
      | Some s2 =>
          match read_digits 2 0 s2 with
          | Some (m, s3) =>
              match read_char "-" s3 with
              | Some s4 =>
                  match read_digits 2 0 s4 with
                  | Some (d, s5) =>
                      let n := days_from_civil y m d in
                      if (1 <=? y) && (1 <=? m) && (m <=? 12) && (1 <=? d)
                         && (let '(y', m', d') := civil_from_days n in
                             (y' =? y) && (m' =? m) && (d' =? d))
                      then Some (n, s5) else None
                  | None => None
                  end
              | None => None
              end
          | None => None
          end
      | None => None
      end
  | None => None
  end.

(** [HH:MM] as seconds. *)
Definition read_hm (s : string) : option (Z * string) :=
  match read_digits 2 0 s with
  | Some (h, s1) =>
      match read_char ":" s1 with
      | Some s2 =>
          match read_digits 2 0 s2 with
          | Some (m, s3) =>
              if (h <? 24) && (m <? 60) then Some (h * 3600 + m * 60, s3) else None
          | None => None
          end
      | None => None
      end
  | None => None
  end.

Definition read_offset (s : string) : option (option Z) :=
  match s with
  | EmptyString => Some None
  | String c r =>
      match read_hm r with
      | Some (o, EmptyString) =>
          if Ascii.eqb c "+" then Some (Some (o * US_PER_SECOND))
          else if Ascii.eqb c "-" then Some (Some (- o * US_PER_SECOND))
          else None
      | _ => None
      end
  end.

Definition fromisoformat_basic (s : string) : option (Z * option Z) :=
  match read_date s with
  | Some (n, EmptyString) => Some (n * US_PER_DAY, None)
  | Some (n, String c r) =>
      if Ascii.eqb c "T" then
        match read_hm r with
        | Some (hm, s1) =>
            match read_char ":" s1 with
            | Some s2 =>
                match read_digits 2 0 s2 with
                | Some (sec, s3) =>
                    if sec <? 60 then
                      match read_offset s3 with
                      | Some off => Some (n * US_PER_DAY + (hm + sec) * US_PER_SECOND, off)
                      | None => None
                      end
                    else None
                | None => None
                end
            | None => None
            end
        | None => None
        end
      else None
  | None => None
  end.

(** A product with the given timestamps and prices and nothing else. *)
Definition mk_product (c p u : option string) (price compare : option Q) (avail : bool)
  : product :=
  {| title := None; product_url := None;
     created_at := c; published_at := p; updated_at := u;
     vendor := None; variants_count := Some 1; available := avail;
     price_min := price; compare_at_min := compare; images := [] |}.

(** 2024-03-01T00:00:00 UTC as a clock reading. *)
Definition t_2024_03_01 : Z := 738945 * US_PER_DAY.

(** ** The sibling aggregate [compute_discounted_vs_full_price] *)

(** [compute_discounted_vs_full_price(products)]; [None] is the empty
    dictionary that it returns for no products. *)
Definition compute_discounted_vs_full_price (products : list product)
  : option discounted_vs_full :=
  let total := len products in
  if total =? 0 then None
  else
    let d (p : product) :=
      compute_discount_pct (safe_float (price_min p)) (safe_float (compare_at_min p)) in
    let discounted_count := count_if (fun p => is_some (d p)) products in
    let discounted :=
      somes (map (fun p => if is_some (d p) then safe_float (price_min p) else None)
               products) in
    let full :=
      somes (map (fun p => if is_some (d p) then None else safe_float (price_min p))
               products) in
    Some {| dvf_discounted_count := discounted_count;
            dvf_discounted_pct := pct discounted_count total;
            dvf_discounted_median_price := median_or_none (map Some discounted);
            dvf_full_price_median_price := median_or_none (map Some full) |}.

(** * The services around the analytics core

    [app/services/normalize.py] turns a raw Shopify product into the record
    that [analyze_products] reads, [app/services/fetch.py] pages through
    [/products.json], and [generate] of [app/main.py] chains the three.

    Further conventions.
    - A raw product is typed: its scalar fields are JSON scalars, its
      [variants] and [images] are lists of objects; the JSON body of a
      reply is an object whose [products] is a list of such products.
      Documents of another shape, on which the program raises further
      exceptions, are outside the model.
    - [float(s)] on a string is a parameter of the model, [None] where it
      raises; [float_of_string_basic] is an instance for plain decimal
      numerals.
    - The web is a function from the requested URL to the reply, [None]
      where the HTTP client raises.  The requests that a computation makes
      are part of its result.
    - Printing and the timing calls around it are left out. *)

(** ** [normalize.py] *)

Inductive json_scalar :=
| JNull
| JBool (b : bool)
| JNumber (x : Q)
| JString (s : string).

(** Truthiness of a JSON scalar. *)
Definition truthy (x : json_scalar) : bool :=
  match x with
  | JNull => false
  | JBool b => b
  | JNumber x => negb (Qeq_bool x 0)
  | JString s => negb (String.eqb s EmptyString)
  end.

Record raw_variant := {
  v_price : json_scalar;
  v_compare_at_price : json_scalar;
  v_available : json_scalar
}.

Record raw_image := { img_src : option string }.

Record raw_product := {
  r_id : option Z;
  r_title : option string;
  r_handle : option string;
  r_created_at : option string;
  r_published_at : option string;
  r_updated_at : option string;
  r_vendor : option string;
  r_tags : list string;
  r_variants : list raw_variant;
  r_images : list raw_image
}.

(** The output of [normalize_product]: the fields that [analyze_products]
    reads, and the others. *)
Record normalized := {
  n_product : product;
  n_id : option Z;
  n_handle : option string;
  n_tags : list string;
  n_price_max : option Q;
  n_compare_at_max : option Q;
  n_discount_pct_min : option Q
}.

(** The name of the type of an optional float in an error message. *)
Definition type_name (x : option Q) : string :=
  match x with
  | Some _ => "float"
  | None => "NoneType"
  end.

Definition not_supported (op : string) (a b : option Q) : exn :=
  TypeError
    (String.append "'"
       (String.append op
          (String.append "' not supported between instances of '"
             (String.append (type_name a)
                (String.append "' and '" (String.append (type_name b) "'")))))).

(** The loops of the builtins [min] and [max] over a list that may hold
    [None]: each further item is compared with the current extremum, and a
    comparison with [None] raises. *)
Fixpoint min_from (cur : option Q) (items : list (option Q)) : result (option Q) :=
  match items with
  | [] => Ok cur
  | item :: rest =>
      match item, cur with
      | Some x, Some m => min_from (Some (if Qlt_bool x m then x else m)) rest
      | _, _ => Raise (not_supported "<" item cur)
      end
  end.

Fixpoint max_from (cur : option Q) (items : list (option Q)) : result (option Q) :=
  match items with
  | [] => Ok cur
  | item :: rest =>
      match item, cur with
      | Some x, Some m => max_from (Some (if Qlt_bool m x then x else m)) rest
      | _, _ => Raise (not_supported ">" item cur)
      end
  end.

(** [min(xs) if xs else None] and [max(xs) if xs else None]. *)
Definition min_or_none (xs : list (option Q)) : result (option Q) :=
  match xs with
  | [] => Ok None
  | x :: rest => min_from x rest
  end.

Definition max_or_none (xs : list (option Q)) : result (option Q) :=
  match xs with
  | [] => Ok None
  | x :: rest => max_from x rest
  end.

Section Normalize.

(** [float(s)] for a string [s]: [None] where it raises. *)
Variable float_of_string : string -> option Q.

(** [to_float(x)]. *)
Definition to_float (x : json_scalar) : option Q :=
  match x with
  | JNull => None
  | JBool b => Some (if b then 1%Q else 0%Q)
  | JNumber q => Some q
  | JString s => float_of_string s
  end.

Definition is_null (x : json_scalar) : bool :=
  match x with
  | JNull => true
  | _ => false
  end.

(** The list [prices] of [normalize_product]. *)
Definition variant_prices (variants : list raw_variant) : list (option Q) :=
  map (fun v => to_float (v_price v)) (filter (fun v => negb (is_null (v_price v))) variants).

(** The list [compare_prices] of [normalize_product]. *)
Definition variant_compare_prices (variants : list raw_variant) : list (option Q) :=
  map (fun v => to_float (v_compare_at_price v))
    (filter (fun v => truthy (v_compare_at_price v)) variants).

(** [normalize_product(p, base_url)]. *)
Definition normalize_product (p : raw_product) (base_url : string) : result normalized :=
  let variants := r_variants p in
  let prices := variant_prices variants in
  let compare_prices := variant_compare_prices variants in
  let available := existsb (fun v => truthy (v_available v)) variants in
  match min_or_none prices with
  | Raise e => Raise e
  | Ok price_min =>
  match max_or_none prices with
  | Raise e => Raise e
  | Ok price_max =>
  match min_or_none compare_prices with
  | Raise e => Raise e
  | Ok compare_at_min =>
  match max_or_none compare_prices with
  | Raise e => Raise e
  | Ok compare_at_max =>
      Ok {| n_product :=
              {| title := r_title p;
                 product_url :=
                   Some (String.append base_url
                           (String.append "/products/"
                              (match r_handle p with
                               | Some h => h
                               | None => "None"
                               end)));
                 created_at := r_created_at p;
                 published_at := r_published_at p;
                 updated_at := r_updated_at p;
                 vendor := r_vendor p;
                 variants_count := Some (len variants);
                 available := available;
                 price_min := price_min;
                 compare_at_min := compare_at_min;
                 images :=
                   somes (map (fun i => if truthy_s (img_src i) then img_src i else None)
                            (firstn 3 (r_images p))) |};
            n_id := r_id p;
            n_handle := r_handle p;
            n_tags := r_tags p;
            n_price_max := price_max;
            n_compare_at_max := compare_at_max;
            n_discount_pct_min :=
              match compare_at_min, price_min with
              | Some c, Some m =>
                  if truthy_q compare_at_min && truthy_q price_min
                  then Some (round_nd ((c - m) / c * 100) 1)
                  else None
              | _, _ => None
              end |}
  end end end end.

(** [[normalize_product(p, base_url) for p in raw_products]]: the first
    exception ends the comprehension. *)
Fixpoint normalize_all (raw_products : list raw_product) (base_url : string)
  : result (list normalized) :=
  match raw_products with
  | [] => Ok []
  | p :: rest =>
      match normalize_product p base_url with
      | Raise e => Raise e
      | Ok n =>
          match normalize_all rest base_url with
          | Raise e => Raise e
          | Ok ns => Ok (n :: ns)
          end
      end
  end.

End Normalize.

(** ** [fetch.py] *)

(** What escapes from the web layer. *)
Inductive web_exn :=
| ValueError (msg : string)
| HTTPException (status_code : Z) (detail : string)
| TransportError
| JSONDecodeError
| Uncaught (e : exn).

Inductive web_result (A : Type) :=
| Done (a : A)
| Failed (e : web_exn).
Arguments Done {A} a.
Arguments Failed {A} e.

(** A reply: the [content-type] header (empty when absent), the status
    code, and the [products] of the JSON body ([None] where [r.json()]
    raises, the empty list where the body has no [products]). *)
Record response := {
  content_type : string;
  status : Z;
  json_products : option (list raw_product)
}.

(** [s.rstrip(chars)] for a single character. *)
Fixpoint rstrip_char (c : ascii) (s : string) : string :=
  match s with
  | EmptyString => EmptyString
  | String a r =>
      match rstrip_char c r with
      | EmptyString => if Ascii.eqb a c then EmptyString else String a EmptyString
      | r' => String a r'
      end
  end.

(** [needle in hay]. *)
Fixpoint contains (needle hay : string) : bool :=
  match hay with
  | EmptyString => String.prefix needle EmptyString
  | String _ r => String.prefix needle hay || contains needle r
  end.

(** [l[:n]] for an integer [n] of either sign. *)
Definition slice_to {A : Type} (n : Z) (l : list A) : list A :=
  if 0 <=? n then firstn (Z.to_nat n) l
  else firstn (List.length l - Z.to_nat (- n)) l.

Definition MAX_PAGES : nat := 10.

(** The URL of a page of the catalog. *)
Definition page_url (store_url : string) (page : Z) : string :=
  String.append (rstrip_char "/" store_url)
    (String.append "/products.json?limit=250&page=" (str_int page)).

Section Fetch.

(** The replies of the web. *)
Variable http_get : string -> option response.

(** The loop of [fetch_products_shopify] with [pages_left] pages to go:
    the requests it makes, and its outcome. *)
Fixpoint fetch_loop (store_url : string) (max_products : option Z) (pages_left : nat)
    (page : Z) (products : list raw_product)
  : list string * web_result (list raw_product) :=
  match pages_left with
  | O => ([], Done products)
  | S n =>
      let url := page_url store_url page in
      match http_get url with
      | None => ([url], Failed TransportError)
      | Some r =>
          if negb (contains "application/json" (content_type r)) then ([url], Done products)
          else if (status r =? 429) || (status r =? 403) then ([url], Done products)
          else if negb (status r =? 200) then ([url], Done products)
          else
            match json_products r with
            | None => ([url], Failed JSONDecodeError)
            | Some [] => ([url], Done products)
            | Some batch =>
                let products := (products ++ batch)%list in
                let next_page :=
                  let '(requests, outcome) :=
                    fetch_loop store_url max_products n (page + 1) products in
                  (url :: requests, outcome) in
                match max_products with
                | Some m =>
                    if m <=? len products then ([url], Done (slice_to m products))
                    else next_page
                | None => next_page
                end
            end
      end
  end.

(** [fetch_products_shopify(store_url, max_products)]. *)
Definition fetch_products_shopify (store_url : string) (max_products : option Z)
  : list string * web_result (list raw_product) :=
  fetch_loop store_url max_products MAX_PAGES 1 [].

End Fetch.

(** ** [product_json.py] *)

Definition MAX_PRODUCTS : Z := 250.

Section FetchAll.

Variable http_get : string -> option response.

(** The loop of [fetch_all_products], run for at most [fuel] iterations:
    the requests it makes and its outcome, [None] when the iterations were
    not enough. *)
Fixpoint fetch_all_loop (store_url : string) (fuel : nat) (page : Z)
    (products : list raw_product)
  : list string * option (web_result (list raw_product)) :=
  if len products <? MAX_PRODUCTS then
    match fuel with
    | O => ([], None)
    | S n =>
        let url :=
          String.append store_url
            (String.append "/products.json?limit=250&page=" (str_int page)) in
        match http_get url with
        | None => ([url], Some (Failed TransportError))
        | Some r =>
            if negb (status r =? 200) then ([url], Some (Done products))
            else
              match json_products r with
              | None => ([url], Some (Failed JSONDecodeError))
              | Some [] => ([url], Some (Done products))
              | Some batch =>
                  let '(requests, outcome) :=
                    fetch_all_loop store_url n (page + 1)
                      (slice_to MAX_PRODUCTS (products ++ batch)) in
                  (url :: requests, outcome)
              end
        end
    end
  else ([], Some (Done products)).

(** [fetch_all_products(store_url)], with a bound on the iterations. *)
Definition fetch_all_products (fuel : nat) (store_url : string)
  : list string * option (web_result (list raw_product)) :=
  fetch_all_loop store_url fuel 1 [].

End FetchAll.

(** ** [main.py] *)

(** [normalize_store_url(url)] of [main.py]. *)
Definition normalize_store_url (url : string) : web_result string :=
  let url := strip url in
  let url := if String.prefix "http" url then url else String.append "https://" url in
  if String.prefix "http://" url || String.prefix "https://" url
  then Done (rstrip_char "/" url)
  else Failed (ValueError "Invalid URL scheme.").

Definition extra_notes : list string :=
  ["Data source: public Shopify /products.json endpoint.";
   "Safety cap: up to 10 pages × 250 products (max ~2,500 products).";
   "Discounts are counted only when compare_at_min > price_min.";
   "This report does not infer traffic, conversion rate, or revenue."]%string.

(** [for n in extra: if n not in notes: notes.append(n)]. *)
Definition append_missing (notes extra : list string) : list string :=
  fold_left (fun notes n => if existsb (String.eqb n) notes then notes else (notes ++ [n])%list)
    extra notes.

Record store_t := { base_url : string; product_count : Z }.

(** The dictionary [insights] that [generate] hands to the renderer. *)
Record insights_t := {
  store : store_t;
  analysis : report
}.

Definition set_confidence_notes (r : report) (notes : list string) : report :=
  {| generated_at := generated_at r;
     takeaways := takeaways r;
     positioning := positioning r;
     new_vs_old := new_vs_old r;
     comparisons := comparisons r;
     confidence_notes := notes;
     launch_timeline := launch_timeline r;
     catalog := catalog r;
     pricing := pricing r;
     discounts := discounts r;
     content_signals := content_signals r;
     lists := lists r |}.

(** [payload.get(key)] on a JSON object with string values. *)
Fixpoint get (key : string) (payload : list (string * string)) : option string :=
  match payload with
  | [] => None
  | (k, v) :: rest => if String.eqb k key then Some v else get key rest
  end.

Section Generate.

Variable fromisoformat : string -> option (Z * option Z).
Variable clock : nat -> Z.
Variable float_of_string : string -> option Q.
Variable http_get : string -> option response.

(** [generate(store_url, payload)] up to the rendering of [insights]: the
    requests made, and the insights with the next clock reading, or what
    is raised. *)
Definition generate (store_url : option string) (payload : option (list (string * string)))
    (k : nat) : list string * web_result (insights_t * nat) :=
  let store_url :=
    if negb (truthy_s store_url)
       && match payload with
          | Some (_ :: _) => true
          | _ => false
          end
    then match payload with
         | Some p => get "store_url" p
         | None => None
         end
    else store_url in
  match store_url with
  | None => ([], Failed (HTTPException 422 "store_url is required"))
  | Some url =>
      if String.eqb url EmptyString
      then ([], Failed (HTTPException 422 "store_url is required"))
      else
        match normalize_store_url url with
        | Failed e => ([], Failed e)
        | Done store_url =>
            match fetch_products_shopify http_get store_url None with
            | (requests, Failed e) => (requests, Failed e)
            | (requests, Done []) =>
                (requests,
                 Failed (HTTPException 400
                   "No product data returned from /products.json. The store may not be Shopify, may block this endpoint, or may be rate-limiting requests."))
            | (requests, Done raw_products) =>
                match normalize_all float_of_string raw_products store_url with
                | Raise e => (requests, Failed (Uncaught e))
                | Ok normalized =>
                    match analyze_products fromisoformat clock (map n_product normalized) k with
                    | Raise e => (requests, Failed (Uncaught e))
                    | Ok (r, k') =>
                        (requests,
                         Done ({| store := {| base_url := store_url;
                                              product_count := len normalized |};
                                  analysis :=
                                    set_confidence_notes r
                                      (append_missing (confidence_notes r) extra_notes) |},
                               k'))
                    end
                end
            end
        end
  end.

End Generate.

(** ** Concrete instances for the examples *)

(** [float] on the decimal numerals [digits], [digits.digits], [digits.]
    and [.digits]; every other string is rejected here. *)
Fixpoint read_decimal (s : string) (int_part : Z) (scale : option positive) (seen : bool)
  : option Q :=
  match s with
  | EmptyString =>
      if seen
      then Some (match scale with
                 | Some d => Qred (Qmake int_part d)
                 | None => inject_Z int_part
                 end)
      else None
  | String c r =>
      if Ascii.eqb c "." then
        match scale with
        | None => read_decimal r int_part (Some 1%positive) seen
        | Some _ => None
        end
      else
        match digit_of c with
        | Some d =>
            read_decimal r (10 * int_part + d)
              (option_map (fun p => (10 * p)%positive) scale) true
        | None => None
        end
  end.

Definition float_of_string_basic (s : string) : option Q := read_decimal s 0 None false.

(** ** Vocabulary of the properties *)

Section Occurrences.
Context {K : Type} (keq : K -> K -> bool).

(** Occurrences of [k] among [keys]. *)
Definition occ (k : K) (keys : list K) : Z := count_if (fun x => keq x k) keys.

(** The count stored for [k] in a counter. *)
Fixpoint lookup (k : K) (c : list (K * Z)) : option Z :=
  match c with
  | [] => None
  | (k', n) :: r => if keq k' k then Some n else lookup k r
  end.
End Occurrences.

(** The head of [l] has a largest key. *)
Definition head_max {A : Type} (key : A -> Z) (l : list A) : Prop :=
  match l with
  | [] => True
  | h :: _ => forall a, In a l -> key a <= key h
  end.

(** Updates of [l] that fall on the calendar day [day]. *)
Definition updates_on (day : string) (l : list Z) : Z :=
  count_if (fun d => String.eqb (bucket_day d) day) l.

(** 142 updates on 2024-01-15 and 61 on 2024-01-16. *)
Definition cx_updates : list Z :=
  (repeat (738899 * US_PER_DAY) 142 ++ repeat (738900 * US_PER_DAY) 61)%list.

(** The calendar day (UTC) of an instant, counted from 0001-01-01. *)
Definition utc_day (t : Z) : Z := t / US_PER_DAY.

(** The number of instants of [l] that lie in the day [day]. *)
Definition updates_in_day (day : Z) (l : list Z) : Z :=
  count_if (fun t => utc_day t =? day) l.

(** The instants of [l] that lie outside the day [day]. *)
Definition outside_day (day : Z) (l : list Z) : list Z :=
  filter (fun t => negb (utc_day t =? day)) l.

(** The day [day] holds more instants of [l] than any other day. *)
Definition dominant_day (day : Z) (l : list Z) : Prop :=
  forall other, other <> day -> updates_in_day other l < updates_in_day day l.

(** The value of a decimal digit. *)
Definition digit_value (c : ascii) : Z := Z.of_nat (nat_of_ascii c) - 48.

(** [pad0 2 (str_int v)] consists of the two decimal digits of [v]. *)
Definition two_digits (v : Z) : bool :=
  match pad0 2 (str_int v) with
  | String a (String b EmptyString) => 10 * digit_value a + digit_value b =? v
  | _ => false
  end.

(** [pad0 4 (str_int v)] consists of the four decimal digits of [v]. *)
Definition four_digits (v : Z) : bool :=
  match pad0 4 (str_int v) with
  | String a (String b (String c (String d EmptyString))) =>
      1000 * digit_value a + 100 * digit_value b + 10 * digit_value c + digit_value d =? v
  | _ => false
  end.

(** [f] holds of the [n] integers from [v] on. *)
Fixpoint all_from (f : Z -> bool) (n : nat) (v : Z) : bool :=
  match n with
  | O => true
  | S k => f v && all_from f k (v + 1)
  end.

(** [s] ends with [suffix]. *)
Definition has_suffix (suffix s : string) : Prop := exists a, s = String.append a suffix.

Definition rev_chars (s : string) : list ascii := rev (list_ascii_of_string s).

Fixpoint prefix_b (p l : list ascii) : bool :=
  match p, l with
  | [], _ => true
  | c :: p', d :: l' => Ascii.eqb c d && prefix_b p' l'
  | _ :: _, [] => false
  end.

Definition has_suffix_b (suffix s : string) : bool := prefix_b (rev_chars suffix) (rev_chars s).

(** Two reversed strings disagree at a position that both have. *)
Fixpoint clash (l1 l2 : list ascii) : bool :=
  match l1, l2 with
  | c1 :: r1, c2 :: r2 => if Ascii.eqb c1 c2 then clash r1 r2 else true
  | _, _ => false
  end.

Definition suffix_clash (k1 k2 : string) : bool := clash (rev_chars k1) (rev_chars k2).

(** Every suffix of [K1] clashes with every suffix of [K2]. *)
Definition cross_clash (K1 K2 : list string) : bool :=
  forallb (fun k1 => forallb (suffix_clash k1) K2) K1.

(** Every string of [l] ends with one of the suffixes [K]. *)
Definition keyed (K : list string) (l : list string) : Prop :=
  Forall (fun s => Exists (fun k => has_suffix k s) K) l.

(** [l] has no duplicates and its strings end with suffixes of [K]. *)
Definition distinct_keyed (K : list string) (l : list string) : Prop := keyed K l /\ NoDup l.

(** The endings that tell the sentences of the takeaways apart, by the
    place of the sentence in the list. *)
Definition K_velocity : list string :=
  ["aggressive expansion."; "steady growth."; "stable catalog."]%string.
Definition K_acceleration : list string := ["ramping up."; "cooling off."]%string.
Definition K_strategy : list string := ["% delta)."]%string.
Definition K_recency : list string := ["fresh inventory."]%string.
Definition K_stock : list string := ["stable inventory."; "gaps to exploit."]%string.
Definition K_discount : list string := ["aggressive promotion."; "limited discounting."]%string.
Definition K_span : list string := ["compete directly."]%string.
Definition K_band : list string := ["primarily compete."]%string.
Definition K_skew : list string :=
  ["premium expansion strategy."; "cheaper volume offers."; "than a strategic shift."]%string.
Definition K_variants : list string := ["customization options."; "bundles, tiers)."]%string.

Definition K_launch : list string := (K_velocity ++ K_acceleration ++ K_strategy ++ K_recency)%list.
Definition K_catalog : list string :=
  (K_stock ++ K_discount ++ K_span ++ K_band ++ K_skew ++ K_variants)%list.

(** The endings that tell the confidence notes apart. *)
Definition K_pricing_notes : list string := ["or gated pricing)"; "products.json feed"]%string.
Definition K_timestamp_notes : list string :=
  ["timing may be understated."; "activity may be understated."]%string.
Definition K_discount_notes : list string := ["pricing consistently."]%string.
Definition K_bulk_notes : list string :=
  ["estimate organic edits."; "meaningful updates instead."]%string.
Definition K_coverage : list string :=
  (K_pricing_notes ++ K_timestamp_notes ++ K_discount_notes ++ K_bulk_notes)%list.
Definition K_provenance : list string :=
  ["or is not Shopify."; "or checkout data."; "% include updated_at.";
   "include a usable price."; "compare_at > price)."; "blocking the endpoint."]%string.

(** A percentage that is a share: between 0 and 100. *)
Definition in_0_100 (q : Q) : Prop := (0 <= q)%Q /\ (q <= 100)%Q.

(** The share percentages of the launch section. *)
Definition launch_shares (l : launch) : list Q :=
  match l with
  | LaunchFull f =>
      let c := launch_counts f in
      ([lc_pct (lc_7d c); lc_pct (lc_30d c); lc_pct (lc_90d c);
        lc_pct (lc_180d c); lc_pct (lc_1yr c)]
       ++ map vs_pct (new_vendors_90d_top_3 f))%list
  | _ => []
  end.

(** The share percentages of a report: every field computed by [pct], the
    dominant-bucket percentage and the discount statistics. *)
Definition share_fields (r : report) : list Q :=
  let nvo := new_vs_old r in
  let c := comparisons r in
  let ua := cmp_update_activity c in
  ([cp_pct (d30 (created nvo)); cp_pct (d90 (created nvo)); cp_pct (d180 (created nvo));
    cp_pct (d30 (updated nvo)); cp_pct (d90 (updated nvo)); cp_pct (d180 (updated nvo));
    created_30_pct (cmp_new_vs_old c); created_90_pct (cmp_new_vs_old c);
    created_180_pct (cmp_new_vs_old c);
    uv_updated_30_pct ua; uv_updated_90_pct ua;
    uv_updated_30_raw_pct ua; uv_updated_90_raw_pct ua;
    uv_bulk_update_dominant_pct ua;
    dvf_discounted_pct (cmp_discounted_vs_full_price c);
    in_stock_pct (catalog r); out_of_stock_pct (catalog r);
    discounted_pct (discounts r)]
   ++ opt_list (avg_discount_pct (discounts r))
   ++ opt_list (median_discount_pct (discounts r))
   ++ opt_list (max_discount_pct (discounts r))
   ++ launch_shares (launch_timeline r))%list.

(** The entries of the four product lists of a report. *)
Definition listed_products (r : report) : list compact_t :=
  (top_expensive (lists r) ++ top_discounts (lists r)
   ++ newest_products (lists r) ++ recently_updated (lists r))%list.

(** The signed percentage changes of the launch section. *)
Definition acceleration_pct_of (r : report) : option Q :=
  match launch_timeline r with
  | LaunchFull f => accel_30d_vs_90d_pct (acceleration f)
  | _ => None
  end.

(** The report of a call that returned. *)
Definition returned {A : Type} (x : result (A * nat)) : option A :=
  match x with
  | Ok (a, _) => Some a
  | Raise _ => None
  end.

(** A report with the [generated_at] field blanked. *)
Definition without_generated_at (r : report) : report :=
  {| generated_at := EmptyString;
     takeaways := takeaways r;
     positioning := positioning r;
     new_vs_old := new_vs_old r;
     comparisons := comparisons r;
     confidence_notes := confidence_notes r;
     launch_timeline := launch_timeline r;
     catalog := catalog r;
     pricing := pricing r;
     discounts := discounts r;
     content_signals := content_signals r;
     lists := lists r |}.

(** Sample records. *)
Definition dated_product : product :=
  mk_product (Some "2024-02-28T10:00:00Z"%string) None (Some "2024-02-29T10:00:00Z"%string)
    (Some 50%Q) (Some 100%Q) true.

Definition undated_product : product :=
  mk_product None None None (Some 20%Q) None true.

(** Created at noon, updated seven hours earlier the same day. *)
Definition early_update_product : product :=
  mk_product (Some "2024-01-15T12:00:00Z"%string) None (Some "2024-01-15T05:00:00Z"%string)
    None None true.

(** Created at noon, updated one hour later. *)
Definition grace_update_product : product :=
  mk_product (Some "2024-01-15T12:00:00Z"%string) None (Some "2024-01-15T13:00:00Z"%string)
    None None true.

(** A product without creation date, updated at the given timestamp. *)
Definition updated_product (u : string) : product :=
  mk_product None None (Some u) (Some 10%Q) None true.

(** 142 products updated on 2024-01-15 and 61 updated on 2024-01-16. *)
Definition cx_catalog : list product :=
  (repeat (updated_product "2024-01-15") 142 ++ repeat (updated_product "2024-01-16") 61)%list.

(** Thirty products updated on 2024-02-20. *)
Definition same_day_30 : list product := repeat (updated_product "2024-02-20T10:00:00Z") 30.

(** Ten products updated on ten other days. *)
Definition other_days_10 : list product :=
  map updated_product
    ["2024-02-01T10:00:00Z"; "2024-02-02T10:00:00Z"; "2024-02-03T10:00:00Z";
     "2024-02-04T10:00:00Z"; "2024-02-05T10:00:00Z"; "2024-02-06T10:00:00Z";
     "2024-02-07T10:00:00Z"; "2024-02-08T10:00:00Z"; "2024-02-09T10:00:00Z";
     "2024-02-10T10:00:00Z"]%string.

(** A clock that stands still at 2024-03-01T00:00:00, and one that stands
    still a hundred days later. *)
Definition clock_march : nat -> Z := fun _ => t_2024_03_01.
Definition clock_june : nat -> Z := fun _ => t_2024_03_01 + days 100.

(** [clock_march] up to the sixth reading, five microseconds later after. *)
Definition clock_march_late : nat -> Z :=
  fun i => if (i <? 6)%nat then t_2024_03_01 else t_2024_03_01 + 5.

(** The report of a call, or the report of the empty Record Set if it raised. *)
Definition report_or_empty (x : result (report * nat)) : report :=
  match x with
  | Ok (r, _) => r
  | Raise _ =>
      assemble fromisoformat_basic [] (None, None) 0 0 0 [] [] 0 LaunchEmpty 0
  end.

Definition update_pack_or_empty (x : option new_old * option update_activity)
  : update_activity :=
  match snd x with
  | Some u => u
  | None =>
      {| updated_30 := 0; updated_90 := 0; updated_180 := 0;
         updated_30_pct := 0; updated_90_pct := 0; updated_180_pct := 0;
         updated_30_raw := 0; updated_90_raw := 0; updated_180_raw := 0;
         updated_30_raw_pct := 0; updated_90_raw_pct := 0; updated_180_raw_pct := 0;
         meaningful_update_count := 0; organic_update_count := 0;
         bulk_update_flag := false; bulk_update_bucket := None;
         bulk_update_dominant_pct := 0; bulk_filter_applied := false |}
  end.

(** The scenario of the specification: forty products at 50 with a
    compare-at price of 100, sixty at 50 without one. *)
Definition scenario_100 : list product :=
  (repeat (mk_product None None None (Some 50%Q) (Some 100%Q) true) 40
   ++ repeat (mk_product None None None (Some 50%Q) None true) 60)%list.

Definition sample_report : report :=
  report_or_empty (analyze_products fromisoformat_basic clock_march [dated_product] 0%nat).

Definition spike_report : report :=
  report_or_empty (analyze_products fromisoformat_basic clock_march same_day_30 0%nat).

Definition spike_pack : option new_old * option update_activity :=
  new_vs_old_and_updates_at fromisoformat_basic t_2024_03_01 (same_day_30 ++ other_days_10).

(** [f] is defined on every element of [l], or on none. *)
Definition all_or_none {A B : Type} (f : A -> option B) (l : list A) : bool :=
  forallb (fun x => is_some (f x)) l || forallb (fun x => negb (is_some (f x))) l.

(** The microseconds of a sort key, and whether it is timezone-aware. *)
Definition us_of (d : datetime) : Z :=
  match d with
  | Aware t => t
  | Naive t => t
  end.

Definition is_aware (d : datetime) : bool :=
  match d with
  | Aware _ => true
  | Naive _ => false
  end.

(** [key(a) < key(b)] where the comparison does not raise. *)
Definition us_lt {A : Type} (key : A -> datetime) (a b : A) : bool :=
  us_of (key a) <? us_of (key b).

(** The keys are all aware or all naive. *)
Definition same_kind_keys {A : Type} (key : A -> datetime) (l : list A) : bool :=
  forallb (fun x => is_aware (key x)) l || forallb (fun x => negb (is_aware (key x))) l.

(** [a] comes before [b] in a list ordered by decreasing [f], where both
    have one. *)
Definition not_older {A : Type} (f : A -> option Z) (a b : A) : Prop :=
  forall ta tb, f a = Some ta -> f b = Some tb -> tb <= ta.

(** The record [p] with its [updated_at] removed. *)
Definition without_update (p : product) : product :=
  {| title := title p; product_url := product_url p;
     created_at := created_at p; published_at := published_at p;
     updated_at := None;
     vendor := vendor p; variants_count := variants_count p; available := available p;
     price_min := price_min p; compare_at_min := compare_at_min p; images := images p |}.

(** The discount of a product, as [compact] and [discount_key] compute it. *)
Definition discount_of (p : product) : option Q :=
  compute_discount_pct (safe_float (price_min p)) (safe_float (compare_at_min p)).

(** [a] may stand before [b] in a list of the most expensive products:
    a product without price never precedes one with a price, and of two
    prices that are not negative the lower one never comes first. *)
Definition dearer_first (a b : product) : Prop :=
  (price_min a = None -> price_min b = None)
  /\ forall x y, price_min a = Some x -> price_min b = Some y ->
                 (0 <= x)%Q -> (0 <= y)%Q -> (y <= x)%Q.

(** [a] may stand before [b] in a list ordered by decreasing discount. *)
Definition deeper_discount_first (a b : product) : Prop :=
  forall x y, discount_of a = Some x -> discount_of b = Some y -> (y <= x)%Q.

(** [lo <= x <= hi] on optional floats that are all present. *)
Definition between_opt (lo x hi : option Q) : Prop :=
  match lo, x, hi with
  | Some a, Some b, Some c => (a <= b)%Q /\ (b <= c)%Q
  | _, _, _ => False
  end.

(** [s.isascii()]. *)
Fixpoint isascii (s : string) : bool :=
  match s with
  | EmptyString => true
  | String c r => (nat_of_ascii c <? 128)%nat && isascii r
  end.

(** [min] and [max] do not raise on [xs]: there is at most one item, or no
    item is [None]. *)
Definition comparable (xs : list (option Q)) : bool :=
  (List.length xs <=? 1)%nat || forallb is_some xs.

(** The page numbers [page], [page + 1], ... ([k] of them). *)
Definition pages (page : Z) (k : nat) : list Z :=
  map (fun i => page + Z.of_nat i) (seq 0 k).

(** The products that the reply to [url] contributes: those of a JSON
    reply with status 200. *)
Definition batch_at (http_get : string -> option response) (url : string)
  : list raw_product :=
  match http_get url with
  | Some r =>
      if contains "application/json" (content_type r) && (status r =? 200)
      then match json_products r with
           | Some batch => batch
           | None => []
           end
      else []
  | None => []
  end.



(** Three dated products of two vendors: one discounted, one out of stock,
    one a year old. *)
Definition sample_catalog : list product :=
  [ {| title := Some "Tee"%string; product_url := None;
       created_at := Some "2024-02-28T10:00:00Z"%string; published_at := None;
       updated_at := Some "2024-02-29T10:00:00Z"%string;
       vendor := Some "Acme"%string; variants_count := Some 2; available := true;
       price_min := Some 50%Q; compare_at_min := Some 100%Q; images := [] |};
    {| title := Some "Cap"%string; product_url := None;
       created_at := Some "2024-01-10T10:00:00Z"%string; published_at := None;
       updated_at := Some "2024-02-01T10:00:00Z"%string;
       vendor := Some "Acme"%string; variants_count := Some 1; available := false;
       price_min := Some 20%Q; compare_at_min := None; images := [] |};
    {| title := Some "Coat"%string; product_url := None;
       created_at := Some "2023-03-01T00:00:00Z"%string; published_at := None;
       updated_at := Some "2023-06-02T00:00:00Z"%string;
       vendor := Some "Bolt"%string; variants_count := Some 3; available := true;
       price_min := Some 120%Q; compare_at_min := Some 150%Q; images := [] |} ].

Definition catalog_report : report :=
  report_or_empty (analyze_products fromisoformat_basic clock_march sample_catalog 0%nat).

(** A raw product with two variants and four images, one without source. *)
Definition sample_raw : raw_product :=
  {| r_id := Some 7;
     r_title := Some "Tee"%string;
     r_handle := Some "tee"%string;
     r_created_at := Some "2024-02-28T10:00:00Z"%string;
     r_published_at := None;
     r_updated_at := Some "2024-02-29T10:00:00Z"%string;
     r_vendor := Some "Acme"%string;
     r_tags := ["summer"%string];
     r_variants :=
       [ {| v_price := JString "19.99"; v_compare_at_price := JString "29.99";
            v_available := JBool false |};
         {| v_price := JString "24.50"; v_compare_at_price := JNull;
            v_available := JBool true |} ];
     r_images :=
       [ {| img_src := Some "a.jpg"%string |}; {| img_src := None |};
         {| img_src := Some "c.jpg"%string |}; {| img_src := Some "d.jpg"%string |} ] |}.

(** The same product with a price that [float] rejects on the second
    variant. *)
Definition unpriced_raw : raw_product :=
  {| r_id := Some 8;
     r_title := Some "Tee"%string;
     r_handle := Some "tee"%string;
     r_created_at := None; r_published_at := None; r_updated_at := None;
     r_vendor := None; r_tags := [];
     r_variants :=
       [ {| v_price := JString "19.99"; v_compare_at_price := JNull;
            v_available := JBool true |};
         {| v_price := JString "call us"; v_compare_at_price := JNull;
            v_available := JBool true |} ];
     r_images := [] |}.

Definition sample_normalized : normalized :=
  {| n_product :=
       {| title := Some "Tee"%string;
          product_url := Some "https://shop.example/products/tee"%string;
          created_at := Some "2024-02-28T10:00:00Z"%string; published_at := None;
          updated_at := Some "2024-02-29T10:00:00Z"%string;
          vendor := Some "Acme"%string; variants_count := Some 2; available := true;
          price_min := Some (1999 # 100)%Q; compare_at_min := Some (2999 # 100)%Q;
          images := ["a.jpg"; "c.jpg"]%string |};
     n_id := Some 7; n_handle := Some "tee"%string; n_tags := ["summer"%string];
     n_price_max := Some (49 # 2)%Q; n_compare_at_max := Some (2999 # 100)%Q;
     n_discount_pct_min := Some (333 # 10)%Q |}.

(** A store that serves two products on its first page and an empty
    second page. *)
Definition sample_web (url : string) : option response :=
  if String.eqb url "https://shop.example/products.json?limit=250&page=1"
  then Some {| content_type := "application/json; charset=utf-8"; status := 200;
               json_products := Some [sample_raw; sample_raw] |}
  else Some {| content_type := "application/json; charset=utf-8"; status := 200;
               json_products := Some [] |}.

(** A store that serves one product on every page. *)
Definition endless_web (url : string) : option response :=
  Some {| content_type := "application/json"; status := 200;
          json_products := Some [sample_raw] |}.

(** Three products without any timestamp. *)
Definition undated_catalog : list product :=
  [ mk_product None None None (Some 20%Q) None true;
    mk_product None None None (Some 35%Q) (Some 70%Q) true;
    mk_product None None None None None false ].

Definition undated_report : report :=
  report_or_empty (analyze_products fromisoformat_basic clock_march undated_catalog 0%nat).

(** The iterations that [fetch_all_products] can still make. *)
Definition room (products : list raw_product) : nat := Z.to_nat (MAX_PRODUCTS - len products).

(** * Properties *)

(** ** The model on the examples of the specification *)

Example pct_of_a_third : pct 1 3 = (3333 # 100)%Q.
Proof. reflexivity. Qed.

Example pct_40_of_100 : pct 40 100 = 40%Q.
Proof. reflexivity. Qed.

Example price_bucket_boundaries :
  price_bucket (2499 # 100) = "<$25"%string
  /\ price_bucket 25 = "$25–$49"%string
  /\ price_bucket 500 = "$500+"%string.
Proof. repeat split. Qed.

Example quantile_quartiles :
  option_map Qred (quantile [1; 2; 3; 4]%Q (25 # 100)) = Some (7 # 4)%Q
  /\ option_map Qred (quantile [1; 2; 3; 4]%Q (75 # 100)) = Some (13 # 4)%Q
  /\ quantile [] (25 # 100) = None.
Proof. repeat split. Qed.

Example strftime_ymd_2024_01_15 :
  strftime_ymd (738899 * US_PER_DAY + 5) = "2024-01-15"%string.
Proof. reflexivity. Qed.

Example isoformat_2024_01_15 :
  isoformat (738899 * US_PER_DAY + 3723000005) = "2024-01-15T01:02:03.000005"%string.
Proof. reflexivity. Qed.

Example strip_and_replace_Z :
  replace_final_Z (strip "  2024-01-15T01:02:03Z  ") = "2024-01-15T01:02:03+00:00"%string.
Proof. reflexivity. Qed.

Example format_specs :
  (fmt_fixed true 0 (3 # 2), fmt_fixed false 2 (-1 # 1000), str_float (3333 # 100),
   str_float 40, fmt_fixed true 0 (-4 # 10))
  = ("+2", "-0.00", "33.33", "40.0", "-0")%string.
Proof. reflexivity. Qed.

Example parse_dt_2024_03_01 :
  parse_dt fromisoformat_basic (Some "2024-03-01T00:00:00Z"%string) = Some t_2024_03_01.
Proof. reflexivity. Qed.

Example parse_dt_unparsable :
  parse_dt fromisoformat_basic (Some "yesterday"%string) = None
  /\ parse_dt fromisoformat_basic None = None
  /\ parse_dt fromisoformat_basic (Some EmptyString) = None.
Proof. repeat split. Qed.

Lemma Qlt_bool_iff (a b : Q) : Qlt_bool a b = true <-> (a < b)%Q.
Proof.
  unfold Qlt_bool. rewrite negb_true_iff. split; intro H.
  - apply Qnot_le_lt. intro L. apply Qle_bool_iff in L. congruence.
  - destruct (Qle_bool b a) eqn:E; [|reflexivity].
    apply Qle_bool_iff in E. exfalso. apply (Qlt_not_le _ _ H E).
Qed.

Lemma Qlt_bool_false_iff (a b : Q) : Qlt_bool a b = false <-> (b <= a)%Q.
Proof.
  unfold Qlt_bool. rewrite negb_false_iff. apply Qle_bool_iff.
Qed.

Lemma round_half_even_floor (x : Q) : Qfloor x <= round_half_even x.
Proof.
  unfold round_half_even.
  destruct (Qcompare _ _); [destruct (Z.even _)|..]; lia.
Qed.

Lemma round_half_even_ceiling (x : Q) : round_half_even x <= Qceiling x.
Proof.
  assert (Hf : (inject_Z (Qfloor x) <= x)%Q) by apply Qfloor_le.
  assert (Hc : (x <= inject_Z (Qceiling x))%Q) by apply Qle_ceiling.
  assert (Hfc : Qfloor x <= Qceiling x).
  { rewrite Zle_Qle. eapply Qle_trans; eauto. }
  assert (Hstep : (1 # 2 <= x - inject_Z (Qfloor x))%Q -> Qfloor x + 1 <= Qceiling x).
  { intro H. assert (Hlt : (inject_Z (Qfloor x) < inject_Z (Qceiling x))%Q) by lra.
    rewrite <- Zlt_Qlt in Hlt. lia. }
  unfold round_half_even.
  destruct (Qcompare (x - inject_Z (Qfloor x)) (1 # 2)) eqn:E.
  - apply Qeq_alt in E. destruct (Z.even _); [lia|]. apply Hstep. lra.
  - lia.
  - apply Qgt_alt in E. apply Hstep. lra.
Qed.

Lemma round_half_even_between (a b : Z) (x : Q) :
  (inject_Z a <= x)%Q -> (x <= inject_Z b)%Q -> a <= round_half_even x <= b.
Proof.
  intros Ha Hb. split.
  - etransitivity; [|apply round_half_even_floor].
    rewrite <- (Qfloor_Z a). now apply Qfloor_resp_le.
  - etransitivity; [apply round_half_even_ceiling|].
    rewrite <- (Qceiling_Z b). now apply Qceiling_resp_le.
Qed.

Lemma pow10_pos (n : nat) : (0 < inject_Z (Zpos (pow10 n)))%Q.
Proof. rewrite <- (Zlt_Qlt 0). lia. Qed.

Lemma round_nd_between (a b : Z) (x : Q) (nd : nat) :
  (inject_Z a <= x)%Q -> (x <= inject_Z b)%Q ->
  (inject_Z a <= round_nd x nd)%Q /\ (round_nd x nd <= inject_Z b)%Q.
Proof.
  intros Ha Hb. unfold round_nd. rewrite Qred_correct.
  set (P := pow10 nd).
  assert (HP : (0 < inject_Z (Zpos P))%Q) by apply pow10_pos.
  destruct (round_half_even_between (a * Zpos P) (b * Zpos P) (x * inject_Z (Zpos P))) as [H1 H2].
  - rewrite inject_Z_mult. apply Qmult_le_compat_r; [assumption | now apply Qlt_le_weak].
  - rewrite inject_Z_mult. apply Qmult_le_compat_r; [assumption | now apply Qlt_le_weak].
  - unfold Qle. cbn [Qnum Qden inject_Z]. split; lia.
Qed.

Lemma round_nd_nonneg (x : Q) (nd : nat) : (0 <= x)%Q -> (0 <= round_nd x nd)%Q.
Proof.
  intro H. apply (round_nd_between 0 (Qceiling x) x nd); [exact H|apply Qle_ceiling].
Qed.

Lemma round_half_even_comp (x y : Q) : (x == y)%Q -> round_half_even x = round_half_even y.
Proof.
  intro E. unfold round_half_even.
  rewrite (Qfloor_comp _ _ E).
  assert (C : Qcompare (x - inject_Z (Qfloor y)) (1 # 2) = Qcompare (y - inject_Z (Qfloor y)) (1 # 2)).
  { apply Qcompare_comp; [now rewrite E | reflexivity]. }
  now rewrite C.
Qed.

Lemma round_half_even_Z (z : Z) : round_half_even (inject_Z z) = z.
Proof.
  pose proof (round_half_even_between z z (inject_Z z)) as H.
  assert (z <= round_half_even (inject_Z z) <= z) by (apply H; apply Qle_refl). lia.
Qed.

Lemma clamp_cases (s : Q) :
  ((s <= 0)%Q /\ clamp s = 0%Q) \/
  ((0 < s)%Q /\ (s < 100)%Q /\ clamp s = s) \/
  ((100 <= s)%Q /\ clamp s = 100%Q).
Proof.
  unfold clamp, py_min, py_max.
  destruct (Qlt_bool s 100) eqn:E1.
  - apply Qlt_bool_iff in E1.
    destruct (Qlt_bool 0 s) eqn:E2.
    + apply Qlt_bool_iff in E2. right; left; auto.
    + apply Qlt_bool_false_iff in E2. left; auto.
  - apply Qlt_bool_false_iff in E1. right; right. split; [assumption|reflexivity].
Qed.

Lemma clamp_bounds (s : Q) : (0 <= clamp s)%Q /\ (clamp s <= 100)%Q.
Proof.
  destruct (clamp_cases s) as [[H E]|[[H1 [H2 E]]|[H E]]]; rewrite E; lra.
Qed.


Lemma round_half_even_near (x : Q) :
  (Qabs (inject_Z (round_half_even x) - x) <= 1 # 2)%Q.
Proof.
  assert (Hf : (inject_Z (Qfloor x) <= x)%Q) by apply Qfloor_le.
  assert (Hl : (x < inject_Z (Qfloor x + 1))%Q) by apply Qlt_floor.
  rewrite inject_Z_plus in Hl. change (inject_Z 1) with 1%Q in Hl.
  apply Qabs_Qle_condition. unfold round_half_even.
  destruct (Qcompare (x - inject_Z (Qfloor x)) (1 # 2)) eqn:E.
  - apply Qeq_alt in E. destruct (Z.even (Qfloor x)).
    + split; lra.
    + rewrite inject_Z_plus. change (inject_Z 1) with 1%Q. split; lra.
  - rewrite <- Qlt_alt in E. split; lra.
  - rewrite <- Qgt_alt in E. rewrite inject_Z_plus. change (inject_Z 1) with 1%Q. split; lra.
Qed.

(** [round(x, 2)] is a hundredth, at most half a hundredth away from [x]. *)
Lemma round_2_near (x : Q) :
  (exists k : Z, round_nd x 2 == inject_Z k / 100)%Q
  /\ (Qabs (round_nd x 2 - x) <= 1 # 200)%Q.
Proof.
  unfold round_nd. change (pow10 2) with 100%positive.
  change (inject_Z (Z.pos 100)) with 100%Q.
  set (k := round_half_even (x * 100)).
  assert (E : (Qred (k # 100) == inject_Z k * (1 # 100))%Q).
  { rewrite Qred_correct. unfold Qeq, Qmult, inject_Z. cbn [Qnum Qden]. lia. }
  split; [exists k; exact E|].
  rewrite E. pose proof (round_half_even_near (x * 100)) as N. fold k in N.
  apply Qabs_Qle_condition in N. apply Qabs_Qle_condition. split; lra.
Qed.

(** C3, as stated, fails: a price of 0 with a compare-at price of 10 has a
    defined discount, 100, although [compare_at_min > price_min > 0] does
    not hold. *)
Lemma compute_discount_pct_zero_price :
  compute_discount_pct (Some 0%Q) (Some 10%Q) = Some 100%Q
  /\ ~ ((0 < 10)%Q /\ (0 < 0)%Q).
Proof.
  split; [reflexivity|]. intros [_ H]. discriminate H.
Qed.

Lemma compute_discount_pct_Some_iff (price_min compare_at_min : option Q) (d : Q) :
  compute_discount_pct price_min compare_at_min = Some d <->
  exists p c, price_min = Some p /\ compare_at_min = Some c
              /\ (p < c)%Q /\ (0 < c)%Q
              /\ d = round_nd ((c - p) / c * 100) 2.
Proof.
  unfold compute_discount_pct.
  destruct price_min as [p|], compare_at_min as [c|].
  - destruct (Qlt_bool p c) eqn:E1, (Qlt_bool 0 c) eqn:E2; simpl.
    + apply Qlt_bool_iff in E1. apply Qlt_bool_iff in E2.
      split.
      * intro H. inversion H. exists p, c. auto.
      * intros (p' & c' & Hp & Hc & _ & _ & Hd). inversion Hp; inversion Hc; subst. reflexivity.
    + apply Qlt_bool_false_iff in E2.
      split; [discriminate|].
      intros (p' & c' & Hp & Hc & _ & H0 & _). inversion Hc; subst. lra.
    + apply Qlt_bool_false_iff in E1.
      split; [discriminate|].
      intros (p' & c' & Hp & Hc & H0 & _ & _). inversion Hp; inversion Hc; subst. lra.
    + apply Qlt_bool_false_iff in E1.
      split; [discriminate|].
      intros (p' & c' & Hp & Hc & H0 & _ & _). inversion Hp; inversion Hc; subst. lra.
  - split; [discriminate|]. intros (p' & c' & _ & Hc & _). discriminate.
  - split; [discriminate|]. intros (p' & c' & Hp & _). discriminate.
  - split; [discriminate|]. intros (p' & c' & Hp & _). discriminate.
Qed.

(** The percentage that a discount rounds. *)
Lemma discount_ratio_bounds (p c : Q) :
  (p < c)%Q -> (0 < c)%Q ->
  (0 < (c - p) / c * 100)%Q /\ ((0 <= p)%Q -> ((c - p) / c * 100 <= 100)%Q).
Proof.
  intros Hpc Hc.
  assert (H0 : (0 < (c - p) / c)%Q) by (apply Qlt_shift_div_l; [exact Hc|lra]).
  split; [lra|].
  intro Hp.
  assert (H : ((c - p) / c <= 1)%Q) by (apply Qle_shift_div_r; [exact Hc|lra]).
  lra.
Qed.

(** C3, amended: [compute_discount_pct] is defined exactly when both values
    are present, [compare_at_min > price_min] and [compare_at_min > 0].  It
    is then the percentage [(compare_at_min - price_min) / compare_at_min *
    100] rounded to two decimals: a multiple of 0.01 that lies at most half
    a hundredth from that percentage, up to the error of binary floating
    point (bounded here, generously, by a billionth of the percentage),
    which also decides ties.  The percentage is positive, the result is not
    negative, and neither exceeds 100 when the price is not negative.
    [compute_discount_pct(10, 5)] is undefined and
    [compute_discount_pct(5, 10)] is 50. *)
Theorem compute_discount_pct_defined_iff (price_min compare_at_min : option Q) :
  ((exists d, compute_discount_pct price_min compare_at_min = Some d) <->
   exists p c, price_min = Some p /\ compare_at_min = Some c /\ (p < c)%Q /\ (0 < c)%Q)
  /\ (forall p c d,
        price_min = Some p -> compare_at_min = Some c ->
        compute_discount_pct price_min compare_at_min = Some d ->
        let exact := ((c - p) / c * 100)%Q in
        (exists k : Z, d == inject_Z k / 100)%Q
        /\ (Qabs (d - exact) <= (1 # 200) + exact / 1000000000)%Q
        /\ (0 < exact)%Q /\ (0 <= d)%Q
        /\ ((0 <= p)%Q -> (exact <= 100)%Q /\ (d <= 100)%Q))
  /\ compute_discount_pct (Some 10%Q) (Some 5%Q) = None
  /\ compute_discount_pct (Some 5%Q) (Some 10%Q) = Some 50%Q.
Proof.
  split; [|split; [|split; reflexivity]].
  - split.
    + intros [d H]. apply compute_discount_pct_Some_iff in H.
      destruct H as (p & c & Hp & Hc & L1 & L2 & _). now exists p, c.
    + intros (p & c & Hp & Hc & L1 & L2). eexists.
      apply compute_discount_pct_Some_iff. exists p, c. repeat split; eauto.
  - intros p c d Hp Hc H. apply compute_discount_pct_Some_iff in H.
    destruct H as (p' & c' & Hp' & Hc' & L1 & L2 & ->).
    rewrite Hp in Hp'. rewrite Hc in Hc'. injection Hp' as <-. injection Hc' as <-.
    cbv zeta.
    destruct (discount_ratio_bounds p c L1 L2) as [P B].
    destruct (round_2_near ((c - p) / c * 100)) as [K N].
    split; [exact K|]. split; [|split; [exact P|split]].
    + eapply Qle_trans; [exact N|].
      assert (0 <= (c - p) / c * 100 / 1000000000)%Q; [|lra].
      apply Qle_shift_div_l; [reflexivity|lra].
    + apply round_nd_nonneg. lra.
    + intro H0. split; [now apply B|].
      apply (round_nd_between 0 100 _ 2); [change (inject_Z 0) with 0%Q; lra|].
      change (inject_Z 100) with 100%Q. now apply B.
Qed.






Lemma len_nonneg {A : Type} (l : list A) : 0 <= len l.
Proof. unfold len. lia. Qed.

Lemma len_cons {A : Type} (x : A) (l : list A) : len (x :: l) = len l + 1.
Proof. unfold len. simpl List.length. lia. Qed.

Lemma len_app {A : Type} (l1 l2 : list A) : len (l1 ++ l2) = len l1 + len l2.
Proof. unfold len. rewrite length_app. lia. Qed.

Lemma count_if_le {A : Type} (f : A -> bool) (l : list A) : 0 <= count_if f l <= len l.
Proof.
  unfold count_if, len. pose proof (filter_length_le f l). lia.
Qed.

Lemma count_if_cons {A : Type} (f : A -> bool) (x : A) (l : list A) :
  count_if f (x :: l) = (if f x then 1 else 0) + count_if f l.
Proof.
  unfold count_if. simpl. destruct (f x); [rewrite len_cons|]; lia.
Qed.

Lemma count_if_app {A : Type} (f : A -> bool) (l1 l2 : list A) :
  count_if f (l1 ++ l2) = count_if f l1 + count_if f l2.
Proof. unfold count_if. rewrite filter_app. apply len_app. Qed.

Section CounterFacts.
Context {K : Type} (keq : K -> K -> bool).
Hypothesis keq_spec : forall a b, keq a b = true <-> a = b.

Lemma keq_refl (k : K) : keq k k = true.
Proof. now apply keq_spec. Qed.

Lemma lookup_In (k : K) (n : Z) (c : list (K * Z)) : lookup keq k c = Some n -> In (k, n) c.
Proof.
  induction c as [|[k' n'] r IH]; simpl; [discriminate|].
  destruct (keq k' k) eqn:E.
  - intro H. inversion H. subst. apply keq_spec in E. subst. now left.
  - intro H. right. auto.
Qed.

Lemma lookup_incr (k k' : K) (c : list (K * Z)) :
  lookup keq k (counter_incr keq k' c) =
  if keq k' k
  then Some (match lookup keq k c with Some n => n + 1 | None => 1 end)
  else lookup keq k c.
Proof.
  induction c as [|[k1 n1] r IH]; simpl.
  - destruct (keq k' k); reflexivity.
  - destruct (keq k1 k') eqn:E1; simpl.
    + apply keq_spec in E1. subst k1.
      destruct (keq k' k); reflexivity.
    + destruct (keq k1 k) eqn:E2.
      * apply keq_spec in E2. subst k1.
        destruct (keq k' k) eqn:E3; [|reflexivity].
        apply keq_spec in E3. subst k'. rewrite keq_refl in E1. discriminate.
      * apply IH.
Qed.

Lemma incr_bounds (k' : K) (c : list (K * Z)) (pre : list K) :
  (forall k n, In (k, n) c -> 1 <= n <= occ keq k pre) ->
  forall k n, In (k, n) (counter_incr keq k' c) -> 1 <= n <= occ keq k (pre ++ [k']).
Proof.
  intros H k n. unfold occ. rewrite count_if_app, count_if_cons.
  change (count_if (fun x => keq x k) []) with 0.
  change (count_if (fun x => keq x k) pre) with (occ keq k pre).
  revert H. induction c as [|[k1 n1] r IH]; simpl; intros H.
  - intros [E|[]]. injection E as E1 E2. subst k' n. rewrite keq_refl.
    pose proof (count_if_le (fun x => keq x k) pre). unfold occ. lia.
  - destruct (keq k1 k') eqn:E1.
    + intros [E|Hin].
      * injection E as E2 E3. subst k1 n. apply keq_spec in E1. subst k'.
        rewrite keq_refl.
        specialize (H k n1 (or_introl eq_refl)). lia.
      * specialize (H k n (or_intror Hin)). destruct (keq k' k); lia.
    + intros [E|Hin].
      * injection E as E2 E3. subst k1 n1. specialize (H k n (or_introl eq_refl)).
        destruct (keq k' k); lia.
      * apply IH; auto.
Qed.

Lemma Counter_fold_bounds (keys : list K) :
  forall (c : list (K * Z)) (pre : list K),
    (forall k n, In (k, n) c -> 1 <= n <= occ keq k pre) ->
    forall k n, In (k, n) (fold_left (fun c k => counter_incr keq k c) keys c) ->
                1 <= n <= occ keq k (pre ++ keys).
Proof.
  induction keys as [|k' r IH]; simpl; intros c pre H k n Hin.
  - rewrite app_nil_r. auto.
  - replace (pre ++ k' :: r)%list with ((pre ++ [k']) ++ r)%list
      by (rewrite <- app_assoc; reflexivity).
    eapply IH; [|exact Hin]. now apply incr_bounds.
Qed.

Lemma Counter_bounds (keys : list K) (k : K) (n : Z) :
  In (k, n) (Counter keq keys) -> 1 <= n <= occ keq k keys.
Proof.
  intro H. change keys with ([] ++ keys)%list.
  eapply Counter_fold_bounds; [|exact H]. intros ? ? [].
Qed.

Lemma Counter_fold_lookup (k : K) (keys : list K) :
  forall c,
    lookup keq k (fold_left (fun c k => counter_incr keq k c) keys c) =
    match lookup keq k c with
    | Some n => Some (n + occ keq k keys)
    | None => if occ keq k keys =? 0 then None else Some (occ keq k keys)
    end.
Proof.
  induction keys as [|k' r IH]; simpl; intro c.
  - unfold occ, count_if, len. simpl. destruct (lookup keq k c); [f_equal; lia|reflexivity].
  - rewrite IH, lookup_incr. unfold occ. rewrite count_if_cons.
    pose proof (count_if_le (fun x => keq x k) r) as Hr.
    destruct (keq k' k); destruct (lookup keq k c).
    + f_equal. lia.
    + destruct (Z.eqb_spec (1 + count_if (fun x => keq x k) r) 0); [lia|]. f_equal; lia.
    + f_equal; lia.
    + reflexivity.
Qed.

Lemma Counter_complete (k : K) (keys : list K) :
  0 < occ keq k keys -> In (k, occ keq k keys) (Counter keq keys).
Proof.
  intro H. apply lookup_In. unfold Counter. rewrite Counter_fold_lookup. simpl.
  destruct (Z.eqb_spec (occ keq k keys) 0); [lia|reflexivity].
Qed.

Lemma Counter_nonempty (k : K) (keys : list K) : Counter keq (k :: keys) <> [].
Proof.
  intro E. pose proof (Counter_complete k (k :: keys)) as H.
  rewrite E in H. apply H. unfold occ. rewrite count_if_cons, keq_refl.
  pose proof (count_if_le (fun x => keq x k) keys). lia.
Qed.

End CounterFacts.

Section SortFacts.
Context {A : Type} (key : A -> Z).

Let lt (a b : A) : bool := key a <? key b.

Lemma insert_desc_In (x a : A) (l : list A) :
  In a (insert_desc lt x l) <-> a = x \/ In a l.
Proof.
  induction l as [|y ys IH]; simpl.
  - intuition.
  - destruct (lt x y); simpl; rewrite ?IH; intuition.
Qed.

Lemma sorted_desc_In (a : A) (l : list A) : In a (sorted_desc lt l) <-> In a l.
Proof.
  induction l as [|x r IH]; simpl; [tauto|].
  rewrite insert_desc_In, IH. intuition.
Qed.

Lemma insert_desc_head_max (x : A) (l : list A) :
  head_max key l -> head_max key (insert_desc lt x l).
Proof.
  destruct l as [|y ys]; simpl.
  - intros _ a [<-|[]]. lia.
  - intro H. unfold lt. destruct (Z.ltb_spec (key x) (key y)); simpl.
    + intros a [<-|Hin]; [lia|].
      apply insert_desc_In in Hin. destruct Hin as [->|Hin]; [lia|].
      apply H. now right.
    + intros a [<-|Hin]; [lia|]. specialize (H a Hin). lia.
Qed.

Lemma sorted_desc_head_max (l : list A) : head_max key (sorted_desc lt l).
Proof.
  induction l as [|x r IH]; simpl; [exact I|]. now apply insert_desc_head_max.
Qed.

End SortFacts.

(** The first entry of [most_common 1] carries a largest count. *)
Lemma most_common_1 {K : Type} (c : list (K * Z)) :
  c <> [] ->
  exists k n rest,
    most_common 1 c = (k, n) :: rest /\ In (k, n) c /\ forall k' n', In (k', n') c -> n' <= n.
Proof.
  intro Hne. unfold most_common.
  pose proof (sorted_desc_head_max (A := K * Z) snd c) as Hmax.
  pose proof (fun a => sorted_desc_In (A := K * Z) snd a c) as Hin.
  cbv zeta in Hmax, Hin.
  destruct (sorted_desc (fun a b => snd a <? snd b) c) as [|[k n] r] eqn:E.
  - destruct c as [|x c']; [congruence|]. exfalso. apply (Hin x). now left.
  - exists k, n, []. simpl. split; [reflexivity|]. split.
    + apply Hin. now left.
    + intros k' n' H'. apply (Hmax (k', n')). apply Hin. exact H'.
Qed.

Lemma round_half_even_le_succ (x : Q) : round_half_even x <= Qfloor x + 1.
Proof.
  unfold round_half_even.
  destruct (Qcompare _ _); [destruct (Z.even _)|..]; lia.
Qed.

Lemma round_half_even_ge_700 (y : Q) : 700 <= round_half_even y <-> (1399 # 2 <= y)%Q.
Proof.
  assert (Hf : (inject_Z (Qfloor y) <= y)%Q) by apply Qfloor_le.
  assert (Hl : (y < inject_Z (Qfloor y + 1))%Q) by apply Qlt_floor.
  rewrite inject_Z_plus in Hl. change (inject_Z 1) with 1%Q in Hl.
  split.
  - intro H. destruct (Qlt_le_dec y (1399 # 2)) as [Hlt|]; [exfalso|assumption].
    assert (Hfl : Qfloor y <= 699).
    { apply Z.lt_succ_r. rewrite Zlt_Qlt. change (inject_Z (Z.succ 699)) with 700%Q. lra. }
    destruct (Z.eq_dec (Qfloor y) 699) as [E|NE].
    + unfold round_half_even in H. rewrite E in H.
      change (inject_Z 699) with 699%Q in H.
      assert (C : Qcompare (y - 699) (1 # 2) = Lt) by (rewrite <- Qlt_alt; lra).
      rewrite C in H. lia.
    + pose proof (round_half_even_le_succ y). lia.
  - intro H.
    assert (Hfl : 699 <= Qfloor y).
    { rewrite <- (Qfloor_Z 699). apply Qfloor_resp_le. change (inject_Z 699) with 699%Q. lra. }
    destruct (Z.eq_dec (Qfloor y) 699) as [E|NE].
    + unfold round_half_even. rewrite E. change (inject_Z 699) with 699%Q.
      destruct (Qcompare (y - 699) (1 # 2)) eqn:C.
      * simpl. lia.
      * apply Qlt_alt in C. lra.
      * lia.
    + pose proof (round_half_even_floor y). lia.
Qed.

Lemma round1_ge_70 (x : Q) : Qle_bool 70 (round_nd x 1) = true <-> (1399 # 20 <= x)%Q.
Proof.
  rewrite Qle_bool_iff. unfold round_nd. rewrite Qred_correct.
  change (pow10 1) with 10%positive.
  transitivity (700 <= round_half_even (x * inject_Z 10)).
  - unfold Qle. cbn [Qnum Qden]. lia.
  - rewrite round_half_even_ge_700. change (inject_Z 10) with 10%Q. split; intro; lra.
Qed.

Lemma count_if_map {A B : Type} (f : B -> bool) (g : A -> B) (l : list A) :
  count_if f (map g l) = count_if (fun a => f (g a)) l.
Proof.
  induction l as [|a r IH]; [reflexivity|].
  simpl map. rewrite !count_if_cons, IH. reflexivity.
Qed.

Lemma occ_days (day : string) (l : list Z) :
  occ String.eqb day (map strftime_ymd l) = updates_on day l.
Proof. unfold occ, updates_on, bucket_day. apply count_if_map. Qed.

(** What [detect_bulk_update_spike] returns on a non-empty list. *)
Lemma detect_bulk_update_spike_day (l : list Z) :
  l <> [] ->
  exists top_bucket top_count,
    let dominant_pct := round_nd (100 * inject_Z top_count / inject_Z (len l)) 1 in
    detect_bulk_update_spike l "day" =
      (Qle_bool 70 dominant_pct && (30 <=? len l), Some top_bucket, dominant_pct)
    /\ top_count = updates_on top_bucket l
    /\ 1 <= top_count
    /\ forall day, updates_on day l <= top_count.
Proof.
  intro Hne. destruct l as [|d r]; [congruence|].
  unfold detect_bulk_update_spike.
  change (String.eqb "day" "hour") with false. cbv iota.
  set (keys := map strftime_ymd (d :: r)).
  assert (Hc : Counter String.eqb keys <> []).
  { unfold keys. simpl map. apply Counter_nonempty. apply String.eqb_eq. }
  destruct (most_common_1 _ Hc) as (k & n & rest & E & Hin & Hmax).
  rewrite E. exists k, n. cbv zeta.
  pose proof (Counter_bounds String.eqb String.eqb_eq keys k n Hin) as Hb.
  unfold keys in Hb. rewrite occ_days in Hb.
  assert (Hall : forall day, updates_on day (d :: r) <= n).
  { intro day. destruct (Z.eq_dec (updates_on day (d :: r)) 0) as [->|NZ]; [lia|].
    apply (Hmax day). rewrite <- occ_days. apply Counter_complete; [apply String.eqb_eq|].
    unfold keys. rewrite occ_days. pose proof (count_if_le (fun x => String.eqb (bucket_day x) day) (d :: r)).
    unfold updates_on in *. lia. }
  split; [reflexivity|]. split; [|split; [lia|exact Hall]].
  specialize (Hall k). lia.
Qed.

Lemma share_threshold (n total : Z) :
  0 < total ->
  ((1399 # 20 <= 100 * inject_Z n / inject_Z total)%Q <-> 1399 * total <= 2000 * n).
Proof.
  intro Hpos.
  assert (HQ : (0 < inject_Z total)%Q) by (rewrite <- (Zlt_Qlt 0); exact Hpos).
  rewrite (Zle_Qle (1399 * total)), !inject_Z_mult.
  change (inject_Z 1399) with 1399%Q. change (inject_Z 2000) with 2000%Q.
  split; intro H.
  - apply (Qmult_le_r _ _ (inject_Z total)) in H; [|exact HQ].
    assert (E : (100 * inject_Z n / inject_Z total * inject_Z total == 100 * inject_Z n)%Q)
      by (field; lra).
    rewrite E in H. lra.
  - apply (Qmult_le_r _ _ (inject_Z total)); [exact HQ|].
    assert (E : (100 * inject_Z n / inject_Z total * inject_Z total == 100 * inject_Z n)%Q)
      by (field; lra).
    rewrite E. lra.
Qed.

Lemma detect_flag_iff (l : list Z) :
  fst (fst (detect_bulk_update_spike l "day")) = true <->
  30 <= len l /\ exists day, 1399 * len l <= 2000 * updates_on day l.
Proof.
  destruct l as [|d r] eqn:El.
  - simpl. split; [discriminate|]. intros [H _]. unfold len in H. simpl in H. lia.
  - rewrite <- El.
    assert (Hne : l <> []) by (rewrite El; discriminate).
    assert (Hpos : 0 < len l) by (rewrite El, len_cons; pose proof (len_nonneg r); lia).
    destruct (detect_bulk_update_spike_day l Hne) as (tb & n & E & Hn & H1 & Hmax).
    cbv zeta in E. rewrite E. cbn [fst].
    rewrite andb_true_iff, round1_ge_70, Z.leb_le, (share_threshold n (len l) Hpos).
    split.
    + intros [H H30]. split; [exact H30|]. exists tb. lia.
    + intros [H30 [day H]]. split; [|exact H30]. specialize (Hmax day). lia.
Qed.


Lemma count_if_repeat {A : Type} (f : A -> bool) (a : A) (n : nat) :
  count_if f (repeat a n) = if f a then Z.of_nat n else 0.
Proof.
  induction n as [|n IH]; [destruct (f a); reflexivity|].
  simpl repeat. rewrite count_if_cons, IH. destruct (f a); lia.
Qed.


(** ** Calendar days *)

Lemma civil_from_days_inverse (n : Z) :
  0 <= n <= 3652058 ->
  let '(y, m, d) := civil_from_days n in
  1 <= y <= 9999 /\ 1 <= m <= 12 /\ 1 <= d <= 31 /\ days_from_civil y m d = n.
Proof.
  intro H. unfold civil_from_days, days_from_civil. cbv zeta.
  repeat match goal with
         | |- context [if ?a <=? ?b then _ else _] => destruct (Z.leb_spec a b)
         | |- context [if ?a <? ?b then _ else _] => destruct (Z.ltb_spec a b)
         end;
    Z.div_mod_to_equations; lia.
Qed.

Lemma all_from_spec (f : Z -> bool) (n : nat) :
  forall v, all_from f n v = true ->
  forall x, v <= x < v + Z.of_nat n -> f x = true.
Proof.
  induction n as [|n IH]; intros v H x Hx; [lia|].
  cbn [all_from] in H. apply andb_true_iff in H. destruct H as [Hv Hr].
  destruct (Z.eq_dec x v) as [->|N]; [exact Hv|].
  apply (IH (v + 1) Hr). lia.
Qed.

Lemma two_digits_below_100 (v : Z) : 0 <= v < 100 -> two_digits v = true.
Proof.
  intro H. apply (all_from_spec two_digits (Z.to_nat 100) 0); [vm_compute; reflexivity|lia].
Qed.

Lemma four_digits_below_10000 (v : Z) : 0 <= v < 10000 -> four_digits v = true.
Proof.
  intro H. apply (all_from_spec four_digits (Z.to_nat 10000) 0); [vm_compute; reflexivity|lia].
Qed.

Lemma date_string_inj (y m d y' m' d' : Z) :
  0 <= y < 10000 -> 0 <= m < 100 -> 0 <= d < 100 ->
  0 <= y' < 10000 -> 0 <= m' < 100 -> 0 <= d' < 100 ->
  String.append (pad0 4 (str_int y))
    (String.append "-" (String.append (pad0 2 (str_int m))
       (String.append "-" (pad0 2 (str_int d)))))
  = String.append (pad0 4 (str_int y'))
      (String.append "-" (String.append (pad0 2 (str_int m'))
         (String.append "-" (pad0 2 (str_int d'))))) ->
  y = y' /\ m = m' /\ d = d'.
Proof.
  intros Hy Hm Hd Hy' Hm' Hd'.
  pose proof (four_digits_below_10000 y Hy) as Y.
  pose proof (four_digits_below_10000 y' Hy') as Y'.
  pose proof (two_digits_below_100 m Hm) as M.
  pose proof (two_digits_below_100 m' Hm') as M'.
  pose proof (two_digits_below_100 d Hd) as D.
  pose proof (two_digits_below_100 d' Hd') as D'.
  unfold four_digits in Y, Y'. unfold two_digits in M, M', D, D'.
  destruct (pad0 4 (str_int y)) as [|a1 [|a2 [|a3 [|a4 [|? ?]]]]]; try discriminate.
  destruct (pad0 4 (str_int y')) as [|b1 [|b2 [|b3 [|b4 [|? ?]]]]]; try discriminate.
  destruct (pad0 2 (str_int m)) as [|a5 [|a6 [|? ?]]]; try discriminate.
  destruct (pad0 2 (str_int m')) as [|b5 [|b6 [|? ?]]]; try discriminate.
  destruct (pad0 2 (str_int d)) as [|a7 [|a8 [|? ?]]]; try discriminate.
  destruct (pad0 2 (str_int d')) as [|b7 [|b8 [|? ?]]]; try discriminate.
  cbn [String.append]. intro E. injection E as -> -> -> -> -> -> -> ->.
  apply Z.eqb_eq in Y, Y', M, M', D, D'. lia.
Qed.

Lemma strftime_ymd_same_day (t t' : Z) :
  0 <= t <= MAX_US -> 0 <= t' <= MAX_US ->
  (strftime_ymd t = strftime_ymd t' <-> utc_day t = utc_day t').
Proof.
  intros Ht Ht'. unfold utc_day. split; [|unfold strftime_ymd; now intros ->].
  assert (R : forall x, 0 <= x <= MAX_US -> 0 <= x / US_PER_DAY <= 3652058).
  { intros x Hx. unfold MAX_US, US_PER_DAY, US_PER_SECOND in *.
    Z.div_mod_to_equations. lia. }
  pose proof (civil_from_days_inverse _ (R t Ht)) as C.
  pose proof (civil_from_days_inverse _ (R t' Ht')) as C'.
  unfold strftime_ymd.
  destruct (civil_from_days (t / US_PER_DAY)) as [[y m] d].
  destruct (civil_from_days (t' / US_PER_DAY)) as [[y' m'] d'].
  intro E. apply date_string_inj in E; try lia.
  destruct E as (-> & -> & ->). lia.
Qed.

Lemma bucket_day_eqb (t t' : Z) :
  0 <= t <= MAX_US -> 0 <= t' <= MAX_US ->
  String.eqb (bucket_day t) (bucket_day t') = (utc_day t =? utc_day t').
Proof.
  intros Ht Ht'. unfold bucket_day.
  pose proof (strftime_ymd_same_day t t' Ht Ht') as S.
  destruct (String.eqb_spec (strftime_ymd t) (strftime_ymd t')) as [E|N];
    destruct (Z.eqb_spec (utc_day t) (utc_day t')); tauto.
Qed.

Lemma strftime_ymd_of_day (t : Z) : strftime_ymd (utc_day t * US_PER_DAY) = strftime_ymd t.
Proof.
  unfold strftime_ymd, utc_day.
  replace (t / US_PER_DAY * US_PER_DAY / US_PER_DAY) with (t / US_PER_DAY); [reflexivity|].
  symmetry. apply Z.div_mul. discriminate.
Qed.

(** ** Days of a list of instants *)

Lemma count_if_pos_exists {A : Type} (f : A -> bool) (l : list A) :
  0 < count_if f l -> exists a, In a l /\ f a = true.
Proof.
  induction l as [|x r IH]; [unfold count_if, len; simpl; lia|].
  rewrite count_if_cons. destruct (f x) eqn:E.
  - intros _. exists x. split; [now left|assumption].
  - intro H. destruct IH as (a & Ha & Hf); [lia|]. exists a. split; [now right|assumption].
Qed.

Lemma count_if_ext_in {A : Type} (f g : A -> bool) (l : list A) :
  (forall x, In x l -> f x = g x) -> count_if f l = count_if g l.
Proof.
  intro H. unfold count_if. f_equal. apply filter_ext_in. exact H.
Qed.

Lemma count_if_none {A : Type} (f : A -> bool) (l : list A) :
  (forall x, In x l -> f x = false) -> count_if f l = 0.
Proof.
  intro H. induction l as [|x r IH]; [reflexivity|].
  rewrite count_if_cons, (H x (or_introl eq_refl)), IH; [reflexivity|].
  intros y Hy. apply H. now right.
Qed.

Lemma count_if_disjoint {A : Type} (f g : A -> bool) (l : list A) :
  (forall x, f x && g x = false) -> count_if f l + count_if g l <= len l.
Proof.
  intro H. induction l as [|x r IH]; [unfold count_if, len; simpl; lia|].
  rewrite !count_if_cons, len_cons. specialize (H x).
  destruct (f x), (g x); try discriminate; lia.
Qed.

Lemma filter_partition_length {A : Type} (f : A -> bool) (l : list A) :
  (List.length (filter f l) + List.length (filter (fun x => negb (f x)) l) = List.length l)%nat.
Proof.
  induction l as [|a r IH]; simpl; [reflexivity|].
  destruct (f a); simpl; lia.
Qed.

Section DayFacts.
Variable l : list Z.
Hypothesis in_range : forall t, In t l -> 0 <= t <= MAX_US.

(** The updates that carry the label of an instant of the list are those
    of its day. *)
Lemma updates_on_bucket_day (t : Z) :
  In t l -> updates_on (bucket_day t) l = updates_in_day (utc_day t) l.
Proof.
  intro Ht. unfold updates_on, updates_in_day. apply count_if_ext_in.
  intros x Hx. apply bucket_day_eqb; auto.
Qed.

Lemma outside_bucket_day (t : Z) :
  In t l ->
  filter (fun d => negb (String.eqb (bucket_day d) (bucket_day t))) l
  = outside_day (utc_day t) l.
Proof.
  intro Ht. unfold outside_day. apply filter_ext_in.
  intros x Hx. f_equal. apply bucket_day_eqb; auto.
Qed.

(** A day is matched by a label as soon as it holds an update. *)
Lemma updates_in_day_label (day : Z) :
  0 < updates_in_day day l ->
  exists t, In t l /\ utc_day t = day /\ updates_on (bucket_day t) l = updates_in_day day l.
Proof.
  intro H. destruct (count_if_pos_exists _ _ H) as (t & Ht & E).
  apply Z.eqb_eq in E. exists t. split; [exact Ht|]. split; [exact E|].
  rewrite <- E. now apply updates_on_bucket_day.
Qed.

Lemma updates_on_label (label : string) :
  0 < updates_on label l ->
  exists t, In t l /\ bucket_day t = label
            /\ updates_in_day (utc_day t) l = updates_on label l.
Proof.
  intro H. destruct (count_if_pos_exists _ _ H) as (t & Ht & E).
  apply String.eqb_eq in E. exists t. split; [exact Ht|]. split; [exact E|].
  rewrite <- E. symmetry. now apply updates_on_bucket_day.
Qed.

(** The share test of the detection, by labels and by days. *)
Lemma share_by_days (a b : Z) :
  0 < a -> 0 < len l ->
  ((exists label, a * len l <= b * updates_on label l)
   <-> (exists day, a * len l <= b * updates_in_day day l)).
Proof.
  intros Ha Hl. split.
  - intros [label H].
    assert (P : 0 < updates_on label l).
    { pose proof (count_if_le (fun d => String.eqb (bucket_day d) label) l) as B.
      fold (updates_on label l) in B.
      destruct (Z.eq_dec (updates_on label l) 0) as [Z0|]; [|lia].
      rewrite Z0 in H. nia. }
    destruct (updates_on_label label P) as (t & _ & _ & E).
    exists (utc_day t). now rewrite E.
  - intros [day H].
    assert (P : 0 < updates_in_day day l).
    { pose proof (count_if_le (fun t => utc_day t =? day) l) as B.
      fold (updates_in_day day l) in B.
      destruct (Z.eq_dec (updates_in_day day l) 0) as [Z0|]; [|lia].
      rewrite Z0 in H. nia. }
    destruct (updates_in_day_label day P) as (t & _ & _ & E).
    exists (bucket_day t). now rewrite E.
Qed.

(** A day with at least 69.95 percent of the instants dominates. *)
Lemma large_share_dominates (day : Z) :
  0 < len l -> 1399 * len l <= 2000 * updates_in_day day l -> dominant_day day l.
Proof.
  intros Hl H other N.
  pose proof (count_if_disjoint (fun t => utc_day t =? other) (fun t => utc_day t =? day) l) as T.
  unfold updates_in_day in *.
  assert (D : forall x, (utc_day x =? other) && (utc_day x =? day) = false).
  { intro x. destruct (Z.eqb_spec (utc_day x) other), (Z.eqb_spec (utc_day x) day);
      try reflexivity. congruence. }
  specialize (T D). lia.
Qed.

End DayFacts.

Lemma append_nonempty (a b : string) (c : ascii) : String.append a (String c b) <> EmptyString.
Proof. destruct a; simpl; discriminate. Qed.

Lemma strftime_ymd_nonempty (t : Z) : strftime_ymd t <> EmptyString.
Proof.
  unfold strftime_ymd. destruct (civil_from_days (t / US_PER_DAY)) as [[y m] d].
  apply append_nonempty.
Qed.

(** [organic_updates] on the outcome of the detection. *)
Lemma organic_updates_flagged (mu : list Z) :
  fst (fst (detect_bulk_update_spike mu "day")) = true ->
  exists day,
    snd (fst (detect_bulk_update_spike mu "day")) = Some day
    /\ 0 < updates_on day mu
    /\ organic_updates mu true (Some day) =
       let candidate := filter (fun d => negb (String.eqb (bucket_day d) day)) mu in
       if 10 <=? len candidate then (candidate, true) else (mu, false).
Proof.
  intro Hflag.
  destruct mu as [|d r] eqn:E; [discriminate|]. rewrite <- E in *.
  assert (Hne : mu <> []) by (rewrite E; discriminate).
  destruct (detect_bulk_update_spike_day mu Hne) as (tb & n & Hd & Hn & H1 & _).
  cbv zeta in Hd. rewrite Hd. cbn [fst snd]. exists tb.
  split; [reflexivity|]. split; [lia|].
  unfold organic_updates.
  destruct (String.eqb_spec tb EmptyString) as [Etb|]; [|reflexivity].
  exfalso.
  assert (Hpos : 0 < count_if (fun d => String.eqb (bucket_day d) tb) mu)
    by (unfold updates_on in Hn; lia).
  destruct (count_if_pos_exists _ mu Hpos) as (x & _ & Hx).
  apply String.eqb_eq in Hx. unfold bucket_day in Hx.
  apply (strftime_ymd_nonempty x). congruence.
Qed.

(** The detection in terms of calendar days, for instants within the range
    of [datetime]. *)
Lemma detect_flag_days (mu : list Z) :
  (forall t, In t mu -> 0 <= t <= MAX_US) ->
  (fst (fst (detect_bulk_update_spike mu "day")) = true <->
   30 <= len mu /\ exists day, 1399 * len mu <= 2000 * updates_in_day day mu).
Proof.
  intro R. rewrite detect_flag_iff. split; intros [H30 H]; (split; [exact H30|]);
    apply (share_by_days mu R 1399 2000); try lia; exact H.
Qed.

(** What the detection and the filter do when the flag is set. *)
Lemma detect_flagged_day (mu : list Z) :
  (forall t, In t mu -> 0 <= t <= MAX_US) ->
  fst (fst (detect_bulk_update_spike mu "day")) = true ->
  exists day,
    dominant_day day mu
    /\ 30 <= len mu
    /\ 1399 * len mu <= 2000 * updates_in_day day mu
    /\ snd (fst (detect_bulk_update_spike mu "day")) = Some (strftime_ymd (day * US_PER_DAY))
    /\ organic_updates mu true (snd (fst (detect_bulk_update_spike mu "day")))
       = (if 10 <=? len (outside_day day mu) then (outside_day day mu, true) else (mu, false)).
Proof.
  intros R Hflag.
  assert (H30 : 30 <= len mu) by (apply detect_flag_iff in Hflag; tauto).
  assert (Hne : mu <> []) by (intros ->; unfold len in H30; simpl in H30; lia).
  destruct (organic_updates_flagged mu Hflag) as (tb & Hday & Hpos & Horg).
  destruct (detect_bulk_update_spike_day mu Hne) as (tb' & n & Hd & Hn & _ & Hmax).
  cbv zeta in Hd. rewrite Hd in Hday, Hflag. cbn [fst snd] in Hday, Hflag.
  injection Hday as ->.
  apply andb_true_iff in Hflag. destruct Hflag as [Hshare _].
  apply round1_ge_70 in Hshare. apply share_threshold in Hshare; [|lia].
  destruct (updates_on_label mu R tb Hpos) as (t & Ht & Hb & Hcount).
  exists (utc_day t).
  assert (S : 1399 * len mu <= 2000 * updates_in_day (utc_day t) mu) by lia.
  split; [apply (large_share_dominates mu); [lia|exact S]|].
  split; [exact H30|]. split; [exact S|].
  rewrite Hd. cbn [fst snd].
  split; [rewrite strftime_ymd_of_day; unfold bucket_day in Hb; now rewrite Hb|].
  rewrite Horg. cbv zeta. rewrite <- Hb. now rewrite (outside_bucket_day mu R t Ht).
Qed.

Lemma in_somes {A : Type} (x : A) (l : list (option A)) : In x (somes l) <-> In (Some x) l.
Proof.
  induction l as [|[y|] r IH]; simpl; [tauto| |].
  - rewrite IH. split; intros [H|H]; auto; left; congruence.
  - rewrite IH. split; [auto|]. intros [H|H]; [discriminate|exact H].
Qed.

Lemma outside_day_len (day : Z) (l : list Z) :
  len (outside_day day l) = len l - updates_in_day day l.
Proof.
  unfold outside_day, updates_in_day, count_if, len.
  pose proof (filter_partition_length (fun t => utc_day t =? day) l). lia.
Qed.

Section AnalyzeFacts.
Variable fromisoformat : string -> option (Z * option Z).
Variable clock : nat -> Z.

Lemma parse_dt_range (s : option string) (t : Z) :
  parse_dt fromisoformat s = Some t -> 0 <= t <= MAX_US.
Proof.
  unfold parse_dt. destruct s as [s|]; [|discriminate].
  destruct (String.eqb s EmptyString); [discriminate|].
  destruct (fromisoformat _) as [[wall off]|]; [|discriminate].
  destruct (_ && _) eqn:R; [|discriminate].
  intro H. injection H as <-.
  apply andb_true_iff in R. destruct R as [R1 R2].
  apply Z.leb_le in R1, R2. lia.
Qed.

(** Every meaningful update lies within the range of [datetime]. *)
Lemma meaningful_updates_range (products : list product) (t : Z) :
  In t (meaningful_updates fromisoformat products) -> 0 <= t <= MAX_US.
Proof.
  unfold meaningful_updates. rewrite in_somes, in_map_iff.
  intros (p & E & _). unfold meaningful_update_dt, updated_dt in E.
  destruct (parse_dt fromisoformat (updated_at p)) as [ud|] eqn:U; [|discriminate].
  apply parse_dt_range in U.
  destruct (created_dt fromisoformat p);
    [destruct (_ <=? _); [discriminate|]|]; injection E as <-; exact U.
Qed.

(** The update pack in terms of the detection and of [organic_updates]. *)
Lemma update_pack_fields (now : Z) (products : list product) (o : option new_old)
    (u : update_activity) :
  new_vs_old_and_updates_at fromisoformat now products = (o, Some u) ->
  let mu := meaningful_updates fromisoformat products in
  let det := detect_bulk_update_spike mu "day" in
  let org := organic_updates mu (fst (fst det)) (snd (fst det)) in
  bulk_update_flag u = fst (fst det)
  /\ bulk_update_bucket u = snd (fst det)
  /\ bulk_update_dominant_pct u = snd det
  /\ bulk_filter_applied u = snd org
  /\ organic_update_count u = len (fst org)
  /\ meaningful_update_count u = len mu
  /\ updated_30 u = count_if (fun d => now - days 30 <=? d) (fst org)
  /\ updated_90 u = count_if (fun d => now - days 90 <=? d) (fst org)
  /\ updated_180 u = count_if (fun d => now - days 180 <=? d) (fst org).
Proof.
  intros H mu det org. subst org det mu. revert H.
  unfold new_vs_old_and_updates_at.
  destruct (len products =? 0); [discriminate|]. intro H.
  destruct (detect_bulk_update_spike _ _) as [[is_bulk top_bucket] dominant_pct].
  cbn [fst snd].
  destruct (organic_updates _ _ _) as [filtered applied].
  injection H as _ <-. cbn. repeat split; reflexivity.
Qed.

(** C5: when the update pack flags a bulk pattern, one calendar day (UTC)
    holds more meaningful updates than any other day, and
    [bulk_update_bucket] is the date of that day.  The organic updates are
    the meaningful updates outside that day if at least 10 of them remain,
    and then [bulk_filter_applied] is true; otherwise they are all the
    meaningful updates and [bulk_filter_applied] is false.  The organic
    counts of the three windows are counted on that set, and the organic
    count is at least 10 either way. *)
Theorem organic_set_after_bulk_filter (now : Z) (products : list product)
    (o : option new_old) (u : update_activity) :
  new_vs_old_and_updates_at fromisoformat now products = (o, Some u) ->
  bulk_update_flag u = true ->
  let mu := meaningful_updates fromisoformat products in
  exists day,
    dominant_day day mu
    /\ bulk_update_bucket u = Some (strftime_ymd (day * US_PER_DAY))
    /\ let candidate := outside_day day mu in
       let organic := fst (organic_updates mu (bulk_update_flag u) (bulk_update_bucket u)) in
       len candidate = len mu - updates_in_day day mu
       /\ (10 <= len candidate ->
           organic = candidate
           /\ organic_update_count u = len candidate
           /\ bulk_filter_applied u = true)
       /\ (len candidate < 10 ->
           organic = mu
           /\ organic_update_count u = len mu
           /\ bulk_filter_applied u = false)
       /\ updated_30 u = count_if (fun d => now - days 30 <=? d) organic
       /\ updated_90 u = count_if (fun d => now - days 90 <=? d) organic
       /\ updated_180 u = count_if (fun d => now - days 180 <=? d) organic
       /\ 10 <= organic_update_count u.
Proof.
  intros Hpack Hflag mu.
  destruct (update_pack_fields now products o u Hpack)
    as (Hf & Hb & _ & Ha & Hc & Hm & H30 & H90 & H180).
  fold mu in Hf, Hb, Ha, Hc, Hm, H30, H90, H180.
  rewrite Hflag in Hf. symmetry in Hf.
  destruct (detect_flagged_day mu (meaningful_updates_range products) Hf)
    as (day & Hdom & L30 & _ & Hday & Horg).
  rewrite Hf in Ha, Hc, H30, H90, H180.
  exists day. split; [exact Hdom|]. split; [congruence|]. cbv zeta.
  rewrite Hflag, Hb.
  split; [apply outside_day_len|].
  rewrite Horg in *.
  destruct (Z.leb_spec 10 (len (outside_day day mu))) as [L|L];
    cbn [fst snd] in *; repeat split; intros; try lia; auto.
Qed.

(** What a successful call of [analyze_products] returned. *)
Lemma analyze_products_inv (products : list product) (k k' : nat) (r : report) :
  analyze_products fromisoformat clock products k = Ok (r, k') ->
  exists newest recent launch,
    sorted_desc_dt (newest_dt fromisoformat) products = Ok newest
    /\ sorted_desc_dt (updated_key fromisoformat) products = Ok recent
    /\ (launch = LaunchEmpty \/ launch = launch_timeline_at fromisoformat (clock (5 + k)%nat) products)
    /\ r = assemble fromisoformat products
             (new_vs_old_and_updates_at fromisoformat (clock k) products)
             (count_if (fun d => match d with Some t => clock (1 + k)%nat - days 30 <=? t | None => false end)
                (map (fun p => parse_dt fromisoformat (created_at p)) products))
             (count_if (fun d => match d with Some t => clock (2 + k)%nat - days 90 <=? t | None => false end)
                (map (fun p => parse_dt fromisoformat (created_at p)) products))
             (count_if (fun d => match d with Some t => clock (3 + k)%nat - days 180 <=? t | None => false end)
                (map (fun p => parse_dt fromisoformat (created_at p)) products))
             (firstn 10 newest) (firstn 10 recent)
             (clock (4 + k)%nat - days 90) launch
             (clock (if len products =? 0 then (5 + k)%nat else (6 + k)%nat)).
Proof.
  unfold analyze_products, compute_new_vs_old_and_updates, count_since, cutoff_days,
    analyze_launch_timeline, bind, ret, now_utc, lift.
  destruct (sorted_desc_dt (newest_dt fromisoformat) products) as [newest|e]; [|discriminate].
  destruct (sorted_desc_dt (updated_key fromisoformat) products) as [recent|e]; [|discriminate].
  destruct (len products =? 0) eqn:E; cbn; intro H; injection H as <- _;
    eexists _, _, _; repeat split; eauto.
Qed.

(** The update activity of a report repeats the update pack. *)
Lemma report_update_activity (products : list product) (k k' : nat) (r : report) :
  analyze_products fromisoformat clock products k = Ok (r, k') ->
  cmp_update_activity (comparisons r)
  = update_view_of (snd (new_vs_old_and_updates_at fromisoformat (clock k) products))
  /\ map cp_count [d30 (updated (new_vs_old r)); d90 (updated (new_vs_old r));
                   d180 (updated (new_vs_old r))]
     = map (fun f => get_updated f
                       (snd (new_vs_old_and_updates_at fromisoformat (clock k) products)))
         [updated_30; updated_90; updated_180].
Proof.
  intro H.
  destruct (analyze_products_inv _ _ _ _ H) as (newest & recent & launch & _ & _ & _ & ->).
  split; reflexivity.
Qed.

Lemma update_pack_none (now : Z) (products : list product) (o : option new_old) :
  new_vs_old_and_updates_at fromisoformat now products = (o, None) -> products = [].
Proof.
  unfold new_vs_old_and_updates_at.
  destruct (len products =? 0) eqn:E0.
  - intros _. apply Z.eqb_eq in E0. destruct products; [reflexivity|].
    rewrite len_cons in E0. pose proof (len_nonneg products). lia.
  - destruct (detect_bulk_update_spike _ _) as [[? ?] ?].
    destruct (organic_updates _ _ _). discriminate.
Qed.

(** C10, amended: in every report that [analyze_products] returns,
    [bulk_update_flag] of the update activity is the outcome of the
    detection on the meaningful updates: it is set exactly when there are at
    least 30 of them and some calendar day holds at least 69.95 percent of
    them, the shares that round to 70.0 or more.  This holds whether or not
    the filter was applied: when the flag is set, that day holds more
    updates than any other, [bulk_update_bucket] is its date, and
    [bulk_filter_applied] is true exactly when at least 10 meaningful
    updates lie outside it.  The filter is never applied without the flag. *)
Theorem bulk_flag_reports_detection (products : list product) (k k' : nat) (r : report) :
  analyze_products fromisoformat clock products k = Ok (r, k') ->
  let ua := cmp_update_activity (comparisons r) in
  let mu := meaningful_updates fromisoformat products in
  uv_bulk_update_flag ua = fst (fst (detect_bulk_update_spike mu "day"))
  /\ (uv_bulk_update_flag ua = true <->
      30 <= len mu /\ exists day, 1399 * len mu <= 2000 * updates_in_day day mu)
  /\ (uv_bulk_update_flag ua = true ->
      exists day,
        dominant_day day mu
        /\ 1399 * len mu <= 2000 * updates_in_day day mu
        /\ uv_bulk_update_bucket ua = Some (strftime_ymd (day * US_PER_DAY))
        /\ (len (outside_day day mu) < 10 -> uv_bulk_filter_applied ua = false)
        /\ (10 <= len (outside_day day mu) -> uv_bulk_filter_applied ua = true))
  /\ (uv_bulk_filter_applied ua = true -> uv_bulk_update_flag ua = true).
Proof.
  intros H ua mu.
  destruct (report_update_activity products k k' r H) as [V _].
  subst ua. rewrite V. clear V.
  pose proof (meaningful_updates_range products) as R. fold mu in R.
  destruct (new_vs_old_and_updates_at fromisoformat (clock k) products) as [o [u|]] eqn:E;
    cbn [snd update_view_of uv_bulk_update_flag uv_bulk_update_bucket uv_bulk_filter_applied].
  - destruct (update_pack_fields _ _ _ _ E) as (Hf & Hb & _ & Ha & _).
    fold mu in Hf, Hb, Ha.
    split; [exact Hf|]. split; [rewrite Hf; now apply detect_flag_days|]. split.
    + intro Hflag. rewrite Hflag in Hf. symmetry in Hf.
      destruct (detect_flagged_day mu R Hf) as (day & Hdom & _ & S & Hday & Horg).
      rewrite Hf, Horg in Ha.
      exists day. split; [exact Hdom|]. split; [exact S|]. split; [congruence|].
      rewrite Ha.
      destruct (Z.leb_spec 10 (len (outside_day day mu))); cbn [snd]; split; intro;
        try reflexivity; lia.
    + rewrite Ha, Hf. unfold organic_updates.
      destruct (fst (fst (detect_bulk_update_spike mu "day"))); [reflexivity|].
      cbn [snd]. discriminate.
  - apply update_pack_none in E. subst products.
    split; [reflexivity|]. split; [|split; discriminate].
    split; [discriminate|]. intros [H30 _]. unfold len in H30. simpl in H30. lia.
Qed.

End AnalyzeFacts.

(** An instance of C5: forty updated products, thirty of them updated on the
    same day. *)
Lemma organic_set_after_bulk_filter_witness :
  new_vs_old_and_updates_at fromisoformat_basic t_2024_03_01 (same_day_30 ++ other_days_10)
  = (fst spike_pack, Some (update_pack_or_empty spike_pack))
  /\ bulk_update_flag (update_pack_or_empty spike_pack) = true
  /\ (let u := update_pack_or_empty spike_pack in
      let mu := meaningful_updates fromisoformat_basic (same_day_30 ++ other_days_10) in
      exists day,
        dominant_day day mu
        /\ bulk_update_bucket u = Some (strftime_ymd (day * US_PER_DAY))
        /\ let candidate := outside_day day mu in
           let organic :=
             fst (organic_updates mu (bulk_update_flag u) (bulk_update_bucket u)) in
           len candidate = len mu - updates_in_day day mu
           /\ (10 <= len candidate ->
               organic = candidate
               /\ organic_update_count u = len candidate
               /\ bulk_filter_applied u = true)
           /\ (len candidate < 10 ->
               organic = mu
               /\ organic_update_count u = len mu
               /\ bulk_filter_applied u = false)
           /\ updated_30 u = count_if (fun d => t_2024_03_01 - days 30 <=? d) organic
           /\ updated_90 u = count_if (fun d => t_2024_03_01 - days 90 <=? d) organic
           /\ updated_180 u = count_if (fun d => t_2024_03_01 - days 180 <=? d) organic
           /\ 10 <= organic_update_count u).
Proof.
  split; [vm_compute; reflexivity|]. split; [vm_compute; reflexivity|].
  apply (organic_set_after_bulk_filter fromisoformat_basic t_2024_03_01
           (same_day_30 ++ other_days_10) (fst spike_pack) (update_pack_or_empty spike_pack));
    vm_compute; reflexivity.
Defined.

(** Forty meaningful updates, thirty of them on one day: the filter is
    applied and ten organic updates remain. *)
Example spike_of_30_in_40 :
  bulk_update_flag (update_pack_or_empty spike_pack) = true
  /\ bulk_update_dominant_pct (update_pack_or_empty spike_pack) = 75%Q
  /\ bulk_filter_applied (update_pack_or_empty spike_pack) = true
  /\ organic_update_count (update_pack_or_empty spike_pack) = 10
  /\ meaningful_update_count (update_pack_or_empty spike_pack) = 40.
Proof. repeat split; vm_compute; reflexivity. Qed.

(** C10, as stated, fails: the report of 203 products, 142 of them updated
    on one day and 61 on the next, has [bulk_update_flag] set although no
    day holds 70 percent of the meaningful updates; the share is rounded to
    one decimal, 70.0, before it is compared. *)
Lemma report_flag_below_70_percent :
  option_map (fun r => (uv_bulk_update_flag (cmp_update_activity (comparisons r)),
                        uv_bulk_update_dominant_pct (cmp_update_activity (comparisons r))))
    (returned (analyze_products fromisoformat_basic clock_march cx_catalog 0%nat))
  = Some (true, 70%Q)
  /\ len (meaningful_updates fromisoformat_basic cx_catalog) = 203
  /\ (forall day, updates_in_day day (meaningful_updates fromisoformat_basic cx_catalog) <= 142)
  /\ 100 * 142 < 70 * 203.
Proof.
  assert (E : meaningful_updates fromisoformat_basic cx_catalog = cx_updates)
    by (vm_compute; reflexivity).
  split; [vm_compute; reflexivity|]. rewrite E.
  split; [reflexivity|]. split; [|lia].
  intro day. unfold updates_in_day, cx_updates.
  rewrite count_if_app, !count_if_repeat.
  change (utc_day (738899 * US_PER_DAY)) with 738899.
  change (utc_day (738900 * US_PER_DAY)) with 738900.
  change (Z.of_nat 142) with 142. change (Z.of_nat 61) with 61.
  destruct (Z.eqb_spec 738899 day) as [<-|].
  - change (738900 =? 738899) with false. lia.
  - destruct (738900 =? day); lia.
Qed.

(** An instance of C10 where the two flags differ: thirty products, all
    updated on the same day. *)
Lemma bulk_flag_reports_detection_witness :
  analyze_products fromisoformat_basic clock_march same_day_30 0%nat = Ok (spike_report, 7%nat)
  /\ (let ua := cmp_update_activity (comparisons spike_report) in
      let mu := meaningful_updates fromisoformat_basic same_day_30 in
      uv_bulk_update_flag ua = fst (fst (detect_bulk_update_spike mu "day"))
      /\ (uv_bulk_update_flag ua = true <->
          30 <= len mu /\ exists day, 1399 * len mu <= 2000 * updates_in_day day mu)
      /\ (uv_bulk_update_flag ua = true ->
          exists day,
            dominant_day day mu
            /\ 1399 * len mu <= 2000 * updates_in_day day mu
            /\ uv_bulk_update_bucket ua = Some (strftime_ymd (day * US_PER_DAY))
            /\ (len (outside_day day mu) < 10 -> uv_bulk_filter_applied ua = false)
            /\ (10 <= len (outside_day day mu) -> uv_bulk_filter_applied ua = true))
      /\ (uv_bulk_filter_applied ua = true -> uv_bulk_update_flag ua = true))
  /\ uv_bulk_update_flag (cmp_update_activity (comparisons spike_report)) = true
  /\ uv_bulk_filter_applied (cmp_update_activity (comparisons spike_report)) = false.
Proof.
  split; [vm_compute; reflexivity|].
  split; [|split; vm_compute; reflexivity].
  apply (bulk_flag_reports_detection fromisoformat_basic clock_march same_day_30 0%nat 7%nat
           spike_report).
  vm_compute; reflexivity.
Defined.

Lemma list_ascii_of_string_append (a b : string) :
  list_ascii_of_string (String.append a b) = (list_ascii_of_string a ++ list_ascii_of_string b)%list.
Proof. induction a as [|c a IH]; simpl; [reflexivity|now rewrite IH]. Qed.

Lemma append_assoc (a b c : string) :
  String.append a (String.append b c) = String.append (String.append a b) c.
Proof. induction a as [|x a IH]; simpl; [reflexivity|now rewrite IH]. Qed.

Lemma rev_chars_append (a b : string) :
  rev_chars (String.append a b) = (rev_chars b ++ rev_chars a)%list.
Proof. unfold rev_chars. now rewrite list_ascii_of_string_append, rev_app_distr. Qed.

Lemma has_suffix_append (k a s : string) : has_suffix k s -> has_suffix k (String.append a s).
Proof. intros [b ->]. exists (String.append a b). apply append_assoc. Qed.

Lemma has_suffix_cons (k s : string) (c : ascii) : has_suffix k s -> has_suffix k (String c s).
Proof. intros [b ->]. exists (String c b). reflexivity. Qed.

Lemma prefix_b_sound (p l : list ascii) : prefix_b p l = true -> exists r, l = (p ++ r)%list.
Proof.
  revert l. induction p as [|c p IH]; intros l H.
  - exists l. reflexivity.
  - destruct l as [|d l]; [discriminate|]. simpl in H.
    apply andb_true_iff in H. destruct H as [Hc Hp]. apply Ascii.eqb_eq in Hc. subst d.
    destruct (IH l Hp) as [r ->]. exists r. reflexivity.
Qed.

Lemma string_of_list_ascii_app (l1 l2 : list ascii) :
  string_of_list_ascii (l1 ++ l2) =
  String.append (string_of_list_ascii l1) (string_of_list_ascii l2).
Proof. induction l1 as [|c l1 IH]; simpl; [reflexivity|now rewrite IH]. Qed.

Lemma has_suffix_closed (k s : string) : has_suffix_b k s = true -> has_suffix k s.
Proof.
  intro H. apply prefix_b_sound in H. destruct H as [r Hr].
  exists (string_of_list_ascii (rev r)).
  assert (Hs : list_ascii_of_string s = (rev r ++ list_ascii_of_string k)%list).
  { rewrite <- (rev_involutive (list_ascii_of_string s)).
    fold (rev_chars s). rewrite Hr, rev_app_distr. unfold rev_chars.
    now rewrite rev_involutive. }
  rewrite <- (string_of_list_ascii_of_string s), Hs, string_of_list_ascii_app.
  now rewrite string_of_list_ascii_of_string.
Qed.

Lemma clash_common_prefix (l1 l2 x y : list ascii) :
  (l1 ++ x = l2 ++ y)%list -> clash l1 l2 = false.
Proof.
  revert l2. induction l1 as [|c l1 IH]; intros [|d l2] H; try reflexivity.
  simpl in H. injection H as -> H. simpl. rewrite Ascii.eqb_refl. eauto.
Qed.

Lemma suffix_clash_distinct (k1 k2 s : string) :
  suffix_clash k1 k2 = true -> has_suffix k1 s -> ~ has_suffix k2 s.
Proof.
  intros Hc [a Ha] [b Hb]. subst s.
  apply (f_equal rev_chars) in Hb. rewrite !rev_chars_append in Hb.
  apply clash_common_prefix in Hb. unfold suffix_clash in Hc. congruence.
Qed.

Lemma cross_clash_disjoint (K1 K2 : list string) (l1 l2 : list string) (s : string) :
  cross_clash K1 K2 = true -> keyed K1 l1 -> keyed K2 l2 -> In s l1 -> ~ In s l2.
Proof.
  intros Hc H1 H2 I1 I2.
  unfold keyed in *. rewrite Forall_forall in H1, H2.
  specialize (H1 s I1). specialize (H2 s I2).
  apply Exists_exists in H1. destruct H1 as (k1 & Hk1 & S1).
  apply Exists_exists in H2. destruct H2 as (k2 & Hk2 & S2).
  unfold cross_clash in Hc. rewrite forallb_forall in Hc.
  specialize (Hc k1 Hk1). rewrite forallb_forall in Hc. specialize (Hc k2 Hk2).
  exact (suffix_clash_distinct k1 k2 s Hc S1 S2).
Qed.

Lemma distinct_keyed_nil (K : list string) : distinct_keyed K [].
Proof. split; constructor. Qed.

Lemma distinct_keyed_one (K : list string) (s : string) :
  Exists (fun k => has_suffix k s) K -> distinct_keyed K [s].
Proof.
  intro H. split; [constructor; [exact H|constructor]|].
  constructor; [intros []|constructor].
Qed.

Lemma distinct_keyed_app (K1 K2 : list string) (l1 l2 : list string) :
  cross_clash K1 K2 = true ->
  distinct_keyed K1 l1 -> distinct_keyed K2 l2 ->
  distinct_keyed (K1 ++ K2) (l1 ++ l2).
Proof.
  intros Hc [H1 N1] [H2 N2]. split.
  - unfold keyed in *. apply Forall_app. split.
    + eapply Forall_impl; [|exact H1]. intros s Hs. apply Exists_app. now left.
    + eapply Forall_impl; [|exact H2]. intros s Hs. apply Exists_app. now right.
  - apply NoDup_app; [exact N1|exact N2|].
    intros s I1 I2. exact (cross_clash_disjoint K1 K2 l1 l2 s Hc H1 H2 I1 I2).
Qed.

(** A string literal, or a concatenation of string literals. *)
Ltac is_literal s :=
  lazymatch s with
  | EmptyString => idtac
  | String _ ?r => is_literal r
  | String.append ?a ?b => is_literal a; is_literal b
  end.

Ltac suffix_tac :=
  lazymatch goal with
  | |- has_suffix _ ?s =>
      first [ is_literal s; apply has_suffix_closed; vm_compute; reflexivity
            | apply has_suffix_append; suffix_tac
            | apply has_suffix_cons; suffix_tac ]
  end.

Ltac keyed_one :=
  apply distinct_keyed_one;
  first [ apply Exists_cons_hd; suffix_tac
        | apply Exists_cons_tl; apply Exists_cons_hd; suffix_tac
        | apply Exists_cons_tl; apply Exists_cons_tl; apply Exists_cons_hd; suffix_tac ].

Lemma generate_launch_insights_distinct (analysis : launch) :
  distinct_keyed K_launch (generate_launch_insights analysis).
Proof.
  unfold generate_launch_insights, K_launch.
  apply distinct_keyed_app; [reflexivity| |apply distinct_keyed_app; [reflexivity| |apply distinct_keyed_app; [reflexivity| |]]].
  - destruct (Qle_bool 10 _); [keyed_one|]. destruct (Qle_bool 3 _); keyed_one.
  - destruct analysis as [| |l]; try apply distinct_keyed_nil. cbn [option_map].
    destruct (accel_30d_vs_90d_pct (acceleration l)); [|apply distinct_keyed_nil].
    destruct (_ && _); [keyed_one|]. destruct (_ && _); [keyed_one|apply distinct_keyed_nil].
  - destruct analysis as [| |l]; try apply distinct_keyed_nil.
    destruct (pp_delta_90d_pct _); [|apply distinct_keyed_nil].
    destruct (pp_new_90d_median _); [|apply distinct_keyed_nil].
    destruct (pp_catalog_median _); [|apply distinct_keyed_nil].
    destruct (_ && _); [keyed_one|apply distinct_keyed_nil].
  - destruct analysis as [| |l]; try apply distinct_keyed_nil.
    destruct (Qle_bool 5 _); [keyed_one|apply distinct_keyed_nil].
Qed.

Lemma distinct_keyed_opt (K : list string) (o : option string) :
  (forall s, o = Some s -> Exists (fun k => has_suffix k s) K) ->
  distinct_keyed K (opt_list o).
Proof.
  destruct o as [s|]; intro H; [|apply distinct_keyed_nil].
  apply distinct_keyed_one. now apply H.
Qed.

Section NotesFacts.
Variable fromisoformat : string -> option (Z * option Z).

Lemma catalog_takeaways_distinct (newest products : list product) :
  distinct_keyed K_catalog (catalog_takeaways newest products).
Proof.
  unfold catalog_takeaways, K_catalog.
  destruct (len products =? 0); [apply distinct_keyed_nil|].
  change ([?a; ?b] ++ ?r)%list with ([a] ++ [b] ++ r)%list.
  repeat (apply distinct_keyed_app; [reflexivity| |]).
  - destruct (Qle_bool 80 _); keyed_one.
  - destruct (Qle_bool 30 _); keyed_one.
  - destruct (price_median products); [|apply distinct_keyed_nil].
    destruct (list_min (prices_pos products)); [|apply distinct_keyed_nil].
    destruct (list_max (prices_pos products)); [|apply distinct_keyed_nil].
    keyed_one.
  - destruct (most_common 1 _) as [|[b c] ?]; [apply distinct_keyed_nil|]. keyed_one.
  - destruct (price_median products); [|apply distinct_keyed_nil].
    destruct (somes _); [apply distinct_keyed_nil|].
    destruct (Qlt_bool _ _); [|destruct (Qlt_bool _ _)]; keyed_one.
  - destruct (avg_variants products); [|apply distinct_keyed_nil].
    destruct (Qle_bool _ _); keyed_one.
Qed.

Lemma coverage_notes_distinct (nvo : new_vs_old_t) (comparative : comparative_t)
    (out_updates : option update_activity) (products : list product) :
  distinct_keyed K_coverage (coverage_notes nvo comparative out_updates products).
Proof.
  unfold coverage_notes, K_coverage.
  repeat (apply distinct_keyed_app; [reflexivity| |]).
  - destruct (len products =? 0); [apply distinct_keyed_nil|].
    change K_pricing_notes with ([hd EmptyString K_pricing_notes] ++ tl K_pricing_notes)%list.
    apply distinct_keyed_app; [reflexivity| |].
    + destruct (0 <? _); [|apply distinct_keyed_nil].
      apply distinct_keyed_one, Exists_cons_hd. suffix_tac.
    + destruct (_ =? 0); [|apply distinct_keyed_nil].
      apply distinct_keyed_one, Exists_cons_hd. suffix_tac.
  - destruct (len products =? 0); [apply distinct_keyed_nil|].
    change K_timestamp_notes with ([hd EmptyString K_timestamp_notes] ++ tl K_timestamp_notes)%list.
    apply distinct_keyed_app; [reflexivity| |].
    + destruct (Qlt_bool 20 _); [|apply distinct_keyed_nil].
      apply distinct_keyed_one, Exists_cons_hd. suffix_tac.
    + destruct (Qlt_bool 20 _); [|apply distinct_keyed_nil].
      apply distinct_keyed_one, Exists_cons_hd. suffix_tac.
  - destruct (_ && _); [|apply distinct_keyed_nil].
    apply distinct_keyed_one, Exists_cons_hd. suffix_tac.
  - destruct out_updates as [u|]; [|apply distinct_keyed_nil].
    destruct (bulk_update_flag u); [|apply distinct_keyed_nil].
    destruct (bulk_filter_applied u); keyed_one.
Qed.

Lemma compute_confidence_notes_distinct (products : list product) :
  distinct_keyed K_provenance (compute_confidence_notes products).
Proof.
  unfold compute_confidence_notes.
  destruct (len products =? 0).
  - apply distinct_keyed_one, Exists_cons_hd. suffix_tac.
  - change K_provenance
      with (["or is not Shopify."] ++ ["or checkout data."] ++ ["% include updated_at."]
              ++ ["include a usable price."] ++ ["compare_at > price)."]
              ++ ["blocking the endpoint."])%list%string.
    match goal with
    | |- distinct_keyed _ [?a; ?b; ?c; ?d; ?e] =>
        change [a; b; c; d; e] with ([] ++ [a] ++ [b] ++ [c] ++ [d] ++ [e])%list
    end.
    repeat (apply distinct_keyed_app; [reflexivity| |]);
      first [apply distinct_keyed_nil | keyed_one].
Qed.

(** The two string lists of an assembled report have no duplicates. *)
Lemma assemble_distinct (products : list product)
    (updates_pack : option new_old * option update_activity)
    (c30 c90 c180 : Z) (newest recent : list product) (cut90 : Z)
    (launch : launch) (utcnow : Z) :
  let r := assemble fromisoformat products updates_pack c30 c90 c180 newest recent
             cut90 launch utcnow in
  NoDup (takeaways r) /\ NoDup (confidence_notes r).
Proof.
  cbv zeta. unfold assemble. cbn [takeaways confidence_notes]. split.
  - apply (distinct_keyed_app K_launch K_catalog); [reflexivity| |].
    + destruct launch; [apply distinct_keyed_nil| |]; apply generate_launch_insights_distinct.
    + apply catalog_takeaways_distinct.
  - apply (distinct_keyed_app K_coverage K_provenance); [reflexivity| |].
    + apply coverage_notes_distinct.
    + apply compute_confidence_notes_distinct.
Qed.

(** C7: in every report that [analyze_products] returns, no takeaway occurs
    twice and no confidence note occurs twice. *)
Theorem report_strings_distinct (clock : nat -> Z) (products : list product)
    (k k' : nat) (r : report) :
  analyze_products fromisoformat clock products k = Ok (r, k') ->
  NoDup (takeaways r) /\ NoDup (confidence_notes r).
Proof.
  intro H.
  destruct (analyze_products_inv _ _ _ _ _ _ H) as (newest & recent & launch & _ & _ & _ & ->).
  apply assemble_distinct.
Qed.

End NotesFacts.

(** An instance of C7: the report of a Record Set of one product. *)
Lemma report_strings_distinct_witness :
  analyze_products fromisoformat_basic clock_march [dated_product] 0%nat
  = Ok (sample_report, 7%nat)
  /\ NoDup (takeaways sample_report) /\ NoDup (confidence_notes sample_report).
Proof.
  split; [vm_compute; reflexivity|].
  apply (report_strings_distinct fromisoformat_basic clock_march [dated_product] 0%nat 7%nat
           sample_report).
  vm_compute; reflexivity.
Defined.

Lemma in_0_100_zero : in_0_100 0.
Proof. split; lra. Qed.

Lemma round_nd_in_0_100 (x : Q) (nd : nat) : in_0_100 x -> in_0_100 (round_nd x nd).
Proof.
  intros [H0 H1]. apply (round_nd_between 0 100 x nd); assumption.
Qed.

Lemma ratio_in_0_100 (n d : Z) : 0 <= n <= d -> 0 < d -> in_0_100 (inject_Z n / inject_Z d * 100).
Proof.
  intros Hn Hd.
  assert (HQ : (0 < inject_Z d)%Q) by (rewrite <- (Zlt_Qlt 0); exact Hd).
  assert (H0 : (0 <= inject_Z n)%Q) by (rewrite <- (Zle_Qle 0); lia).
  assert (H1 : (inject_Z n <= inject_Z d)%Q) by (rewrite <- Zle_Qle; lia).
  assert (Hq0 : (0 <= inject_Z n / inject_Z d)%Q).
  { apply Qle_shift_div_l; [exact HQ|]. lra. }
  assert (Hq1 : (inject_Z n / inject_Z d <= 1)%Q).
  { apply Qle_shift_div_r; [exact HQ|]. lra. }
  split; lra.
Qed.

Lemma pct_in_0_100 (n d : Z) : 0 <= n <= d -> in_0_100 (pct n d).
Proof.
  intro H. unfold pct. destruct (Z.eqb_spec d 0) as [->|NZ]; [apply in_0_100_zero|].
  apply round_nd_in_0_100, ratio_in_0_100; lia.
Qed.

Lemma pct_zero_denominator (n : Z) : pct n 0 = 0%Q.
Proof. reflexivity. Qed.

Lemma len_somes_le {A : Type} (l : list (option A)) : len (somes l) <= len l.
Proof.
  induction l as [|[a|] r IH]; simpl somes.
  - unfold len. simpl. lia.
  - rewrite !len_cons. lia.
  - rewrite len_cons. lia.
Qed.

Lemma len_map {A B : Type} (f : A -> B) (l : list A) : len (map f l) = len l.
Proof. unfold len. now rewrite length_map. Qed.

Lemma len_filter_le {A : Type} (f : A -> bool) (l : list A) : len (filter f l) <= len l.
Proof. unfold len. pose proof (filter_length_le f l). lia. Qed.

Lemma len_somes_map_le {A B : Type} (f : A -> option B) (l : list A) :
  0 <= len (somes (map f l)) <= len l.
Proof.
  pose proof (len_somes_le (map f l)). rewrite len_map in H.
  pose proof (len_nonneg (somes (map f l))). lia.
Qed.

Lemma len_firstn_le {A : Type} (n : nat) (l : list A) : len (firstn n l) <= len l.
Proof. unfold len. rewrite length_firstn. lia. Qed.

Section SortLen.
Context {A : Type} (lt : A -> A -> bool).

Lemma insert_asc_by_length (x : A) (l : list A) :
  List.length (insert_asc_by lt x l) = S (List.length l).
Proof.
  induction l as [|y ys IH]; simpl; [reflexivity|].
  destruct (lt y x); simpl; [now rewrite IH|reflexivity].
Qed.

Lemma sorted_asc_by_length (l : list A) : List.length (sorted_asc_by lt l) = List.length l.
Proof.
  induction l as [|x r IH]; simpl; [reflexivity|].
  now rewrite insert_asc_by_length, IH.
Qed.
End SortLen.

(** Lists of floats all of whose elements satisfy a predicate closed under
    the operations of the statistics. *)
Lemma insert_asc_Forall (P : Q -> Prop) (x : Q) (l : list Q) :
  P x -> Forall P l -> Forall P (insert_asc x l).
Proof.
  intros Hx Hl. induction Hl as [|y ys Hy Hys IH]; simpl.
  - constructor; [exact Hx|constructor].
  - destruct (Qlt_bool y x); constructor; auto.
Qed.

Lemma sorted_asc_Forall (P : Q -> Prop) (l : list Q) : Forall P l -> Forall P (sorted_asc l).
Proof.
  intro H. induction H as [|x r Hx Hr IH]; simpl; [constructor|].
  now apply insert_asc_Forall.
Qed.

Lemma nth_in_0_100 (l : list Q) (i : nat) : Forall in_0_100 l -> in_0_100 (nth i l 0%Q).
Proof.
  intro H. revert i. induction H as [|x r Hx Hr IH]; intros [|i]; simpl; auto using in_0_100_zero.
Qed.

Lemma median_in_0_100 (l : list Q) : Forall in_0_100 l -> in_0_100 (median l).
Proof.
  intro H. unfold median.
  pose proof (sorted_asc_Forall _ _ H) as Hs.
  destruct (Nat.even _).
  - destruct (nth_in_0_100 _ (List.length (sorted_asc l) / 2 - 1) Hs).
    destruct (nth_in_0_100 _ (List.length (sorted_asc l) / 2) Hs).
    split.
    + apply Qle_shift_div_l; lra.
    + apply Qle_shift_div_r; lra.
  - now apply nth_in_0_100.
Qed.

Lemma fold_max_Forall (P : Q -> Prop) (l : list Q) (m : Q) :
  P m -> Forall P l -> P (fold_left (fun m y => if Qlt_bool m y then y else m) l m).
Proof.
  intros Hm Hl. revert m Hm. induction Hl as [|y ys Hy Hys IH]; intros m Hm; simpl; [exact Hm|].
  apply IH. destruct (Qlt_bool m y); assumption.
Qed.

Lemma list_max_Forall (P : Q -> Prop) (l : list Q) (m : Q) :
  Forall P l -> list_max l = Some m -> P m.
Proof.
  intros Hl. destruct Hl as [|x r Hx Hr]; simpl; [discriminate|].
  intro H. injection H as <-. now apply fold_max_Forall.
Qed.

Lemma fsum_fold_bounds (l : list Q) (acc : Q) (n : Z) :
  Forall in_0_100 l -> (0 <= acc)%Q -> (acc <= 100 * inject_Z n)%Q ->
  (0 <= fold_left Qplus l acc)%Q /\ (fold_left Qplus l acc <= 100 * inject_Z (n + len l))%Q.
Proof.
  intro H. revert acc n. induction H as [|x r [Hx0 Hx1] Hr IH]; intros acc n H0 H1.
  - simpl. unfold len. simpl List.length. rewrite Z.add_0_r. split; assumption.
  - simpl fold_left. rewrite len_cons.
    replace (n + (len r + 1)) with ((n + 1) + len r) by lia.
    apply IH; [lra|]. rewrite inject_Z_plus. change (inject_Z 1) with 1%Q. lra.
Qed.

Lemma mean_in_0_100 (l : list Q) :
  l <> [] -> Forall in_0_100 l -> in_0_100 (fsum l / inject_Z (len l)).
Proof.
  intros Hne H.
  assert (Hpos : 0 < len l).
  { destruct l; [congruence|]. rewrite len_cons. pose proof (len_nonneg l). lia. }
  assert (HQ : (0 < inject_Z (len l))%Q) by (rewrite <- (Zlt_Qlt 0); exact Hpos).
  destruct (fsum_fold_bounds l 0 0 H) as [S0 S1]; [lra|change (inject_Z 0) with 0%Q; lra|].
  rewrite Z.add_0_l in S1. fold (fsum l) in S0, S1.
  split.
  - apply Qle_shift_div_l; [exact HQ|]. lra.
  - apply Qle_shift_div_r; [exact HQ|]. lra.
Qed.

Lemma compute_discount_pct_in_0_100 (p c d : Q) :
  (0 <= p)%Q -> compute_discount_pct (Some p) (Some c) = Some d -> in_0_100 d.
Proof.
  intros Hp H.
  apply compute_discount_pct_Some_iff in H.
  destruct H as (p' & c' & Ep & Ec & Hlt & Hc & ->).
  injection Ep as <-. injection Ec as <-.
  apply round_nd_in_0_100.
  assert (Hq0 : (0 <= (c - p) / c)%Q) by (apply Qle_shift_div_l; lra).
  assert (Hq1 : ((c - p) / c <= 1)%Q) by (apply Qle_shift_div_r; lra).
  split; lra.
Qed.

Lemma positive_price_pos (o : option Q) (x : Q) : positive_price o = Some x -> (0 < x)%Q.
Proof.
  destruct o as [y|]; simpl; [|discriminate].
  destruct (Qlt_bool 0 y) eqn:E; [|discriminate].
  intro H. injection H as <-. now apply Qlt_bool_iff.
Qed.

Lemma somes_map_Forall {A B : Type} (P : B -> Prop) (f : A -> option B) (l : list A) :
  (forall a b, f a = Some b -> P b) -> Forall P (somes (map f l)).
Proof.
  intro H. induction l as [|a r IH]; simpl; [constructor|].
  destruct (f a) eqn:E; [constructor; eauto|exact IH].
Qed.

Lemma discounts_of_in_0_100 (products : list product) :
  Forall in_0_100 (discounts_of products).
Proof.
  unfold discounts_of. apply somes_map_Forall. intros p d.
  destruct (positive_price _) as [pr|] eqn:E; [|discriminate].
  apply positive_price_pos in E. unfold safe_float.
  destruct (compare_at_min p) as [c|]; [|destruct pr; discriminate].
  apply compute_discount_pct_in_0_100. lra.
Qed.

Lemma option_eqb_spec (a b : option string) : option_eqb a b = true <-> a = b.
Proof.
  destruct a as [x|], b as [y|]; simpl; try (split; [discriminate|congruence]).
  - rewrite String.eqb_eq. split; congruence.
  - tauto.
Qed.

Lemma firstn_incl {A : Type} (n : nat) (l : list A) (x : A) : In x (firstn n l) -> In x l.
Proof.
  revert l. induction n as [|n IH]; intros [|y l]; simpl; try tauto.
  intros [E|H]; [now left|right; auto].
Qed.

Lemma most_common_In {K : Type} (n : nat) (c : list (K * Z)) (x : K * Z) :
  In x (most_common n c) -> In x c.
Proof.
  unfold most_common. intro H. apply firstn_incl in H.
  exact (proj1 (sorted_desc_In (A := K * Z) snd x c) H).
Qed.

Lemma organic_updates_len (mu : list Z) (b : bool) (t : option string) :
  0 <= len (fst (organic_updates mu b t)) <= len mu.
Proof.
  pose proof (len_nonneg mu).
  unfold organic_updates. destruct b; [|simpl; lia]. destruct t as [tb|]; [|simpl; lia].
  destruct (String.eqb tb EmptyString); [simpl; lia|].
  destruct (10 <=? _) eqn:E; cbn [fst]; [|lia].
  pose proof (len_filter_le (fun d => negb (String.eqb (bucket_day d) tb)) mu).
  pose proof (len_nonneg (filter (fun d => negb (String.eqb (bucket_day d) tb)) mu)). lia.
Qed.

Lemma detect_dominant_pct_in_0_100 (l : list Z) :
  in_0_100 (snd (detect_bulk_update_spike l "day")).
Proof.
  destruct l as [|d r] eqn:E; [apply in_0_100_zero|]. rewrite <- E.
  assert (Hne : l <> []) by (rewrite E; discriminate).
  destruct (detect_bulk_update_spike_day l Hne) as (tb & n & Hd & Hn & H1 & _).
  cbv zeta in Hd. rewrite Hd. cbn [snd].
  apply round_nd_in_0_100.
  pose proof (count_if_le (fun d => String.eqb (bucket_day d) tb) l) as Hc.
  fold (updates_on tb l) in Hc. rewrite <- Hn in Hc.
  assert (HQ : (0 < inject_Z (len l))%Q) by (rewrite <- (Zlt_Qlt 0); lia).
  assert (H0 : (0 <= inject_Z n)%Q) by (rewrite <- (Zle_Qle 0); lia).
  assert (H2 : (inject_Z n <= inject_Z (len l))%Q) by (rewrite <- Zle_Qle; lia).
  split.
  - apply Qle_shift_div_l; [exact HQ|]. lra.
  - apply Qle_shift_div_r; [exact HQ|]. lra.
Qed.

Section ShareFacts.
Variable fromisoformat : string -> option (Z * option Z).

Lemma meaningful_updates_len (products : list product) :
  0 <= len (meaningful_updates fromisoformat products) <= len products.
Proof. apply len_somes_map_le. Qed.

(** Shares and counts of the update pack. *)
Lemma update_pack_shares (now : Z) (products : list product) (o : option new_old)
    (u : update_activity) :
  new_vs_old_and_updates_at fromisoformat now products = (o, Some u) ->
  Forall in_0_100
    [updated_30_pct u; updated_90_pct u; updated_180_pct u;
     updated_30_raw_pct u; updated_90_raw_pct u; updated_180_raw_pct u;
     bulk_update_dominant_pct u]
  /\ 0 <= updated_30 u <= len products
  /\ 0 <= updated_90 u <= len products
  /\ 0 <= updated_180 u <= len products.
Proof.
  unfold new_vs_old_and_updates_at.
  destruct (len products =? 0); [discriminate|].
  pose proof (detect_dominant_pct_in_0_100 (meaningful_updates fromisoformat products)) as Hd.
  pose proof (meaningful_updates_len products) as Hm.
  destruct (detect_bulk_update_spike _ _) as [[is_bulk top_bucket] dominant_pct].
  pose proof (organic_updates_len (meaningful_updates fromisoformat products) is_bulk top_bucket) as Ho.
  destruct (organic_updates _ _ _) as [filtered applied]. cbn [fst snd] in *.
  intro H. injection H as _ <-. cbn.
  assert (Hc : forall c, 0 <= count_if (fun d => c <=? d) filtered <= len products).
  { intro c. pose proof (count_if_le (fun d => c <=? d) filtered). lia. }
  assert (Hr : forall c, 0 <= count_if (fun d => c <=? d)
                               (meaningful_updates fromisoformat products) <= len products).
  { intro c. pose proof (count_if_le (fun d => c <=? d) (meaningful_updates fromisoformat products)). lia. }
  split; [|split; [apply Hc|split; apply Hc]].
  repeat (apply Forall_cons;
          [first [apply pct_in_0_100; first [apply Hc|apply Hr] | exact Hd]|]).
  apply Forall_nil.
Qed.

Lemma new_old_pack_shares (now : Z) (products : list product) (o : new_old)
    (u : option update_activity) :
  new_vs_old_and_updates_at fromisoformat now products = (Some o, u) ->
  Forall in_0_100 [created_30_pct o; created_90_pct o; created_180_pct o].
Proof.
  unfold new_vs_old_and_updates_at.
  destruct (len products =? 0); [discriminate|].
  destruct (detect_bulk_update_spike _ _) as [[is_bulk top_bucket] dominant_pct].
  destruct (organic_updates _ _ _) as [filtered applied].
  intro H. injection H as <- _. cbn.
  repeat (apply Forall_cons;
          [apply pct_in_0_100; split; [apply len_nonneg|apply len_filter_le]|]).
  apply Forall_nil.
Qed.

Lemma launch_timeline_shares (now : Z) (products : list product) :
  Forall in_0_100 (launch_shares (launch_timeline_at fromisoformat now products)).
Proof.
  unfold launch_timeline_at.
  set (dated := somes (map _ products)).
  assert (Hd : len dated <= len products) by apply len_somes_map_le.
  destruct dated as [|d0 dr] eqn:Ed; [constructor|]. rewrite <- Ed in *. clear Ed d0 dr.
  set (dp := sorted_asc_by _ dated).
  assert (Hdp : len dp = len dated) by (unfold len, dp; now rewrite sorted_asc_by_length).
  assert (Hg : forall n, 0 <= len (filter (fun x : product * Z => now - days n <=? snd x) dp)
                         <= len products).
  { intro n. pose proof (len_filter_le (fun x : product * Z => now - days n <=? snd x) dp).
    pose proof (len_nonneg (filter (fun x : product * Z => now - days n <=? snd x) dp)). lia. }
  cbn [launch_shares launch_counts new_vendors_90d_top_3 lc_pct lc_7d lc_30d lc_90d lc_180d lc_1yr].
  apply Forall_app. split.
  - repeat (apply Forall_cons; [apply pct_in_0_100; apply Hg|]). apply Forall_nil.
  - destruct (filter (fun x : product * Z => now - days 90 <=? snd x) dp) as [|g0 gr] eqn:Eg;
      [constructor|]. rewrite <- Eg. clear Eg g0 gr.
    apply Forall_forall. intros q Hq. apply in_map_iff in Hq.
    destruct Hq as (vs & <- & Hvs). apply in_map_iff in Hvs.
    destruct Hvs as ([v c] & <- & Hvc). cbn [vs_pct fst snd].
    apply most_common_In in Hvc.
    apply (Counter_bounds option_eqb option_eqb_spec) in Hvc.
    apply pct_in_0_100.
    pose proof (count_if_le (fun x => option_eqb x v)
                  (map (fun x : product * Z => vendor (fst x))
                     (filter (fun x : product * Z => now - days 90 <=? snd x) dp))) as Hc.
    rewrite len_map in Hc. unfold occ in Hvc. lia.
Qed.

(** The shares of an assembled report. *)
Lemma assemble_shares (products : list product) (now : Z)
    (c30 c90 c180 : Z) (newest recent : list product) (cut90 : Z)
    (launch : launch) (utcnow : Z) :
  0 <= c30 <= len products -> 0 <= c90 <= len products -> 0 <= c180 <= len products ->
  Forall in_0_100 (launch_shares launch) ->
  Forall in_0_100
    (share_fields
       (assemble fromisoformat products
          (new_vs_old_and_updates_at fromisoformat now products)
          c30 c90 c180 newest recent cut90 launch utcnow)).
Proof.
  intros H30 H90 H180 Hl.
  unfold share_fields, assemble.
  cbn [new_vs_old comparisons cmp_update_activity cmp_new_vs_old cmp_discounted_vs_full_price
       catalog discounts launch_timeline in_stock_pct out_of_stock_pct discounted_pct
       avg_discount_pct median_discount_pct max_discount_pct dvf_discounted_pct].
  unfold new_vs_old_of. cbn [created updated d30 d90 d180 cp_pct].
  pose proof (discounts_of_in_0_100 products) as Hds.
  pose proof (len_nonneg products) as Hn.
  assert (Hstock : forall f, 0 <= len (filter f products) <= len products).
  { intro f. pose proof (len_filter_le f products). pose proof (len_nonneg (filter f products)). lia. }
  assert (Hopt : Forall in_0_100
                   (opt_list (match discounts_of products with
                              | [] => None
                              | (_ :: _) as ds => Some (round_nd (fsum ds / inject_Z (len ds)) 2)
                              end)
                    ++ opt_list (match discounts_of products with
                                 | [] => None
                                 | (_ :: _) as ds => Some (round_nd (median ds) 2)
                                 end)
                    ++ opt_list (round_opt (list_max (discounts_of products)))
                    ++ launch_shares launch)).
  { destruct (discounts_of products) as [|x xs] eqn:E; [exact Hl|]. rewrite <- E in *.
    assert (Hne : discounts_of products <> []) by (rewrite E; discriminate).
    cbn [opt_list app]. constructor; [|constructor].
    - apply round_nd_in_0_100, mean_in_0_100; assumption.
    - apply round_nd_in_0_100, median_in_0_100; assumption.
    - destruct (list_max (discounts_of products)) as [m|] eqn:Em; [|exact Hl].
      cbn [round_opt option_map opt_list app]. constructor; [|exact Hl].
      apply round_nd_in_0_100. now apply (list_max_Forall in_0_100 (discounts_of products)). }
  destruct (new_vs_old_and_updates_at fromisoformat now products) as [o u] eqn:E.
  cbn [fst snd].
  assert (Ho : Forall in_0_100
                 [created_30_pct (match o with Some r => r | None => default_new_old end);
                  created_90_pct (match o with Some r => r | None => default_new_old end);
                  created_180_pct (match o with Some r => r | None => default_new_old end)]).
  { destruct o as [o'|]; [exact (new_old_pack_shares _ _ _ _ E)|].
    repeat (apply Forall_cons; [apply in_0_100_zero|]). apply Forall_nil. }
  inversion Ho as [|? ? Ho1 Ho']; subst. inversion Ho' as [|? ? Ho2 Ho'']; subst.
  inversion Ho'' as [|? ? Ho3 _]; subst.
  destruct u as [u'|].
  - destruct (update_pack_shares _ _ _ _ E) as (Hu & U30 & U90 & U180).
    rewrite !Forall_cons_iff in Hu. destruct Hu as (P1 & P2 & P3 & P4 & P5 & P6 & P7 & _).
    cbn [get_updated update_view_of uv_updated_30_pct uv_updated_90_pct uv_updated_30_raw_pct
         uv_updated_90_raw_pct uv_bulk_update_dominant_pct].
    repeat (apply Forall_cons; [first [apply pct_in_0_100; first [assumption|apply Hstock|apply len_somes_map_le] | assumption]|]).
    exact Hopt.
  - cbn [get_updated update_view_of uv_updated_30_pct uv_updated_90_pct uv_updated_30_raw_pct
         uv_updated_90_raw_pct uv_bulk_update_dominant_pct].
    repeat (apply Forall_cons; [first [apply pct_in_0_100; first [assumption|apply Hstock|apply len_somes_map_le|lia] | assumption | apply in_0_100_zero]|]).
    exact Hopt.
Qed.

(** The discount of an entry of a product list. *)
Lemma compact_discount_bounds (p : product) (d : Q) :
  c_discount_pct (compact p) = Some d ->
  (0 <= d)%Q
  /\ (forall x, c_price_min (compact p) = Some x -> (0 <= x)%Q -> (d <= 100)%Q).
Proof.
  unfold compact, safe_float. cbn [c_discount_pct c_price_min]. intro H.
  apply compute_discount_pct_Some_iff in H.
  destruct H as (x & c & Hx & Hc & L1 & L2 & ->).
  destruct (discount_ratio_bounds x c L1 L2) as [P B].
  split; [apply round_nd_nonneg; lra|].
  intros y Hy H0. rewrite Hx in Hy. injection Hy as <-.
  apply (round_nd_between 0 100 _ 2); [change (inject_Z 0) with 0%Q; lra|].
  change (inject_Z 100) with 100%Q. now apply B.
Qed.

(** The signed changes of the launch section are absent when their
    denominator is zero or absent. *)
Lemma launch_signed_changes (now : Z) (products : list product) (f : launch_full) :
  launch_timeline_at fromisoformat now products = LaunchFull f ->
  ((last_90d (velocity f) == 0)%Q -> accel_30d_vs_90d_pct (acceleration f) = None)
  /\ (forall m, pp_catalog_median (price_positioning f) = Some m -> (m == 0)%Q ->
                pp_delta_30d_pct (price_positioning f) = None
                /\ pp_delta_90d_pct (price_positioning f) = None)
  /\ (pp_catalog_median (price_positioning f) = None ->
      pp_delta_30d_pct (price_positioning f) = None
      /\ pp_delta_90d_pct (price_positioning f) = None).
Proof.
  unfold launch_timeline_at. cbv zeta.
  destruct (somes (map _ products)) as [|d0 dr]; [discriminate|].
  intro H. injection H as <-.
  cbn [velocity last_90d acceleration accel_30d_vs_90d_pct price_positioning
       pp_catalog_median pp_delta_30d_pct pp_delta_90d_pct].
  split; [|split].
  - intro E.
    match goal with
    | |- (if Qlt_bool 0 ?v then _ else _) = None =>
        destruct (Qlt_bool 0 v) eqn:L; [apply Qlt_bool_iff in L; lra|reflexivity]
    end.
  - intros m -> E. apply Qeq_bool_iff in E. unfold launch_delta_pct.
    split; match goal with
           | |- match ?o with Some _ => _ | None => _ end = None =>
               destruct o; [now rewrite E|reflexivity]
           end.
  - intros ->. unfold launch_delta_pct.
    split; match goal with
           | |- match ?o with Some _ => _ | None => _ end = None =>
               now destruct o
           end.
Qed.

(** C8, amended: in every report that [analyze_products] returns, the
    in-stock and the out-of-stock counts add up to the total; every share
    percentage ([share_fields]: the fields computed by [pct], the
    dominant-bucket percentage and the discount statistics) lies between 0
    and 100; the discount of an entry of the four product lists is not
    negative and, when the price of the entry is not negative, at most 100;
    [pct] with a zero denominator is 0; and the signed changes of the
    launch section are absent when their denominator is zero: the
    acceleration when the 90-day velocity is 0, the price deltas when the
    catalog median is 0 or absent. *)
Theorem report_counts_and_shares (clock : nat -> Z) (products : list product)
    (k k' : nat) (r : report) :
  analyze_products fromisoformat clock products k = Ok (r, k') ->
  in_stock_count (catalog r) + out_of_stock_count (catalog r) = total_products (catalog r)
  /\ Forall in_0_100 (share_fields r)
  /\ Forall (fun c => forall d,
                 c_discount_pct c = Some d ->
                 (0 <= d)%Q
                 /\ (forall x, c_price_min c = Some x -> (0 <= x)%Q -> (d <= 100)%Q))
       (listed_products r)
  /\ (forall n, pct n 0 = 0%Q)
  /\ (forall f, launch_timeline r = LaunchFull f ->
        ((last_90d (velocity f) == 0)%Q -> accel_30d_vs_90d_pct (acceleration f) = None)
        /\ (forall m, pp_catalog_median (price_positioning f) = Some m -> (m == 0)%Q ->
                      pp_delta_30d_pct (price_positioning f) = None
                      /\ pp_delta_90d_pct (price_positioning f) = None)
        /\ (pp_catalog_median (price_positioning f) = None ->
            pp_delta_30d_pct (price_positioning f) = None
            /\ pp_delta_90d_pct (price_positioning f) = None)).
Proof.
  intro H.
  destruct (analyze_products_inv _ _ _ _ _ _ H) as (newest & recent & launch & _ & _ & Hl & ->).
  split; [|split; [|split; [|split; [reflexivity|]]]].
  - unfold assemble. cbn [catalog in_stock_count out_of_stock_count total_products].
    unfold in_stock, out_stock, len.
    rewrite <- Nat2Z.inj_add. f_equal.
    exact (filter_partition_length available products).
  - assert (Hc : forall c, 0 <= count_if (fun d : option Z => match d with
                                                    | Some t => c <=? t
                                                    | None => false
                                                    end)
                               (map (fun p => parse_dt fromisoformat (created_at p)) products)
                           <= len products).
    { intro c. pose proof (count_if_le (fun d : option Z => match d with
                                                    | Some t => c <=? t
                                                    | None => false
                                                    end)
                               (map (fun p => parse_dt fromisoformat (created_at p)) products)) as Hc.
      rewrite len_map in Hc. exact Hc. }
    apply assemble_shares; try apply Hc.
    destruct Hl as [->| ->]; [constructor|apply launch_timeline_shares].
  - unfold listed_products, assemble. cbn [lists top_expensive top_discounts newest_products
                                           recently_updated].
    rewrite <- !map_app. apply Forall_forall. intros c Hc d Hd.
    apply in_map_iff in Hc. destruct Hc as (p & <- & _).
    now apply compact_discount_bounds.
  - intros f Hf. unfold assemble in Hf. cbn [launch_timeline] in Hf.
    destruct Hl as [->| ->]; [discriminate|].
    exact (launch_signed_changes _ _ _ Hf).
Qed.

End ShareFacts.

(** C8, as stated, fails: a percentage field of the report can exceed 100.
    With a single product, created two days before the run, the launch
    acceleration [30d_vs_90d_pct] is 233.3. *)
Lemma acceleration_pct_exceeds_100 :
  option_map acceleration_pct_of
    (returned (analyze_products fromisoformat_basic clock_march [dated_product] 0%nat))
  = Some (Some (2333 # 10)%Q)
  /\ ~ in_0_100 (2333 # 10).
Proof.
  split; [vm_compute; reflexivity|]. intros [_ H]. revert H. vm_compute. intro H. now apply H.
Qed.

(** An instance of the amended C8: the report of a Record Set of two
    products. *)
Lemma report_counts_and_shares_witness :
  analyze_products fromisoformat_basic clock_march [dated_product; dated_product] 0%nat
  = Ok (report_or_empty
          (analyze_products fromisoformat_basic clock_march [dated_product; dated_product] 0%nat),
        7%nat)
  /\ (let r := report_or_empty
                 (analyze_products fromisoformat_basic clock_march
                    [dated_product; dated_product] 0%nat) in
      in_stock_count (catalog r) + out_of_stock_count (catalog r) = total_products (catalog r)
      /\ Forall in_0_100 (share_fields r)
      /\ Forall (fun c => forall d,
                     c_discount_pct c = Some d ->
                     (0 <= d)%Q
                     /\ (forall x, c_price_min c = Some x -> (0 <= x)%Q -> (d <= 100)%Q))
           (listed_products r)
      /\ (forall n, pct n 0 = 0%Q)
      /\ (forall f, launch_timeline r = LaunchFull f ->
            ((last_90d (velocity f) == 0)%Q -> accel_30d_vs_90d_pct (acceleration f) = None)
            /\ (forall m, pp_catalog_median (price_positioning f) = Some m -> (m == 0)%Q ->
                          pp_delta_30d_pct (price_positioning f) = None
                          /\ pp_delta_90d_pct (price_positioning f) = None)
            /\ (pp_catalog_median (price_positioning f) = None ->
                pp_delta_30d_pct (price_positioning f) = None
                /\ pp_delta_90d_pct (price_positioning f) = None))).
Proof.
  split; [vm_compute; reflexivity|].
  apply (report_counts_and_shares fromisoformat_basic clock_march
           [dated_product; dated_product] 0%nat 7%nat).
  vm_compute; reflexivity.
Defined.

(** C1 (the code fails the claim).  A Record Set with one product whose
    creation date parses and one product without any creation date makes
    [analyze_products] raise: the sort of the newest products compares the
    aware datetime of the first with the naive [datetime.min] that stands
    for the missing date of the second.  Whatever the clock reads, the call
    ends in a [TypeError] and returns no report. *)
Theorem analyze_products_raises_on_mixed_dates (clock : nat -> Z) (k : nat) :
  analyze_products fromisoformat_basic clock [dated_product; undated_product] k
  = Raise (TypeError "can't compare offset-naive and offset-aware datetimes").
Proof.
  unfold analyze_products, compute_new_vs_old_and_updates, count_since, cutoff_days,
    bind, ret, now_utc, lift.
  replace (sorted_desc_dt (newest_dt fromisoformat_basic) [dated_product; undated_product])
    with (@Raise (list product)
            (TypeError "can't compare offset-naive and offset-aware datetimes"))
    by (vm_compute; reflexivity).
  reflexivity.
Qed.

Section ClockFacts.
Variable fromisoformat : string -> option (Z * option Z).

(** [analyze_products] in closed form. *)
Lemma analyze_products_eq (clock : nat -> Z) (products : list product) (k : nat) :
  analyze_products fromisoformat clock products k =
  match sorted_desc_dt (newest_dt fromisoformat) products with
  | Raise e => Raise e
  | Ok newest =>
      match sorted_desc_dt (updated_key fromisoformat) products with
      | Raise e => Raise e
      | Ok recent =>
          let created_dts := map (fun p => parse_dt fromisoformat (created_at p)) products in
          let since (now n : Z) :=
            count_if (fun d => match d with
                               | Some t => now - days n <=? t
                               | None => false
                               end) created_dts in
          let empty := len products =? 0 in
          Ok (assemble fromisoformat products
                (new_vs_old_and_updates_at fromisoformat (clock k) products)
                (since (clock (1 + k)%nat) 30) (since (clock (2 + k)%nat) 90)
                (since (clock (3 + k)%nat) 180)
                (firstn 10 newest) (firstn 10 recent)
                (clock (4 + k)%nat - days 90)
                (if empty then LaunchEmpty
                 else launch_timeline_at fromisoformat (clock (5 + k)%nat) products)
                (clock (if empty then 5 + k else 6 + k)%nat),
              (if empty then 6 + k else 7 + k)%nat)
      end
  end.
Proof.
  unfold analyze_products, compute_new_vs_old_and_updates, count_since, cutoff_days,
    analyze_launch_timeline, bind, ret, now_utc, lift.
  destruct (sorted_desc_dt (newest_dt fromisoformat) products) as [newest|e]; [|reflexivity].
  destruct (sorted_desc_dt (updated_key fromisoformat) products) as [recent|e]; [|reflexivity].
  cbv zeta. destruct (len products =? 0); reflexivity.
Qed.

(** The empty Record Set is analyzed without an exception. *)
Lemma analyze_products_empty (clock : nat -> Z) (k : nat) :
  exists r, analyze_products fromisoformat clock [] k = Ok (r, (6 + k)%nat)
            /\ takeaways r = []
            /\ launch_timeline r = LaunchEmpty
            /\ total_products (catalog r) = 0.
Proof.
  rewrite analyze_products_eq. cbn [sorted_desc_dt]. cbv zeta.
  change (@len product [] =? 0) with true. cbv iota.
  eexists. split; [reflexivity|]. repeat split.
Qed.

(** C2, amended: two runs of [analyze_products] on the same Record Set whose
    clock readings agree, except for the last one, which becomes
    [generated_at], return the same report except for [generated_at]; if
    one raises, so does the other. *)
Theorem report_determined_by_clock_readings (clock1 clock2 : nat -> Z)
    (products : list product) (k : nat) :
  (forall i, (k <= i < k + (if (len products =? 0)%Z then 5 else 6))%nat -> clock1 i = clock2 i) ->
  option_map without_generated_at (returned (analyze_products fromisoformat clock1 products k))
  = option_map without_generated_at (returned (analyze_products fromisoformat clock2 products k)).
Proof.
  intro H. rewrite !analyze_products_eq.
  destruct (sorted_desc_dt (newest_dt fromisoformat) products) as [newest|e]; [|reflexivity].
  destruct (sorted_desc_dt (updated_key fromisoformat) products) as [recent|e]; [|reflexivity].
  cbv zeta.
  destruct (len products =? 0);
    rewrite (H k), (H (1 + k)%nat), (H (2 + k)%nat), (H (3 + k)%nat), (H (4 + k)%nat) by lia;
    [|rewrite (H (5 + k)%nat) by lia]; reflexivity.
Qed.

End ClockFacts.

(** C2, as stated, fails: the same Record Set analysed at two different
    times gives reports that differ outside [generated_at].  A product
    created on 2024-02-28 is in the 30-day creation window of a run on
    2024-03-01 and not in that of a run a hundred days later. *)
Lemma window_counts_depend_on_the_clock :
  option_map (fun r => cp_count (d30 (created (new_vs_old (without_generated_at r)))))
    (returned (analyze_products fromisoformat_basic clock_march [dated_product] 0%nat)) = Some 1
  /\ option_map (fun r => cp_count (d30 (created (new_vs_old (without_generated_at r)))))
       (returned (analyze_products fromisoformat_basic clock_june [dated_product] 0%nat)) = Some 0.
Proof. split; vm_compute; reflexivity. Qed.

(** An instance of the amended C2: two clocks that differ only at the last
    reading, on a Record Set of one product. *)
Lemma report_determined_by_clock_readings_witness :
  (forall i, (0 <= i < 0 + (if (len [dated_product] =? 0)%Z then 5 else 6))%nat ->
             clock_march i = clock_march_late i)
  /\ option_map without_generated_at
       (returned (analyze_products fromisoformat_basic clock_march [dated_product] 0%nat))
     = option_map without_generated_at
         (returned (analyze_products fromisoformat_basic clock_march_late [dated_product] 0%nat)).
Proof.
  assert (H : forall i, (0 <= i < 0 + (if (len [dated_product] =? 0)%Z then 5 else 6))%nat ->
                        clock_march i = clock_march_late i).
  { intros i Hi. unfold clock_march, clock_march_late.
    change (len [dated_product] =? 0) with false in Hi. cbv iota in Hi.
    destruct (Nat.ltb_spec i 6); [reflexivity|lia]. }
  split; [exact H|].
  exact (report_determined_by_clock_readings fromisoformat_basic clock_march clock_march_late
           [dated_product] 0%nat H).
Defined.

(** The two runs of the witness differ in [generated_at] only. *)
Example generated_at_differs :
  option_map generated_at
    (returned (analyze_products fromisoformat_basic clock_march [dated_product] 0%nat))
  = Some "2024-03-01T00:00:00Z"%string
  /\ option_map generated_at
       (returned (analyze_products fromisoformat_basic clock_march_late [dated_product] 0%nat))
     = Some "2024-03-01T00:00:00.000005Z"%string.
Proof. split; vm_compute; reflexivity. Qed.

(** The end-to-end scenario of the specification. *)
Example scenario_100_discounts :
  option_map (fun r => (discounted_count (discounts r), discounted_pct (discounts r),
                        median_discount_pct (discounts r),
                        dvf_full_price_median_price
                          (cmp_discounted_vs_full_price (comparisons r))))
    (returned (analyze_products fromisoformat_basic clock_march scenario_100 0%nat))
  = Some (40, 40%Q, Some 50%Q, Some 50%Q).
Proof. vm_compute. reflexivity. Qed.

(** ** The sorts *)

Section SortOrder.
Context {A : Type} (lt : A -> A -> bool).
Hypothesis lt_asym : forall x y, lt x y = true -> lt y x = false.
Hypothesis ge_trans : forall x y z, lt x y = false -> lt y z = false -> lt x z = false.

Lemma insert_desc_perm (x : A) (l : list A) : Permutation (insert_desc lt x l) (x :: l).
Proof.
  induction l as [|y ys IH]; simpl; [reflexivity|].
  destruct (lt x y); [|reflexivity].
  rewrite IH. apply perm_swap.
Qed.

Lemma sorted_desc_perm (l : list A) : Permutation (sorted_desc lt l) l.
Proof.
  induction l as [|x r IH]; simpl; [reflexivity|].
  rewrite insert_desc_perm. now constructor.
Qed.

Lemma insert_desc_sorted (x : A) (l : list A) :
  StronglySorted (fun a b => lt a b = false) l ->
  StronglySorted (fun a b => lt a b = false) (insert_desc lt x l).
Proof.
  induction 1 as [|y ys Hs IH Hy]; simpl.
  - constructor; constructor.
  - destruct (lt x y) eqn:E.
    + constructor; [exact IH|].
      rewrite Forall_forall. intros z Hz.
      apply (Permutation_in _ (insert_desc_perm x ys)) in Hz.
      destruct Hz as [<-|Hz]; [now apply lt_asym|].
      rewrite Forall_forall in Hy. now apply Hy.
    + constructor; [now constructor|].
      constructor; [exact E|].
      rewrite Forall_forall in *. intros z Hz. eapply ge_trans; [exact E|now apply Hy].
Qed.

Lemma sorted_desc_sorted (l : list A) :
  StronglySorted (fun a b => lt a b = false) (sorted_desc lt l).
Proof.
  induction l as [|x r IH]; simpl; [constructor|]. now apply insert_desc_sorted.
Qed.

Lemma insert_asc_by_perm (x : A) (l : list A) : Permutation (insert_asc_by lt x l) (x :: l).
Proof.
  induction l as [|y ys IH]; simpl; [reflexivity|].
  destruct (lt y x); [|reflexivity].
  rewrite IH. apply perm_swap.
Qed.

Lemma sorted_asc_by_perm (l : list A) : Permutation (sorted_asc_by lt l) l.
Proof.
  induction l as [|x r IH]; simpl; [reflexivity|].
  rewrite insert_asc_by_perm. now constructor.
Qed.

Lemma insert_asc_by_sorted (x : A) (l : list A) :
  StronglySorted (fun a b => lt b a = false) l ->
  StronglySorted (fun a b => lt b a = false) (insert_asc_by lt x l).
Proof.
  induction 1 as [|y ys Hs IH Hy]; simpl.
  - constructor; constructor.
  - destruct (lt y x) eqn:E.
    + constructor; [exact IH|].
      rewrite Forall_forall. intros z Hz.
      apply (Permutation_in _ (insert_asc_by_perm x ys)) in Hz.
      destruct Hz as [<-|Hz]; [now apply lt_asym|].
      rewrite Forall_forall in Hy. now apply Hy.
    + constructor; [now constructor|].
      constructor; [exact E|].
      rewrite Forall_forall in *. intros z Hz.
      eapply ge_trans; [now apply Hy|exact E].
Qed.

Lemma sorted_asc_by_sorted (l : list A) :
  StronglySorted (fun a b => lt b a = false) (sorted_asc_by lt l).
Proof.
  induction l as [|x r IH]; simpl; [constructor|]. now apply insert_asc_by_sorted.
Qed.

End SortOrder.

Lemma StronglySorted_firstn {A : Type} (R : A -> A -> Prop) (n : nat) (l : list A) :
  StronglySorted R l -> StronglySorted R (firstn n l).
Proof.
  intro H. revert n. induction H as [|x l Hs IH Hx]; intros [|n]; simpl; try constructor.
  - apply IH.
  - rewrite Forall_forall in *. intros y Hy. apply Hx. now apply firstn_incl in Hy.
Qed.

Lemma StronglySorted_filter {A : Type} (R : A -> A -> Prop) (f : A -> bool) (l : list A) :
  StronglySorted R l -> StronglySorted R (filter f l).
Proof.
  induction 1 as [|x l Hs IH Hx]; simpl; [constructor|].
  destruct (f x); [|exact IH]. constructor; [exact IH|].
  rewrite Forall_forall in *. intros y Hy. apply Hx. now apply filter_In in Hy.
Qed.

Lemma StronglySorted_map {A B : Type} (R : B -> B -> Prop) (g : A -> B) (l : list A) :
  StronglySorted (fun a b => R (g a) (g b)) l -> StronglySorted R (map g l).
Proof.
  induction 1 as [|x l Hs IH Hx]; simpl; constructor; [exact IH|].
  rewrite Forall_forall in *. intros y Hy. apply in_map_iff in Hy.
  destruct Hy as (a & <- & Ha). now apply Hx.
Qed.

Lemma key_lt_asym (a b : bool * Q) : key_lt a b = true -> key_lt b a = false.
Proof.
  unfold key_lt. destruct a as [[|] x], b as [[|] y]; simpl; try discriminate; auto.
  - rewrite Qlt_bool_iff, Qlt_bool_false_iff. intro H. now apply Qlt_le_weak.
  - rewrite Qlt_bool_iff, Qlt_bool_false_iff. intro H. now apply Qlt_le_weak.
Qed.

Lemma key_ge_trans (a b c : bool * Q) :
  key_lt a b = false -> key_lt b c = false -> key_lt a c = false.
Proof.
  unfold key_lt. destruct a as [[|] x], b as [[|] y], c as [[|] z]; simpl;
    try discriminate; auto;
    rewrite !Qlt_bool_false_iff; intros; eapply Qle_trans; eauto.
Qed.

(** ** The datetime-keyed sorts *)

Section SortDatetimeFacts.
Context {A : Type} (key : A -> datetime).

Lemma insert_desc_dt_same (x : A) (l : list A) :
  Forall (fun y => is_aware (key y) = is_aware (key x)) l ->
  insert_desc_dt key x l = Ok (insert_desc (us_lt key) x l).
Proof.
  induction 1 as [|y ys Hy Hs IH]; simpl; [reflexivity|].
  unfold us_lt at 1. destruct (key x) as [a|a], (key y) as [b|b]; simpl in *; try discriminate;
    destruct (a <? b); try reflexivity; rewrite IH; reflexivity.
Qed.

Lemma insert_desc_dt_mixed (x y : A) (l : list A) :
  is_aware (key y) <> is_aware (key x) ->
  insert_desc_dt key x (y :: l)
  = Raise (TypeError "can't compare offset-naive and offset-aware datetimes").
Proof.
  simpl. destruct (key x), (key y); simpl; congruence.
Qed.

Lemma forallb_Forall_aware (b : bool) (l : list A) :
  forallb (fun x => Bool.eqb (is_aware (key x)) b) l = true
  <-> Forall (fun y => is_aware (key y) = b) l.
Proof.
  rewrite forallb_forall, Forall_forall.
  split; intros H x Hx; specialize (H x Hx); now apply eqb_true_iff.
Qed.

Lemma same_kind_keys_spec (l : list A) :
  same_kind_keys key l = true <-> exists b, Forall (fun y => is_aware (key y) = b) l.
Proof.
  unfold same_kind_keys. rewrite orb_true_iff, !forallb_forall. split.
  - intros [H|H]; [exists true|exists false]; rewrite Forall_forall; intros x Hx;
      specialize (H x Hx); [exact H|now apply negb_true_iff].
  - intros [[|] H]; rewrite Forall_forall in H; [left|right]; intros x Hx;
      specialize (H x Hx); [exact H|now apply negb_true_iff].
Qed.

Lemma sorted_desc_dt_spec (l : list A) :
  if same_kind_keys key l
  then sorted_desc_dt key l = Ok (sorted_desc (us_lt key) l)
  else sorted_desc_dt key l
       = Raise (TypeError "can't compare offset-naive and offset-aware datetimes").
Proof.
  induction l as [|x r IH]; [reflexivity|].
  destruct (same_kind_keys key (x :: r)) eqn:E.
  - apply same_kind_keys_spec in E. destruct E as [b Hb].
    inversion Hb as [|? ? Hx Hr]; subst.
    assert (Er : same_kind_keys key r = true) by (apply same_kind_keys_spec; now exists (is_aware (key x))).
    rewrite Er in IH. simpl. rewrite IH.
    apply insert_desc_dt_same.
    rewrite Forall_forall in *. intros y Hy.
    apply Hr. eapply Permutation_in; [apply sorted_desc_perm|exact Hy].
  - destruct (same_kind_keys key r) eqn:Er.
    + simpl. rewrite IH.
      apply same_kind_keys_spec in Er. destruct Er as [b Hb].
      destruct (Bool.eqb (is_aware (key x)) b) eqn:Ex.
      * apply eqb_prop in Ex. exfalso.
        assert (same_kind_keys key (x :: r) = true); [|congruence].
        apply same_kind_keys_spec. exists b. now constructor.
      * apply eqb_false_iff in Ex.
        destruct (sorted_desc (us_lt key) r) as [|y ys] eqn:Es.
        -- exfalso.
           assert (P := sorted_desc_perm (us_lt key) r). rewrite Es in P.
           apply Permutation_nil in P. subst r.
           unfold same_kind_keys in E. simpl in E.
           destruct (is_aware (key x)); discriminate E.
        -- apply insert_desc_dt_mixed.
           assert (Hy : In y r).
           { eapply Permutation_in; [apply sorted_desc_perm|]. rewrite Es. now left. }
           rewrite Forall_forall in Hb. rewrite (Hb y Hy). congruence.
    + simpl. rewrite IH. reflexivity.
Qed.

End SortDatetimeFacts.

Lemma forallb_ext' {B : Type} (f g : B -> bool) (l : list B) :
  (forall x, f x = g x) -> forallb f l = forallb g l.
Proof.
  intro H. induction l as [|x r IH]; simpl; [reflexivity|]. now rewrite H, IH.
Qed.

Lemma Ok_pair_inj {B : Type} (a r : B) (k1 k2 : nat) :
  Ok (a, k1) = Ok (r, k2) -> r = a.
Proof. intro H. now injection H. Qed.

Section ListsFacts.
Variable fromisoformat : string -> option (Z * option Z).

Lemma newest_dt_aware (p : product) :
  is_aware (newest_dt fromisoformat p) = is_some (created_dt fromisoformat p).
Proof.
  unfold newest_dt, created_dt. now destruct (or_else _ _).
Qed.

Lemma updated_key_aware (p : product) :
  is_aware (updated_key fromisoformat p) = is_some (updated_dt fromisoformat p).
Proof.
  unfold updated_key, updated_dt. now destruct (parse_dt _ _).
Qed.

Lemma same_kind_newest (l : list product) :
  same_kind_keys (newest_dt fromisoformat) l = all_or_none (created_dt fromisoformat) l.
Proof.
  unfold same_kind_keys, all_or_none. f_equal; apply forallb_ext'; intro p;
    now rewrite newest_dt_aware.
Qed.

Lemma same_kind_updated (l : list product) :
  same_kind_keys (updated_key fromisoformat) l = all_or_none (updated_dt fromisoformat) l.
Proof.
  unfold same_kind_keys, all_or_none. f_equal; apply forallb_ext'; intro p;
    now rewrite updated_key_aware.
Qed.

(** X1: [analyze_products] returns a report exactly when the dates are
    uniform: every product has a creation instant ([created_at] or
    [published_at] parses) or none has, and every product has an update
    instant or none has.  It then has taken six clock readings, seven for a
    Record Set that is not empty.  Otherwise it raises the [TypeError] of
    comparing a naive with an aware datetime. *)
Theorem analyze_products_returns_iff_dates_uniform (clock : nat -> Z)
    (products : list product) (k : nat) :
  if all_or_none (created_dt fromisoformat) products
     && all_or_none (updated_dt fromisoformat) products
  then exists r,
         analyze_products fromisoformat clock products k
         = Ok (r, (if len products =? 0 then (6 + k)%nat else (7 + k)%nat))
  else analyze_products fromisoformat clock products k
       = Raise (TypeError "can't compare offset-naive and offset-aware datetimes").
Proof.
  rewrite analyze_products_eq.
  assert (N := sorted_desc_dt_spec (newest_dt fromisoformat) products).
  assert (U := sorted_desc_dt_spec (updated_key fromisoformat) products).
  rewrite same_kind_newest in N. rewrite same_kind_updated in U.
  destruct (all_or_none (created_dt fromisoformat) products); simpl.
  - rewrite N.
    destruct (all_or_none (updated_dt fromisoformat) products); rewrite U; [|reflexivity].
    cbv zeta. destruct (len products =? 0); eexists; reflexivity.
  - rewrite N. reflexivity.
Qed.

Lemma sorted_by_instant (f : product -> option Z) (key : product -> datetime)
    (l : list product) :
  (forall p, us_of (key p) = match f p with Some t => t | None => 0 end) ->
  StronglySorted (fun a b => us_lt key a b = false) l ->
  StronglySorted (not_older f) l.
Proof.
  intros Hk. induction 1 as [|x l Hs IH Hx]; constructor; [exact IH|].
  rewrite Forall_forall in *. intros y Hy ta tb Ea Eb.
  specialize (Hx y Hy). unfold us_lt in Hx. rewrite !Hk, Ea, Eb in Hx. now apply Z.ltb_ge in Hx.
Qed.

Lemma Z_desc_sorted {B : Type} (g : B -> Z) (l : list B) :
  StronglySorted (fun a b => (g a <? g b) = false) (sorted_desc (fun a b => g a <? g b) l).
Proof.
  apply sorted_desc_sorted.
  - intros x y. rewrite Z.ltb_lt, Z.ltb_ge. lia.
  - intros x y z. rewrite !Z.ltb_ge. lia.
Qed.

Lemma len_firstn {B : Type} (n : nat) (l : list B) :
  len (firstn n l) = Z.min (Z.of_nat n) (len l).
Proof.
  unfold len. rewrite length_firstn. lia.
Qed.

(** X2: in every report that [analyze_products] returns, [newest_products]
    holds the first ten of the products in order of decreasing creation
    instant and [recently_updated] the first ten in order of decreasing
    update instant; each list has [min(10, total)] entries. *)
Theorem newest_and_recently_updated_lists (clock : nat -> Z) (products : list product)
    (k k' : nat) (r : report) :
  analyze_products fromisoformat clock products k = Ok (r, k') ->
  (exists ps,
     Permutation ps products
     /\ StronglySorted (not_older (created_dt fromisoformat)) ps
     /\ newest_products (lists r) = map compact (firstn 10 ps))
  /\ (exists ps,
        Permutation ps products
        /\ StronglySorted (not_older (updated_dt fromisoformat)) ps
        /\ recently_updated (lists r) = map compact (firstn 10 ps))
  /\ len (newest_products (lists r)) = Z.min 10 (len products)
  /\ len (recently_updated (lists r)) = Z.min 10 (len products).
Proof.
  rewrite analyze_products_eq.
  assert (N := sorted_desc_dt_spec (newest_dt fromisoformat) products).
  assert (U := sorted_desc_dt_spec (updated_key fromisoformat) products).
  destruct (same_kind_keys (newest_dt fromisoformat) products); rewrite N; [|discriminate].
  destruct (same_kind_keys (updated_key fromisoformat) products); rewrite U; [|discriminate].
  cbv zeta. intro H. apply Ok_pair_inj in H. subst r.
  cbn [lists assemble newest_products recently_updated].
  split; [|split; [|split]].
  - eexists. split; [apply sorted_desc_perm|]. split; [|reflexivity].
    apply sorted_by_instant with (key := newest_dt fromisoformat).
    + intro p. unfold newest_dt, created_dt. now destruct (or_else _ _).
    + apply (Z_desc_sorted (fun p => us_of (newest_dt fromisoformat p))).
  - eexists. split; [apply sorted_desc_perm|]. split; [|reflexivity].
    apply sorted_by_instant with (key := updated_key fromisoformat).
    + intro p. unfold updated_key, updated_dt. now destruct (parse_dt _ _).
    + apply (Z_desc_sorted (fun p => us_of (updated_key fromisoformat p))).
  - unfold len. rewrite length_map, length_firstn.
    rewrite (Permutation_length (sorted_desc_perm _ products)). lia.
  - unfold len. rewrite length_map, length_firstn.
    rewrite (Permutation_length (sorted_desc_perm _ products)). lia.
Qed.

End ListsFacts.

(** ** The grace period *)

Lemma filter_map_ext {A B : Type} (f : A -> bool) (h : A -> B) (a b : A) (l1 l2 : list A) :
  f a = f b -> h a = h b ->
  map h (filter f (l1 ++ a :: l2)) = map h (filter f (l1 ++ b :: l2)).
Proof.
  intros Ef Eh. rewrite !filter_app, !map_app. f_equal.
  cbn [filter]. rewrite Ef. destruct (f b); cbn [map]; now rewrite ?Eh.
Qed.

Section GraceFacts.
Variable fromisoformat : string -> option (Z * option Z).
Variable clock : nat -> Z.

(** The packs of [compute_new_vs_old_and_updates] see a record through its
    creation instant, its price and its meaningful update only. *)
Lemma update_pack_ext (now : Z) (p q : product) (l1 l2 : list product) :
  created_dt fromisoformat p = created_dt fromisoformat q ->
  price_min p = price_min q ->
  meaningful_update_dt fromisoformat p = meaningful_update_dt fromisoformat q ->
  new_vs_old_and_updates_at fromisoformat now (l1 ++ p :: l2)
  = new_vs_old_and_updates_at fromisoformat now (l1 ++ q :: l2).
Proof.
  intros Ec Ep Em.
  assert (L : len (l1 ++ p :: l2) = len (l1 ++ q :: l2)).
  { rewrite !len_app, !len_cons. reflexivity. }
  assert (M : meaningful_updates fromisoformat (l1 ++ p :: l2)
              = meaningful_updates fromisoformat (l1 ++ q :: l2)).
  { unfold meaningful_updates. rewrite !map_app. cbn [map]. now rewrite Em. }
  assert (S : forall c, created_since fromisoformat c p = created_since fromisoformat c q).
  { intro c. unfold created_since. now rewrite Ec. }
  assert (G : forall c,
             map (fun x => safe_float (price_min x))
               (filter (created_since fromisoformat c) (l1 ++ p :: l2))
             = map (fun x => safe_float (price_min x))
                 (filter (created_since fromisoformat c) (l1 ++ q :: l2))).
  { intro c. apply filter_map_ext; [apply S|now rewrite Ep]. }
  assert (N : forall c,
             len (filter (created_since fromisoformat c) (l1 ++ p :: l2))
             = len (filter (created_since fromisoformat c) (l1 ++ q :: l2))).
  { intro c. rewrite <- (len_map (fun x => safe_float (price_min x))), G. apply len_map. }
  assert (P : map (fun x => safe_float (price_min x)) (l1 ++ p :: l2)
              = map (fun x => safe_float (price_min x)) (l1 ++ q :: l2)).
  { rewrite !map_app. cbn [map]. now rewrite Ep. }
  unfold new_vs_old_and_updates_at. cbv zeta.
  rewrite L, M, P, !N, !G. reflexivity.
Qed.

Lemma created_dt_without_update (p : product) :
  created_dt fromisoformat (without_update p) = created_dt fromisoformat p.
Proof. reflexivity. Qed.

Lemma meaningful_update_without_update (p : product) :
  meaningful_update_dt fromisoformat (without_update p) = None.
Proof.
  unfold meaningful_update_dt, updated_dt, without_update. cbn [updated_at].
  reflexivity.
Qed.

(** The list [recently_updated] of a report of at most ten products holds
    every product. *)
Lemma recently_updated_all (products : list product) (k k' : nat) (r : report) (p : product) :
  analyze_products fromisoformat clock products k = Ok (r, k') ->
  len products <= 10 -> In p products ->
  In (compact p) (recently_updated (lists r)).
Proof.
  rewrite analyze_products_eq.
  assert (U := sorted_desc_dt_spec (updated_key fromisoformat) products).
  destruct (sorted_desc_dt (newest_dt fromisoformat) products) as [newest|e]; [|discriminate].
  destruct (same_kind_keys (updated_key fromisoformat) products); rewrite U; [|discriminate].
  cbv zeta. intros H L Hp. apply Ok_pair_inj in H. subst r.
  cbn [lists assemble recently_updated].
  apply in_map. rewrite firstn_all2.
  - eapply Permutation_in; [symmetry; apply sorted_desc_perm|exact Hp].
  - rewrite (Permutation_length (sorted_desc_perm _ products)). unfold len in L. lia.
Qed.

Lemma report_updated_missing (products : list product) (k k' : nat) (r : report) :
  analyze_products fromisoformat clock products k = Ok (r, k') ->
  missing (updated (new_vs_old r))
  = count_if (fun q => negb (is_some (updated_dt fromisoformat q))) products.
Proof.
  intro H.
  destruct (analyze_products_inv _ _ _ _ _ _ H) as (newest & recent & launch & _ & _ & _ & ->).
  reflexivity.
Qed.

(** C6, amended: for a record with an update instant and a creation instant,
    the update is meaningful exactly when the two are more than 21600
    seconds apart, in either direction.  A record within the grace period
    adds nothing to the meaningful updates, and the two packs of
    [compute_new_vs_old_and_updates] are those of the same Record Set with
    the [updated_at] of that record removed; so are the update activity and
    the update windows of a returned report.  The record still has an
    update date for the report: it is not among the records counted in
    [updated.missing], and a report of at most ten products lists it in
    [recently_updated]. *)
Theorem meaningful_update_dt_grace (p : product) (ud cd : Z) :
  updated_dt fromisoformat p = Some ud ->
  created_dt fromisoformat p = Some cd ->
  (meaningful_update_dt fromisoformat p = Some ud <-> 21600 * US_PER_SECOND < Z.abs (ud - cd))
  /\ (meaningful_update_dt fromisoformat p = None <-> Z.abs (ud - cd) <= 21600 * US_PER_SECOND)
  /\ (Z.abs (ud - cd) <= 21600 * US_PER_SECOND ->
      forall now l1 l2,
        meaningful_updates fromisoformat (l1 ++ p :: l2)
        = meaningful_updates fromisoformat (l1 ++ l2)
        /\ new_vs_old_and_updates_at fromisoformat now (l1 ++ p :: l2)
           = new_vs_old_and_updates_at fromisoformat now (l1 ++ without_update p :: l2))
  /\ (forall l1 l2 k k' r,
        analyze_products fromisoformat clock (l1 ++ p :: l2) k = Ok (r, k') ->
        missing (updated (new_vs_old r))
        = count_if (fun q => negb (is_some (updated_dt fromisoformat q))) (l1 ++ l2)
        /\ (len (l1 ++ p :: l2) <= 10 -> In (compact p) (recently_updated (lists r)))
        /\ (Z.abs (ud - cd) <= 21600 * US_PER_SECOND ->
            let pack :=
              new_vs_old_and_updates_at fromisoformat (clock k)
                (l1 ++ without_update p :: l2) in
            cmp_update_activity (comparisons r) = update_view_of (snd pack)
            /\ map cp_count [d30 (updated (new_vs_old r)); d90 (updated (new_vs_old r));
                             d180 (updated (new_vs_old r))]
               = map (fun f => get_updated f (snd pack))
                   [updated_30; updated_90; updated_180])).
Proof.
  intros Hu Hc.
  assert (Hm : meaningful_update_dt fromisoformat p
               = if Z.abs (ud - cd) <=? 21600 * US_PER_SECOND then None else Some ud).
  { unfold meaningful_update_dt. now rewrite Hu, Hc. }
  assert (Hpack : Z.abs (ud - cd) <= 21600 * US_PER_SECOND ->
                  forall now l1 l2,
                    new_vs_old_and_updates_at fromisoformat now (l1 ++ p :: l2)
                    = new_vs_old_and_updates_at fromisoformat now
                        (l1 ++ without_update p :: l2)).
  { intros G now l1 l2. apply update_pack_ext; [reflexivity|reflexivity|].
    rewrite meaningful_update_without_update, Hm.
    destruct (Z.leb_spec (Z.abs (ud - cd)) (21600 * US_PER_SECOND)); [reflexivity|lia]. }
  split; [|split; [|split]].
  - rewrite Hm. destruct (Z.leb_spec (Z.abs (ud - cd)) (21600 * US_PER_SECOND));
      split; try discriminate; try lia; reflexivity.
  - rewrite Hm. destruct (Z.leb_spec (Z.abs (ud - cd)) (21600 * US_PER_SECOND));
      split; try discriminate; try lia; reflexivity.
  - intros G now l1 l2. split; [|now apply Hpack].
    unfold meaningful_updates. rewrite !map_app. cbn [map]. rewrite Hm.
    destruct (Z.leb_spec (Z.abs (ud - cd)) (21600 * US_PER_SECOND)); [|lia].
    induction l1 as [|x l IH]; [reflexivity|].
    cbn [map app somes]. destruct (meaningful_update_dt fromisoformat x); now rewrite IH.
  - intros l1 l2 k k' r H. split; [|split].
    + rewrite (report_updated_missing _ _ _ _ H).
      rewrite !count_if_app, count_if_cons, Hu. cbn. lia.
    + intro L. apply (recently_updated_all _ _ _ _ _ H L).
      apply in_or_app. right. now left.
    + intros G. cbv zeta. rewrite <- (Hpack G).
      exact (report_update_activity fromisoformat clock _ _ _ _ H).
Qed.

End GraceFacts.

(** C6, as stated, fails: an update seven hours before the creation instant
    is not more than six hours after it, and it is a meaningful update. *)
Lemma update_before_creation_is_meaningful :
  created_dt fromisoformat_basic early_update_product
  = Some (738899 * US_PER_DAY + 12 * 3600 * US_PER_SECOND)
  /\ updated_dt fromisoformat_basic early_update_product
     = Some (738899 * US_PER_DAY + 5 * 3600 * US_PER_SECOND)
  /\ meaningful_update_dt fromisoformat_basic early_update_product
     = Some (738899 * US_PER_DAY + 5 * 3600 * US_PER_SECOND)
  /\ 738899 * US_PER_DAY + 5 * 3600 * US_PER_SECOND
     < 738899 * US_PER_DAY + 12 * 3600 * US_PER_SECOND.
Proof. repeat split; vm_compute; reflexivity. Qed.

(** An instance of the amended C6: a product updated one hour after its
    creation. *)
Lemma meaningful_update_dt_grace_witness :
  updated_dt fromisoformat_basic grace_update_product
  = Some (738899 * US_PER_DAY + 13 * 3600 * US_PER_SECOND)
  /\ created_dt fromisoformat_basic grace_update_product
     = Some (738899 * US_PER_DAY + 12 * 3600 * US_PER_SECOND)
  /\ (let p := grace_update_product in
      let ud := 738899 * US_PER_DAY + 13 * 3600 * US_PER_SECOND in
      let cd := 738899 * US_PER_DAY + 12 * 3600 * US_PER_SECOND in
      (meaningful_update_dt fromisoformat_basic p = Some ud
       <-> 21600 * US_PER_SECOND < Z.abs (ud - cd))
      /\ (meaningful_update_dt fromisoformat_basic p = None
          <-> Z.abs (ud - cd) <= 21600 * US_PER_SECOND)
      /\ (Z.abs (ud - cd) <= 21600 * US_PER_SECOND ->
          forall now l1 l2,
            meaningful_updates fromisoformat_basic (l1 ++ p :: l2)
            = meaningful_updates fromisoformat_basic (l1 ++ l2)
            /\ new_vs_old_and_updates_at fromisoformat_basic now (l1 ++ p :: l2)
               = new_vs_old_and_updates_at fromisoformat_basic now
                   (l1 ++ without_update p :: l2))
      /\ (forall l1 l2 k k' r,
            analyze_products fromisoformat_basic clock_march (l1 ++ p :: l2) k = Ok (r, k') ->
            missing (updated (new_vs_old r))
            = count_if (fun q => negb (is_some (updated_dt fromisoformat_basic q))) (l1 ++ l2)
            /\ (len (l1 ++ p :: l2) <= 10 -> In (compact p) (recently_updated (lists r)))
            /\ (Z.abs (ud - cd) <= 21600 * US_PER_SECOND ->
                let pack :=
                  new_vs_old_and_updates_at fromisoformat_basic (clock_march k)
                    (l1 ++ without_update p :: l2) in
                cmp_update_activity (comparisons r) = update_view_of (snd pack)
                /\ map cp_count [d30 (updated (new_vs_old r)); d90 (updated (new_vs_old r));
                                 d180 (updated (new_vs_old r))]
                   = map (fun f => get_updated f (snd pack))
                       [updated_30; updated_90; updated_180])))
  /\ Z.abs (738899 * US_PER_DAY + 13 * 3600 * US_PER_SECOND
            - (738899 * US_PER_DAY + 12 * 3600 * US_PER_SECOND))
     <= 21600 * US_PER_SECOND.
Proof.
  split; [vm_compute; reflexivity|]. split; [vm_compute; reflexivity|].
  split; [|vm_compute; discriminate].
  apply (meaningful_update_dt_grace fromisoformat_basic clock_march grace_update_product);
    vm_compute; reflexivity.
Defined.

(** A product updated one hour after its creation has an update date and
    heads [recently_updated], and the update activity counts no update. *)
Example grace_update_in_report :
  option_map (fun r => (missing (updated (new_vs_old r)),
                        map c_updated_at (recently_updated (lists r)),
                        uv_updated_30_raw (cmp_update_activity (comparisons r)),
                        cp_count (d30 (updated (new_vs_old r)))))
    (returned (analyze_products fromisoformat_basic clock_march [grace_update_product] 0%nat))
  = Some (0, [Some "2024-01-15T13:00:00Z"%string], 0, 0).
Proof. vm_compute. reflexivity. Qed.

Lemma Permutation_filter' {A : Type} (f : A -> bool) (l l' : list A) :
  Permutation l l' -> Permutation (filter f l) (filter f l').
Proof.
  induction 1 as [|x l l' H IH|x y l|l l' l'' H1 IH1 H2 IH2]; simpl.
  - constructor.
  - destruct (f x); [now constructor|exact IH].
  - destruct (f x), (f y); try reflexivity. apply perm_swap.
  - now transitivity (filter f l').
Qed.

Lemma StronglySorted_weaken {A : Type} (R S : A -> A -> Prop) (l : list A) :
  (forall a b, In a l -> In b l -> R a b -> S a b) ->
  StronglySorted R l -> StronglySorted S l.
Proof.
  intros H Hs. induction Hs as [|x l Hs IH Hx]; constructor.
  - apply IH. intros a b Ha Hb. apply H; now right.
  - rewrite Forall_forall in *. intros y Hy. apply H; [now left|now right|now apply Hx].
Qed.

Lemma Qeq_bool_0_cases (x : Q) :
  (Qeq_bool x 0 = true /\ (x == 0)%Q) \/ (Qeq_bool x 0 = false /\ ~ (x == 0)%Q).
Proof.
  destruct (Qeq_bool x 0) eqn:E.
  - left. split; [reflexivity|now apply Qeq_bool_iff].
  - right. split; [reflexivity|]. intro H. apply Qeq_bool_iff in H. congruence.
Qed.

Lemma expensive_key_order (a b : product) :
  key_lt (expensive_key a) (expensive_key b) = false -> dearer_first a b.
Proof.
  unfold key_lt, expensive_key, safe_float, dearer_first, or_minus_one.
  destruct (price_min a) as [x|], (price_min b) as [y|]; simpl; intro H.
  - split; [discriminate|]. intros x' y' Ex Ey Hx Hy.
    injection Ex as <-. injection Ey as <-.
    apply Qlt_bool_false_iff in H.
    destruct (Qeq_bool_0_cases x) as [[E1 E1']|[E1 E1']], (Qeq_bool_0_cases y) as [[E2 E2']|[E2 E2']];
      rewrite E1, E2 in H; lra.
  - split; [discriminate|]. intros; discriminate.
  - discriminate.
  - split; [reflexivity|]. intros; discriminate.
Qed.

Lemma discount_of_nonneg (p : product) (d : Q) : discount_of p = Some d -> (0 <= d)%Q.
Proof.
  unfold discount_of, safe_float. intro H.
  apply compute_discount_pct_Some_iff in H.
  destruct H as (x & c & _ & _ & Hlt & Hc & ->).
  apply round_nd_nonneg.
  apply Qmult_le_0_compat; [|lra].
  apply Qle_shift_div_l; [exact Hc|]. lra.
Qed.

Lemma discount_key_order (a b : product) :
  fst (discount_key a) = true -> fst (discount_key b) = true ->
  key_lt (discount_key a) (discount_key b) = false -> deeper_discount_first a b.
Proof.
  unfold deeper_discount_first. intros Ha Hb H x y Ex Ey.
  pose proof (discount_of_nonneg a x Ex) as Hx.
  pose proof (discount_of_nonneg b y Ey) as Hy.
  unfold discount_of in Ex, Ey.
  unfold key_lt, discount_key in H. rewrite Ex, Ey in H. simpl in H.
  apply Qlt_bool_false_iff in H.
  destruct (Qeq_bool_0_cases x) as [[E1 E1']|[E1 E1']], (Qeq_bool_0_cases y) as [[E2 E2']|[E2 E2']];
    rewrite E1, E2 in H; lra.
Qed.

Section TopLists.
Variable fromisoformat : string -> option (Z * option Z).
Variable clock : nat -> Z.

(** X3: in every report that [analyze_products] returns, [top_expensive]
    holds the first ten of the products in an order where no unpriced
    product precedes a priced one and, of two prices that are not negative,
    the lower never comes first; [top_discounts] holds the first ten of the
    products that have a discount, in order of decreasing discount, and
    every entry of it shows a discount. *)
Theorem top_expensive_and_top_discounts (products : list product) (k k' : nat)
    (r : report) :
  analyze_products fromisoformat clock products k = Ok (r, k') ->
  (exists ps,
     Permutation ps products
     /\ StronglySorted dearer_first ps
     /\ top_expensive (lists r) = map compact (firstn 10 ps))
  /\ (exists ds,
        Permutation ds (filter (fun p => is_some (discount_of p)) products)
        /\ StronglySorted deeper_discount_first ds
        /\ top_discounts (lists r) = map compact (firstn 10 ds))
  /\ Forall (fun c => c_discount_pct c <> None) (top_discounts (lists r)).
Proof.
  intro H. apply analyze_products_inv in H.
  destruct H as (newest & recent & launch & _ & _ & _ & ->).
  cbn [lists assemble top_expensive top_discounts].
  split; [|split].
  - eexists. split; [apply sorted_desc_perm|]. split; [|reflexivity].
    eapply StronglySorted_weaken;
      [|apply (sorted_desc_sorted (fun a b => key_lt (expensive_key a) (expensive_key b)))].
    + intros a b _ _. apply expensive_key_order.
    + intros x y. apply key_lt_asym.
    + intros x y z. apply key_ge_trans.
  - eexists. split; [|split; [|reflexivity]].
    + apply (Permutation_filter' (fun p => fst (discount_key p))). apply sorted_desc_perm.
    + eapply StronglySorted_weaken;
        [|apply StronglySorted_filter;
          apply (sorted_desc_sorted (fun a b => key_lt (discount_key a) (discount_key b)))].
      * intros a b Ha Hb. apply filter_In in Ha, Hb.
        apply discount_key_order; [apply Ha|apply Hb].
      * intros x y. apply key_lt_asym.
      * intros x y z. apply key_ge_trans.
  - rewrite Forall_forall. intros c Hc. apply in_map_iff in Hc.
    destruct Hc as (p & <- & Hp). apply firstn_incl in Hp. apply filter_In in Hp.
    destruct Hp as [_ Hp]. unfold discount_key in Hp. simpl in Hp.
    unfold compact. simpl. now destruct (compute_discount_pct _ _).
Qed.

End TopLists.

(** ** Counters *)

Lemma zsum_fold (xs : list Z) (a : Z) : fold_left Z.add xs a = a + zsum xs.
Proof.
  unfold zsum. revert a. induction xs as [|x r IH]; intro a; simpl; [lia|].
  rewrite IH, (IH x). lia.
Qed.

Lemma zsum_cons (x : Z) (xs : list Z) : zsum (x :: xs) = x + zsum xs.
Proof. unfold zsum. simpl. now rewrite zsum_fold. Qed.

Section CounterTotals.
Context {K : Type} (keq : K -> K -> bool).

Lemma counter_incr_total (k : K) (c : list (K * Z)) :
  zsum (map snd (counter_incr keq k c)) = zsum (map snd c) + 1.
Proof.
  induction c as [|[k' n] r IH]; simpl; [reflexivity|].
  destruct (keq k' k); simpl; rewrite !zsum_cons; [lia|]. rewrite IH. lia.
Qed.

Lemma Counter_fold_total (keys : list K) (c : list (K * Z)) :
  zsum (map snd (fold_left (fun c k => counter_incr keq k c) keys c))
  = zsum (map snd c) + len keys.
Proof.
  revert c. induction keys as [|k r IH]; intro c; simpl.
  - unfold len. simpl. lia.
  - rewrite IH, counter_incr_total, len_cons. lia.
Qed.

Lemma Counter_total (keys : list K) : zsum (map snd (Counter keq keys)) = len keys.
Proof. unfold Counter. now rewrite Counter_fold_total. Qed.

Lemma counter_incr_keys (k : K) (c : list (K * Z)) (x : K) :
  In x (map fst (counter_incr keq k c)) -> x = k \/ In x (map fst c).
Proof.
  induction c as [|[k' n] r IH]; simpl; [intuition auto|].
  destruct (keq k' k); simpl; [tauto|]. intros [H|H]; [tauto|]. apply IH in H. tauto.
Qed.

Lemma Counter_fold_keys (keys : list K) (c : list (K * Z)) (x : K) :
  In x (map fst (fold_left (fun c k => counter_incr keq k c) keys c)) ->
  In x keys \/ In x (map fst c).
Proof.
  revert c. induction keys as [|k r IH]; intro c; simpl; [tauto|].
  intro H. apply IH in H. destruct H as [H|H]; [tauto|].
  apply counter_incr_keys in H. destruct H as [->|H]; tauto.
Qed.

Lemma Counter_keys (keys : list K) (x : K) :
  In x (map fst (Counter keq keys)) -> In x keys.
Proof.
  intro H. apply Counter_fold_keys in H. destruct H as [H|[]]. exact H.
Qed.

End CounterTotals.

Lemma price_bucket_in_order (x : Q) :
  In (price_bucket x)
    ["<$25"; "$25–$49"; "$50–$99"; "$100–$199"; "$200–$299"; "$300–$499"; "$500+"]%string.
Proof.
  unfold price_bucket.
  repeat match goal with |- context [if ?b then _ else _] => destruct b end;
    simpl; tauto.
Qed.

Section Totals.
Variable fromisoformat : string -> option (Z * option Z).
Variable clock : nat -> Z.

(** X4: in every report that [analyze_products] returns, the vendor counts
    add up to [total_products], the number of records; the price-bucket
    counts add up to the number of products with a positive price; every
    count is at least 1, every bucket label is listed in [bucket_order],
    and there are at most as many vendors as products. *)
Theorem vendor_and_bucket_counts_add_up (products : list product) (k k' : nat)
    (r : report) :
  analyze_products fromisoformat clock products k = Ok (r, k') ->
  zsum (map snd (vendors (catalog r))) = total_products (catalog r)
  /\ total_products (catalog r) = len products
  /\ zsum (map snd (pr_buckets (pricing r))) = pr_count (pricing r)
  /\ (forall b n, In (b, n) (pr_buckets (pricing r)) ->
                  1 <= n /\ In b (pr_bucket_order (pricing r)))
  /\ (forall v n, In (v, n) (vendors (catalog r)) -> 1 <= n)
  /\ vendor_count (catalog r) <= total_products (catalog r).
Proof.
  intro H. apply analyze_products_inv in H.
  destruct H as (newest & recent & launch & _ & _ & _ & ->).
  cbn [catalog pricing assemble vendors total_products pr_buckets pr_count pr_bucket_order
       vendor_count].
  split; [|split; [|split; [|split; [|split]]]].
  - unfold vendors_of. now rewrite Counter_total, len_map.
  - reflexivity.
  - unfold bucket_counts. now rewrite Counter_total, len_map.
  - intros b n Hb. split.
    + apply (Counter_bounds String.eqb String.eqb_eq) in Hb. lia.
    + apply (in_map fst) in Hb. simpl in Hb. apply Counter_keys in Hb.
      apply in_map_iff in Hb. destruct Hb as (x & <- & _). apply price_bucket_in_order.
  - intros v n Hv. apply (Counter_bounds String.eqb String.eqb_eq) in Hv. lia.
  - assert (T := Counter_total String.eqb
                   (map (fun p => strip (if truthy_s (vendor p)
                          then match vendor p with Some v => v | None => "Unknown"%string end
                          else "Unknown"%string)) products)).
    rewrite len_map in T. fold (vendors_of products) in T.
    assert (B : forall v n, In (v, n) (vendors_of products) -> 1 <= n).
    { intros v n Hv. apply (Counter_bounds String.eqb String.eqb_eq) in Hv. lia. }
    revert T B. generalize (vendors_of products). intros c T B.
    rewrite <- T. clear T. induction c as [|[v n] c IH]; simpl.
    + unfold len, zsum. simpl. lia.
    + rewrite len_cons, zsum_cons.
      assert (1 <= n) by (apply (B v); now left).
      assert (len c <= zsum (map snd c)) by (apply IH; intros v' n' Hv'; apply (B v'); now right).
      lia.
Qed.

End Totals.

(** ** Time windows *)

Lemma count_if_mono {A : Type} (f g : A -> bool) (l : list A) :
  (forall x, In x l -> f x = true -> g x = true) -> count_if f l <= count_if g l.
Proof.
  induction l as [|x r IH]; intro H; [unfold count_if, len; simpl; lia|].
  rewrite !count_if_cons.
  assert (count_if f r <= count_if g r) by (apply IH; intros y Hy; apply H; now right).
  destruct (f x) eqn:E; [rewrite (H x (or_introl eq_refl) E); lia|].
  destruct (g x); lia.
Qed.

Lemma count_if_filter_le {A : Type} (f g : A -> bool) (l : list A) :
  count_if f (filter g l) <= count_if f l.
Proof.
  induction l as [|x r IH]; simpl; [lia|].
  destruct (g x); rewrite !count_if_cons; [lia|]. destruct (f x); lia.
Qed.

Lemma organic_updates_count (f : Z -> bool) (mu : list Z) (b : bool) (t : option string) :
  count_if f (fst (organic_updates mu b t)) <= count_if f mu.
Proof.
  unfold organic_updates.
  destruct b, t as [tb|]; simpl; try lia.
  destruct (String.eqb tb EmptyString); simpl; [lia|].
  destruct (10 <=? len _); simpl; [apply count_if_filter_le|lia].
Qed.

Lemma days_mono (a b : Z) : a <= b -> days a <= days b.
Proof. unfold days, US_PER_DAY, US_PER_SECOND. lia. Qed.

Lemma window_mono (now a b t : Z) :
  a <= b -> (now - days a <=? t) = true -> (now - days b <=? t) = true.
Proof.
  intros H. rewrite !Z.leb_le. pose proof (days_mono a b H). lia.
Qed.

Section Windows.
Variable fromisoformat : string -> option (Z * option Z).
Variable clock : nat -> Z.

Lemma created_since_mono (now a b : Z) (p : product) :
  a <= b ->
  created_since fromisoformat (now - days a) p = true ->
  created_since fromisoformat (now - days b) p = true.
Proof.
  unfold created_since. destruct (created_dt fromisoformat p); [|discriminate].
  apply window_mono.
Qed.

(** X5: [compute_new_vs_old_and_updates] never raises and reads the clock
    once.  It returns two empty packs exactly for no products; otherwise
    the window counts are nested, 30 days within 90 within 180, for the
    created products, for the organic updates and for the raw updates; an
    organic count never exceeds the raw count of the same window; and the
    organic updates are among the meaningful ones, of which there is at
    most one per product. *)
Theorem update_windows_nested (products : list product) (k : nat) :
  match compute_new_vs_old_and_updates fromisoformat clock products k with
  | Ok (Some o, Some u, k') =>
      products <> [] /\ k' = S k
      /\ 0 <= created_30 o <= created_90 o
      /\ created_90 o <= created_180 o <= len products
      /\ 0 <= updated_30 u <= updated_90 u
      /\ updated_90 u <= updated_180 u <= organic_update_count u
      /\ 0 <= updated_30_raw u <= updated_90_raw u
      /\ updated_90_raw u <= updated_180_raw u <= meaningful_update_count u
      /\ updated_30 u <= updated_30_raw u
      /\ updated_90 u <= updated_90_raw u
      /\ updated_180 u <= updated_180_raw u
      /\ organic_update_count u <= meaningful_update_count u <= len products
  | Ok (None, None, k') => products = [] /\ k' = S k
  | _ => False
  end.
Proof.
  unfold compute_new_vs_old_and_updates, bind, now_utc, ret, new_vs_old_and_updates_at.
  destruct (len products =? 0) eqn:E.
  - split; [|reflexivity]. destruct products; [reflexivity|].
    rewrite len_cons in E. pose proof (len_nonneg products). lia.
  - set (mu := meaningful_updates fromisoformat products).
    destruct (detect_bulk_update_spike mu "day") as [[is_bulk top_bucket] dominant_pct].
    pose proof (organic_updates_len mu is_bulk top_bucket) as L.
    assert (C := fun f => organic_updates_count f mu is_bulk top_bucket).
    destruct (organic_updates mu is_bulk top_bucket) as [filtered applied].
    simpl in L, C. cbn [created_30 created_90 created_180 updated_30 updated_90 updated_180
      updated_30_raw updated_90_raw updated_180_raw organic_update_count
      meaningful_update_count].
    pose proof (meaningful_updates_len fromisoformat products) as M. fold mu in M.
    assert (W : forall a b l, a <= b ->
                count_if (fun d => clock k - days a <=? d) l
                <= count_if (fun d => clock k - days b <=? d) l).
    { intros a b l Hab. apply count_if_mono. intros x _. now apply window_mono. }
    assert (G : forall a b, a <= b ->
                len (filter (created_since fromisoformat (clock k - days a)) products)
                <= len (filter (created_since fromisoformat (clock k - days b)) products)).
    { intros a b Hab. apply (count_if_mono _ _ products). intros x _.
      now apply created_since_mono. }
    pose proof (G 30 90 ltac:(lia)). pose proof (G 90 180 ltac:(lia)).
    pose proof (len_filter_le (created_since fromisoformat (clock k - days 180)) products).
    pose proof (len_nonneg (filter (created_since fromisoformat (clock k - days 30)) products)).
    pose proof (W 30 90 filtered ltac:(lia)). pose proof (W 90 180 filtered ltac:(lia)).
    pose proof (W 30 90 mu ltac:(lia)). pose proof (W 90 180 mu ltac:(lia)).
    pose proof (count_if_le (fun d => clock k - days 180 <=? d) filtered).
    pose proof (count_if_le (fun d => clock k - days 180 <=? d) mu).
    pose proof (count_if_le (fun d => clock k - days 30 <=? d) filtered).
    pose proof (count_if_le (fun d => clock k - days 30 <=? d) mu).
    pose proof (C (fun d => clock k - days 30 <=? d)).
    pose proof (C (fun d => clock k - days 90 <=? d)).
    pose proof (C (fun d => clock k - days 180 <=? d)).
    repeat split; try lia.
    intros ->. discriminate E.
Qed.

(** ** The launch timeline *)

Lemma hd_error_rev_In {B : Type} (l : list B) :
  l <> [] -> exists x, hd_error (rev l) = Some x /\ In x l.
Proof.
  intro H. destruct (rev l) as [|x r] eqn:E.
  - exfalso. apply H. rewrite <- (rev_involutive l), E. reflexivity.
  - exists x. split; [reflexivity|]. apply in_rev. rewrite E. now left.
Qed.

Lemma age_days_mono (now a b : Z) :
  a <= b -> timedelta_days (now - b) <= timedelta_days (now - a).
Proof.
  intro H. unfold timedelta_days. apply Z.div_le_mono; [reflexivity|lia].
Qed.

Lemma somes_map_nil {B C : Type} (f : B -> option C) (l : list B) :
  somes (map f l) = [] -> Forall (fun x => f x = None) l.
Proof.
  induction l as [|x r IH]; simpl; [constructor|].
  destruct (f x) eqn:E; [discriminate|]. intro H. constructor; auto.
Qed.

Lemma somes_map_cons {B C : Type} (f : B -> option C) (l : list B) (y : C) (ys : list C) :
  somes (map f l) = y :: ys -> Exists (fun x => f x <> None) l.
Proof.
  induction l as [|x r IH]; simpl; [discriminate|].
  destruct (f x) eqn:E.
  - intros _. left. congruence.
  - intro H. right. auto.
Qed.

(** X6: [analyze_launch_timeline] never raises.  It returns the empty
    dictionary, without reading the clock, exactly for no products; the
    error marker exactly when there are products and none has a creation
    instant; and otherwise a section whose launch counts are nested from 7
    days up to one year and bounded by the number of products, whose
    monthly counts add up to the one-year count, whose lists of peak
    months and of vendors have at most three entries, and whose oldest
    product is at least as old, in days, as its newest product. *)
Theorem launch_timeline_structure (products : list product) (k : nat) :
  match analyze_launch_timeline fromisoformat clock products k with
  | Ok (LaunchEmpty, k') => products = [] /\ k' = k
  | Ok (LaunchError msg, k') =>
      products <> [] /\ k' = S k
      /\ Forall (fun p => created_dt fromisoformat p = None) products
      /\ msg = "No products have created_at/published_at dates"%string
  | Ok (LaunchFull l, k') =>
      k' = S k
      /\ Exists (fun p => created_dt fromisoformat p <> None) products
      /\ (let c := launch_counts l in
          0 <= lc_count (lc_7d c) <= lc_count (lc_30d c)
          /\ lc_count (lc_30d c) <= lc_count (lc_90d c) <= lc_count (lc_180d c)
          /\ lc_count (lc_180d c) <= lc_count (lc_1yr c) <= len products)
      /\ zsum (map snd (monthly_counts l)) = lc_count (lc_1yr (launch_counts l))
      /\ len (peak_months l) <= 3
      /\ len (new_vendors_90d_top_3 l) <= 3
      /\ exists o n,
           oldest_product l = Some o /\ newest_product l = Some n
           /\ pa_age_days n <= pa_age_days o
  | Raise _ => False
  end.
Proof.
  unfold analyze_launch_timeline, bind, now_utc, ret.
  destruct (len products =? 0) eqn:E.
  - split; [|reflexivity]. destruct products; [reflexivity|].
    rewrite len_cons in E. pose proof (len_nonneg products). lia.
  - assert (NE : products <> []) by (intros ->; discriminate E).
    unfold launch_timeline_at.
    set (f := fun p => match created_dt fromisoformat p with
                       | Some dt => Some (p, dt)
                       | None => None
                       end).
    destruct (somes (map f products)) as [|d0 ds] eqn:D.
    + split; [exact NE|]. split; [reflexivity|]. split; [|reflexivity].
      apply somes_map_nil in D. eapply Forall_impl; [|exact D].
      intros p. unfold f. now destruct (created_dt fromisoformat p).
    + set (dated := sorted_asc_by (fun a b : product * Z => snd a <? snd b) (d0 :: ds)).
      cbn [launch_counts monthly_counts peak_months new_vendors_90d_top_3 oldest_product
           newest_product lc_7d lc_30d lc_90d lc_180d lc_1yr lc_count].
      set (now := clock k).
      assert (W : forall a b, a <= b ->
                len (filter (fun dp : product * Z => now - days a <=? snd dp) dated)
                <= len (filter (fun dp : product * Z => now - days b <=? snd dp) dated)).
      { intros a b Hab. apply (count_if_mono _ _ dated). intros x _. now apply window_mono. }
      split; [reflexivity|]. split.
      { apply somes_map_cons in D. eapply Exists_impl; [|exact D].
        intros p. unfold f. now destruct (created_dt fromisoformat p). }
      split.
      { pose proof (W 7 30 ltac:(lia)). pose proof (W 30 90 ltac:(lia)).
        pose proof (W 90 180 ltac:(lia)). pose proof (W 180 365 ltac:(lia)).
        pose proof (len_nonneg (filter (fun dp : product * Z => now - days 7 <=? snd dp) dated)).
        pose proof (len_filter_le (fun dp : product * Z => now - days 365 <=? snd dp) dated).
        assert (len dated <= len products).
        { unfold dated, len. rewrite sorted_asc_by_length, <- D.
          pose proof (len_somes_map_le f products). unfold len in *. lia. }
        cbv zeta. lia. }
      split; [now rewrite Counter_total, len_map|].
      split.
      { unfold most_common, len. rewrite length_firstn. lia. }
      split.
      { destruct (filter _ dated); [unfold len; simpl; lia|].
        unfold most_common, len. rewrite length_map, length_firstn. lia. }
      assert (S := sorted_asc_by_sorted (fun a b : product * Z => snd a <? snd b)
                     ltac:(intros x y; rewrite Z.ltb_lt, Z.ltb_ge; lia)
                     ltac:(intros x y z; rewrite !Z.ltb_ge; lia) (d0 :: ds)).
      fold dated in S.
      assert (NEd : dated <> []).
      { intro H. apply (f_equal (@List.length _)) in H. unfold dated in H.
        rewrite sorted_asc_by_length in H. discriminate H. }
      destruct (hd_error_rev_In dated NEd) as (n & En & Hn).
      rewrite En. destruct dated as [|o rest]; [congruence|].
      simpl. eexists _, _. split; [reflexivity|]. split; [reflexivity|].
      cbn [pa_age_days]. apply age_days_mono.
      destruct Hn as [<-|Hn]; [lia|].
      inversion S as [|? ? _ Ho]; subst. rewrite Forall_forall in Ho.
      specialize (Ho n Hn). apply Z.ltb_ge in Ho. exact Ho.
Qed.

End Windows.

(** ** Rounding is monotone and idempotent *)

Lemma Qfloor_frac (x : Q) : (0 <= x - inject_Z (Qfloor x))%Q /\ (x - inject_Z (Qfloor x) < 1)%Q.
Proof.
  pose proof (Qfloor_le x). pose proof (Qlt_floor x).
  rewrite inject_Z_plus in H0. change (inject_Z 1) with 1%Q in H0. split; lra.
Qed.

Lemma round_half_even_mono (x y : Q) : (x <= y)%Q -> round_half_even x <= round_half_even y.
Proof.
  intro H.
  assert (F : Qfloor x <= Qfloor y) by now apply Qfloor_resp_le.
  destruct (Z.eq_dec (Qfloor x) (Qfloor y)) as [E|E].
  - unfold round_half_even. cbv zeta. rewrite <- E.
    destruct (Qcompare (x - inject_Z (Qfloor x)) (1 # 2)) eqn:Cx;
      destruct (Qcompare (y - inject_Z (Qfloor x)) (1 # 2)) eqn:Cy;
      try (destruct (Z.even (Qfloor x))); try lia; exfalso;
      try (apply Qeq_alt in Cx); try (rewrite <- Qlt_alt in Cx); try (rewrite <- Qgt_alt in Cx);
      try (apply Qeq_alt in Cy); try (rewrite <- Qlt_alt in Cy); try (rewrite <- Qgt_alt in Cy);
      lra.
  - pose proof (round_half_even_le_succ x). pose proof (round_half_even_floor y). lia.
Qed.

Lemma Qred_le (a b : Q) : (a <= b)%Q -> (Qred a <= Qred b)%Q.
Proof. intro H. now rewrite !Qred_correct. Qed.

Lemma round_nd_mono (x y : Q) (nd : nat) : (x <= y)%Q -> (round_nd x nd <= round_nd y nd)%Q.
Proof.
  intro H. unfold round_nd. apply Qred_le.
  unfold Qle. cbn [Qnum Qden].
  apply Z.mul_le_mono_nonneg_r; [lia|].
  apply round_half_even_mono.
  apply Qmult_le_compat_r; [exact H|]. apply Qlt_le_weak, pow10_pos.
Qed.

Lemma round_nd_idem (x : Q) (nd : nat) : round_nd (round_nd x nd) nd = round_nd x nd.
Proof.
  unfold round_nd at 1 3.
  set (z := round_half_even (x * inject_Z (Z.pos (pow10 nd)))).
  assert (E : round_half_even (round_nd x nd * inject_Z (Z.pos (pow10 nd))) = z).
  { rewrite <- (round_half_even_Z z). apply round_half_even_comp.
    unfold round_nd. fold z. rewrite Qred_correct.
    unfold Qeq. cbn [Qnum Qden Qmult inject_Z]. lia. }
  now rewrite E.
Qed.

Lemma round_opt_idem (o : option Q) : round_opt (round_opt o) = round_opt o.
Proof. destruct o; simpl; [now rewrite round_nd_idem|reflexivity]. Qed.

Lemma median_or_none_rounded (xs : list (option Q)) :
  round_opt (median_or_none xs) = median_or_none xs.
Proof.
  unfold median_or_none. destruct (somes xs); simpl; [reflexivity|].
  now rewrite round_nd_idem.
Qed.

(** ** Order statistics lie between the extremes *)

Lemma fold_min_le (l : list Q) (m : Q) :
  (fold_left (fun m y => if Qlt_bool y m then y else m) l m <= m)%Q
  /\ Forall (fun x => (fold_left (fun m y => if Qlt_bool y m then y else m) l m <= x)%Q) l.
Proof.
  revert m. induction l as [|x r IH]; intro m; simpl; [split; [lra|constructor]|].
  destruct (Qlt_bool x m) eqn:E.
  - apply Qlt_bool_iff in E. destruct (IH x) as [H1 H2].
    split; [lra|]. constructor; assumption.
  - apply Qlt_bool_false_iff in E. destruct (IH m) as [H1 H2].
    split; [lra|]. constructor; [lra|assumption].
Qed.

Lemma fold_max_ge (l : list Q) (m : Q) :
  (m <= fold_left (fun m y => if Qlt_bool m y then y else m) l m)%Q
  /\ Forall (fun x => (x <= fold_left (fun m y => if Qlt_bool m y then y else m) l m)%Q) l.
Proof.
  revert m. induction l as [|x r IH]; intro m; simpl; [split; [lra|constructor]|].
  destruct (Qlt_bool m x) eqn:E.
  - apply Qlt_bool_iff in E. destruct (IH x) as [H1 H2].
    split; [lra|]. constructor; assumption.
  - apply Qlt_bool_false_iff in E. destruct (IH m) as [H1 H2].
    split; [lra|]. constructor; [lra|assumption].
Qed.

Lemma list_min_max_bounds (l : list Q) :
  l <> [] ->
  exists lo hi,
    list_min l = Some lo /\ list_max l = Some hi
    /\ Forall (fun x => (lo <= x)%Q /\ (x <= hi)%Q) l.
Proof.
  destruct l as [|x r]; [congruence|]. intros _. simpl.
  eexists _, _. split; [reflexivity|]. split; [reflexivity|].
  destruct (fold_min_le r x) as [A1 A2]. destruct (fold_max_ge r x) as [B1 B2].
  constructor; [split; assumption|].
  rewrite Forall_forall in *. intros y Hy. split; [now apply A2|now apply B2].
Qed.

Lemma insert_asc_length (x : Q) (l : list Q) :
  List.length (insert_asc x l) = S (List.length l).
Proof.
  induction l as [|y r IH]; simpl; [reflexivity|].
  destruct (Qlt_bool y x); simpl; [now rewrite IH|reflexivity].
Qed.

Lemma sorted_asc_length (l : list Q) : List.length (sorted_asc l) = List.length l.
Proof.
  induction l as [|x r IH]; [reflexivity|].
  change (sorted_asc (x :: r)) with (insert_asc x (sorted_asc r)).
  now rewrite insert_asc_length, IH.
Qed.

Lemma nth_Forall (P : Q -> Prop) (l : list Q) (i : nat) :
  Forall P l -> (i < List.length l)%nat -> P (nth i l 0%Q).
Proof.
  intros H Hi. rewrite Forall_forall in H. apply H. now apply nth_In.
Qed.

Lemma last_Forall (P : Q -> Prop) (l : list Q) : Forall P l -> l <> [] -> P (last l 0%Q).
Proof.
  intros H Hl. rewrite Forall_forall in H. apply H.
  destruct (exists_last Hl) as (l' & a & ->). rewrite last_last. apply in_or_app. right. now left.
Qed.

Lemma median_between (lo hi : Q) (l : list Q) :
  l <> [] -> Forall (fun x => (lo <= x)%Q /\ (x <= hi)%Q) l ->
  (lo <= median l)%Q /\ (median l <= hi)%Q.
Proof.
  intros Hl H. unfold median. cbv zeta.
  apply (sorted_asc_Forall _ l) in H.
  assert (L : (0 < List.length (sorted_asc l))%nat).
  { rewrite sorted_asc_length. destruct l; [congruence|simpl; lia]. }
  set (n := List.length (sorted_asc l)) in *.
  assert (D : (n / 2 < n)%nat) by (apply Nat.div_lt; lia).
  destruct (Nat.even n) eqn:E.
  - assert (D' : (n / 2 - 1 < n)%nat) by lia.
    destruct (nth_Forall _ _ _ H D) as [A1 A2].
    destruct (nth_Forall _ _ _ H D') as [B1 B2].
    split.
    + apply Qle_shift_div_l; lra.
    + apply Qle_shift_div_r; lra.
  - apply (nth_Forall _ _ _ H D).
Qed.

Lemma convex_between (lo hi a b w : Q) :
  (lo <= a)%Q /\ (a <= hi)%Q -> (lo <= b)%Q /\ (b <= hi)%Q -> (0 <= w)%Q -> (w <= 1)%Q ->
  (lo <= a * (1 - w) + b * w)%Q /\ (a * (1 - w) + b * w <= hi)%Q.
Proof.
  intros [A1 A2] [B1 B2] W0 W1.
  assert (P1 : (0 <= (a - lo) * (1 - w))%Q) by (apply Qmult_le_0_compat; lra).
  assert (P2 : (0 <= (b - lo) * w)%Q) by (apply Qmult_le_0_compat; lra).
  assert (P3 : (0 <= (hi - a) * (1 - w))%Q) by (apply Qmult_le_0_compat; lra).
  assert (P4 : (0 <= (hi - b) * w)%Q) by (apply Qmult_le_0_compat; lra).
  split; lra.
Qed.

Lemma quantile_between (lo hi q : Q) (l : list Q) :
  l <> [] -> Forall (fun x => (lo <= x)%Q /\ (x <= hi)%Q) l ->
  exists v, quantile l q = Some v /\ (lo <= v)%Q /\ (v <= hi)%Q.
Proof.
  intros Hl H. unfold quantile. destruct l as [|x0 r0] eqn:El; [congruence|]. rewrite <- El in *.
  cbv zeta.
  apply (sorted_asc_Forall _ l) in H.
  assert (L : (0 < List.length (sorted_asc l))%nat).
  { rewrite sorted_asc_length. rewrite El. simpl. lia. }
  assert (NE : sorted_asc l <> []) by (intro E; rewrite E in L; simpl in L; lia).
  set (xs := sorted_asc l) in *.
  destruct (Qle_bool q 0) eqn:Q0.
  { eexists. split; [reflexivity|]. now apply nth_Forall. }
  destruct (Qle_bool 1 q) eqn:Q1.
  { eexists. split; [reflexivity|]. now apply last_Forall. }
  assert (q0 : (0 < q)%Q).
  { apply Qnot_le_lt. intro C. apply Qle_bool_iff in C. congruence. }
  assert (q1 : (q < 1)%Q).
  { apply Qnot_le_lt. intro C. apply Qle_bool_iff in C. congruence. }
  set (pos := (inject_Z (len xs - 1) * q)%Q).
  assert (N : (0 <= inject_Z (len xs - 1))%Q).
  { change 0%Q with (inject_Z 0). rewrite <- Zle_Qle. unfold len. lia. }
  assert (P0 : (0 <= pos)%Q) by (apply Qmult_le_0_compat; lra).
  assert (P1 : (pos <= inject_Z (len xs - 1))%Q).
  { unfold pos. rewrite <- (Qmult_1_r (inject_Z (len xs - 1))) at 2.
    rewrite !(Qmult_comm (inject_Z (len xs - 1))).
    apply Qmult_le_compat_r; lra. }
  assert (F0 : 0 <= Qfloor pos).
  { exact (Qfloor_resp_le 0 pos P0). }
  assert (C1 : Qceiling pos <= len xs - 1).
  { apply Qceiling_resp_le in P1. now rewrite Qceiling_Z in P1. }
  assert (FC : Qfloor pos <= Qceiling pos).
  { pose proof (Qfloor_le pos). pose proof (Qle_ceiling pos).
    rewrite Zle_Qle. lra. }
  assert (I1 : (Z.to_nat (Qfloor pos) < List.length xs)%nat) by (unfold len in C1; lia).
  assert (I2 : (Z.to_nat (Qceiling pos) < List.length xs)%nat) by (unfold len in C1; lia).
  destruct (Qfloor pos =? Qceiling pos).
  { eexists. split; [reflexivity|]. now apply nth_Forall. }
  eexists. split; [reflexivity|].
  destruct (Qfloor_frac pos).
  apply convex_between; [now apply nth_Forall|now apply nth_Forall|lra|lra].
Qed.

Lemma prices_pos_positive (products : list product) :
  Forall (fun x => (0 < x)%Q) (prices_pos products).
Proof.
  unfold prices_pos, prices_all. rewrite map_map.
  apply somes_map_Forall. intros a b. apply positive_price_pos.
Qed.

(** ** Scores *)

Lemma score_weighted_range (parts : list (option Q * Q)) : 0 <= score_weighted parts <= 100.
Proof.
  unfold score_weighted. cbv zeta.
  destruct (usable_parts parts); [lia|].
  destruct (Qle_bool _ 0); [lia|].
  apply round_half_even_between; apply clamp_bounds.
Qed.

Lemma score_label_cases (s : Z) :
  (score_label s = "High"%string <-> 75 <= s)
  /\ (score_label s = "Medium"%string <-> 45 <= s < 75)
  /\ (score_label s = "Low"%string <-> s < 45).
Proof.
  unfold score_label.
  destruct (Z.leb_spec 75 s); [|destruct (Z.leb_spec 45 s)];
    repeat split; intros; try lia; try discriminate; try reflexivity.
Qed.

Section ReportFacts.
Variable fromisoformat : string -> option (Z * option Z).
Variable clock : nat -> Z.

(** X7: in every report that [analyze_products] returns, the three
    positioning scores are integers from 0 to 100, labelled High from 75,
    Medium from 45 to 74 and Low below 45; the market position is the
    dash exactly when no product has a positive price. *)
Theorem positioning_scores_and_labels (products : list product) (k k' : nat) (r : report) :
  analyze_products fromisoformat clock products k = Ok (r, k') ->
  Forall (fun s => 0 <= score s <= 100
                   /\ (label s = "High"%string <-> 75 <= score s)
                   /\ (label s = "Medium"%string <-> 45 <= score s < 75)
                   /\ (label s = "Low"%string <-> score s < 45))
    [promo_intensity (positioning r); launch_velocity (positioning r);
     catalog_complexity (positioning r)]
  /\ (market_position_label (positioning r) = "—"%string <-> pr_count (pricing r) = 0).
Proof.
  intro H. apply analyze_products_inv in H.
  destruct H as (newest & recent & launch & _ & _ & _ & ->).
  cbn [positioning assemble pricing pr_count]. unfold positioning_of.
  cbn [promo_intensity launch_velocity catalog_complexity market_position_label].
  split.
  - repeat (apply Forall_cons; [unfold scored; cbn [score label];
                                split; [apply score_weighted_range|apply score_label_cases]|]).
    apply Forall_nil.
  - unfold market_position_of, price_median.
    destruct (prices_pos products) as [|x xs].
    + split; reflexivity.
    + split; [|rewrite len_cons; pose proof (len_nonneg xs); lia].
      destruct (Qlt_bool _ 40); [discriminate|].
      destruct (Qlt_bool _ 120); discriminate.
Qed.

(** X8: in every report that [analyze_products] returns, [pricing.count] is
    the number of products with a positive price.  With none, minimum,
    quartiles, median and maximum are all absent; otherwise all are
    present, the minimum is not negative, and the 25th percentile, the
    median and the 75th percentile lie between the minimum and the
    maximum. *)
Theorem pricing_statistics_between_extremes (products : list product) (k k' : nat)
    (r : report) :
  analyze_products fromisoformat clock products k = Ok (r, k') ->
  let p := pricing r in
  pr_count p = count_if (fun x => match price_min x with
                                  | Some v => Qlt_bool 0 v
                                  | None => false
                                  end) products
  /\ (pr_count p = 0 ->
      pr_min p = None /\ pr_p25 p = None /\ pr_median p = None /\ pr_p75 p = None
      /\ pr_max p = None)
  /\ (0 < pr_count p ->
      between_opt (Some 0%Q) (pr_min p) (pr_max p)
      /\ between_opt (pr_min p) (pr_p25 p) (pr_max p)
      /\ between_opt (pr_min p) (pr_median p) (pr_max p)
      /\ between_opt (pr_min p) (pr_p75 p) (pr_max p)).
Proof.
  intro H. apply analyze_products_inv in H.
  destruct H as (newest & recent & launch & _ & _ & _ & ->).
  cbn [pricing assemble pr_count pr_min pr_max pr_median pr_p25 pr_p75]. cbv zeta.
  split; [|split].
  - unfold prices_pos, prices_all, count_if, safe_float. rewrite map_map.
    induction products as [|x xs IH]; [reflexivity|]. simpl.
    destruct (price_min x) as [v|]; simpl; [|exact IH].
    destruct (Qlt_bool 0 v); [|exact IH]. rewrite !len_cons. now rewrite IH.
  - intro Z0. unfold price_median.
    destruct (prices_pos products) as [|x xs]; [repeat split|].
    rewrite len_cons in Z0. pose proof (len_nonneg xs). lia.
  - intro Z0.
    assert (NE : prices_pos products <> []).
    { intro E. rewrite E in Z0. unfold len in Z0. simpl in Z0. lia. }
    destruct (list_min_max_bounds _ NE) as (lo & hi & Elo & Ehi & B).
    rewrite Elo, Ehi.
    destruct (quantile_between lo hi (25 # 100) _ NE B) as (q1 & E1 & L1 & H1).
    destruct (quantile_between lo hi (75 # 100) _ NE B) as (q3 & E3 & L3 & H3).
    destruct (median_between lo hi _ NE B) as [Lm Hm].
    rewrite E1, E3. unfold price_median.
    pose proof (prices_pos_positive products) as Pos.
    destruct (prices_pos products) as [|x xs] eqn:Ep; [congruence|].
    unfold between_opt. cbn [round_opt option_map].
    assert (lo <= hi)%Q by lra.
    assert (0 < lo)%Q.
    { assert (In lo (x :: xs)).
      { revert Elo. clear. simpl. intro E. injection E as <-.
        generalize x. induction xs as [|y ys IH]; intro m; simpl; [now left|].
        destruct (Qlt_bool y m); [right|]; specialize (IH y) as IH1.
        - destruct IH1 as [<-|I]; [now left|now right].
        - destruct (IH m) as [<-|I]; [now left|right; now right]. }
      rewrite Forall_forall in Pos. now apply Pos. }
    repeat split; try (apply round_nd_mono; assumption).
    apply round_nd_nonneg. lra.
Qed.

Lemma discount_needs_price (p : product) :
  is_some (discount_of p) = true -> is_some (price_min p) = true.
Proof.
  unfold discount_of, compute_discount_pct, safe_float. now destruct (price_min p).
Qed.

Lemma discounted_prices_eq (products : list product) :
  discounted_prices products
  = somes (map (fun p => if is_some (discount_of p) then safe_float (price_min p) else None)
             products).
Proof.
  unfold discounted_prices. f_equal. apply map_ext. intro p.
  unfold discount_of, safe_float, compute_discount_pct. now destruct (price_min p).
Qed.

Lemma full_prices_eq (products : list product) :
  full_prices products
  = somes (map (fun p => if is_some (discount_of p) then None else safe_float (price_min p))
             products).
Proof.
  unfold full_prices. f_equal. apply map_ext. intro p.
  unfold discount_of, safe_float, compute_discount_pct. now destruct (price_min p).
Qed.

Lemma len_somes_map {B C : Type} (f : B -> option C) (l : list B) :
  len (somes (map f l)) = count_if (fun x => is_some (f x)) l.
Proof.
  induction l as [|x r IH]; [reflexivity|].
  rewrite count_if_cons. cbn [map somes].
  destruct (f x); cbn [is_some]; [rewrite len_cons|]; lia.
Qed.

Lemma count_if_ext {B : Type} (f g : B -> bool) (l : list B) :
  (forall x, f x = g x) -> count_if f l = count_if g l.
Proof.
  intro H. unfold count_if. f_equal. now apply filter_ext.
Qed.

Lemma len_discounted_prices (products : list product) :
  len (discounted_prices products) = count_if (fun p => is_some (discount_of p)) products.
Proof.
  rewrite discounted_prices_eq, len_somes_map. apply count_if_ext. intro p.
  destruct (is_some (discount_of p)) eqn:E; [|reflexivity].
  now apply discount_needs_price.
Qed.

Lemma len_discounts_of_le (products : list product) :
  len (discounts_of products) <= count_if (fun p => is_some (discount_of p)) products.
Proof.
  unfold discounts_of. rewrite len_somes_map. apply count_if_mono. intros p _.
  unfold discount_of, safe_float, positive_price.
  destruct (price_min p) as [x|]; [|discriminate].
  now destruct (Qlt_bool 0 x).
Qed.

(** X9: the section [comparisons.discounted_vs_full_price] of a returned
    report is what [compute_discounted_vs_full_price] computes for the
    same products (the second rounding of the medians changes nothing); for
    no products the function returns the empty dictionary.  The discounts
    section, which leaves out products without a positive price, counts at
    most as many discounted products as the comparison does. *)
Theorem discounted_vs_full_price_agrees (products : list product) (k k' : nat) (r : report) :
  analyze_products fromisoformat clock products k = Ok (r, k') ->
  (products <> [] ->
   compute_discounted_vs_full_price products
   = Some (cmp_discounted_vs_full_price (comparisons r)))
  /\ (products = [] -> compute_discounted_vs_full_price products = None)
  /\ discounted_count (discounts r)
     <= dvf_discounted_count (cmp_discounted_vs_full_price (comparisons r))
     <= total_products (catalog r).
Proof.
  intro H. apply analyze_products_inv in H.
  destruct H as (newest & recent & launch & _ & _ & _ & ->).
  cbn [comparisons assemble cmp_discounted_vs_full_price discounts discounted_count catalog
       total_products dvf_discounted_count].
  split; [|split].
  - intro NE. unfold compute_discounted_vs_full_price.
    destruct (len products =? 0) eqn:E.
    { destruct products; [congruence|]. rewrite len_cons in E.
      pose proof (len_nonneg products). lia. }
    cbv zeta. unfold comparative_of. cbn [median_price_discounted median_price_full].
    rewrite !median_or_none_rounded, len_discounted_prices.
    rewrite discounted_prices_eq, full_prices_eq. reflexivity.
  - intros ->. reflexivity.
  - rewrite len_discounted_prices. split; [apply len_discounts_of_le|apply count_if_le].
Qed.

End ReportFacts.

(** ** Strings *)

Lemma append_nil_r (s : string) : String.append s EmptyString = s.
Proof. induction s as [|c s IH]; simpl; [reflexivity|now rewrite IH]. Qed.

Lemma append_eq_nil (a b : string) : String.append a b = EmptyString -> a = EmptyString /\ b = EmptyString.
Proof. destruct a; simpl; [auto|discriminate]. Qed.

Lemma prefix_split (p s : string) :
  String.prefix p s = true -> exists rest, s = String.append p rest.
Proof.
  revert s. induction p as [|c p IH]; intros s H.
  - now exists s.
  - destruct s as [|d s]; [discriminate|]. simpl in H.
    destruct (ascii_dec c d) as [->|]; [|discriminate].
    destruct (IH s H) as [rest ->]. now exists rest.
Qed.

Lemma prefix_append (p rest : string) : String.prefix p (String.append p rest) = true.
Proof.
  induction p as [|c p IH]; simpl; [now destruct rest|].
  destruct (ascii_dec c c); [exact IH|congruence].
Qed.

Lemma prefix_trans_append (p q rest : string) :
  String.prefix p q = true -> String.prefix p (String.append q rest) = true.
Proof.
  intro H. apply prefix_split in H. destruct H as [x ->].
  rewrite <- append_assoc. apply prefix_append.
Qed.

Lemma rstrip_char_no_trailing (c : ascii) (s t : string) :
  rstrip_char c s <> String.append t (String c EmptyString).
Proof.
  revert t. induction s as [|a r IH]; intro t; simpl.
  - intro H. symmetry in H. apply append_eq_nil in H. destruct H; discriminate.
  - destruct (rstrip_char c r) as [|b y] eqn:E.
    + destruct (Ascii.eqb a c) eqn:Ea.
      * intro H. symmetry in H. apply append_eq_nil in H. destruct H; discriminate.
      * destruct t as [|x t]; simpl; intro H.
        -- injection H as ->. rewrite Ascii.eqb_refl in Ea. discriminate.
        -- injection H as _ H. symmetry in H. apply append_eq_nil in H.
           destruct H; discriminate.
    + destruct t as [|x t]; simpl; intro H.
      * discriminate.
      * injection H as _ H. exact (IH t H).
Qed.

Lemma rstrip_char_idem (c : ascii) (s : string) :
  rstrip_char c (rstrip_char c s) = rstrip_char c s.
Proof.
  induction s as [|a r IH]; simpl; [reflexivity|].
  destruct (rstrip_char c r) as [|b y] eqn:E.
  - destruct (Ascii.eqb a c) eqn:Ea; simpl; [reflexivity|now rewrite Ea].
  - change (rstrip_char c (String a (String b y)))
      with (match rstrip_char c (String b y) with
            | EmptyString => if Ascii.eqb a c then EmptyString else String a EmptyString
            | r' => String a r'
            end).
    now rewrite IH.
Qed.

Lemma rstrip_char_append (c : ascii) (a b : string) :
  rstrip_char c (String.append a b)
  = match rstrip_char c b with
    | EmptyString => rstrip_char c a
    | b' => String.append a b'
    end.
Proof.
  induction a as [|x a IH]; simpl.
  - now destruct (rstrip_char c b).
  - rewrite IH. destruct (rstrip_char c b) as [|y b']; [reflexivity|].
    now destruct a.
Qed.

Lemma lstrip_nonspace (c : ascii) (s : string) :
  is_space c = false -> lstrip (String c s) = String c s.
Proof. intro H. simpl. now rewrite H. Qed.

(** ** [normalize_store_url] *)

Lemma scheme_after_rstrip (scheme w : string) :
  String.prefix scheme w = true ->
  rstrip_char "/" w = rstrip_char "/" scheme
  \/ String.prefix scheme (rstrip_char "/" w) = true.
Proof.
  intro H. apply prefix_split in H. destruct H as [rest ->].
  rewrite rstrip_char_append.
  destruct (rstrip_char "/" rest); [now left|right; apply prefix_append].
Qed.


Lemma isascii_append (a b : string) :
  isascii (String.append a b) = isascii a && isascii b.
Proof.
  induction a as [|c a IH]; [reflexivity|]. cbn [String.append isascii].
  now rewrite IH, andb_assoc.
Qed.

Lemma isascii_lstrip (s : string) : isascii s = true -> isascii (lstrip s) = true.
Proof.
  induction s as [|c s IH]; [reflexivity|]. cbn [lstrip]. intro H.
  destruct (is_space c); [|exact H].
  cbn [isascii] in H. apply andb_true_iff in H. now apply IH.
Qed.

Lemma isascii_rstrip (s : string) : isascii s = true -> isascii (rstrip s) = true.
Proof.
  induction s as [|c s IH]; [reflexivity|]. cbn [rstrip isascii]. intro H.
  apply andb_true_iff in H. destruct H as [Hc Hs]. specialize (IH Hs).
  destruct (rstrip s) as [|d r].
  - destruct (is_space c); [reflexivity|]. cbn [isascii]. now rewrite Hc.
  - cbn [isascii] in *. now rewrite Hc, IH.
Qed.

Lemma isascii_rstrip_char (c : ascii) (s : string) :
  isascii s = true -> isascii (rstrip_char c s) = true.
Proof.
  induction s as [|a s IH]; [reflexivity|]. cbn [rstrip_char isascii]. intro H.
  apply andb_true_iff in H. destruct H as [Ha Hs]. specialize (IH Hs).
  destruct (rstrip_char c s) as [|d r].
  - destruct (Ascii.eqb a c); [reflexivity|]. cbn [isascii]. now rewrite Ha.
  - cbn [isascii] in *. now rewrite Ha, IH.
Qed.

(** X10: for a URL of ASCII characters, [normalize_store_url] of [main.py]
    raises exactly when the stripped input starts with [http] but with
    neither [http://] nor [https://], and then the [ValueError] "Invalid URL
    scheme."; otherwise it returns the stripped input, with [https://] put
    in front unless it starts with [http], and without its trailing
    slashes.  The result does not end with a slash, starts with [http:] or
    [https:], is ASCII again, and normalising it again changes nothing,
    provided it has no trailing white space and is more than a bare
    scheme. *)
Theorem normalize_store_url_outcome (url : string) :
  isascii url = true ->
  let s := strip url in
  (normalize_store_url url = Failed (ValueError "Invalid URL scheme.")
   <-> String.prefix "http" s = true
       /\ String.prefix "http://" s = false /\ String.prefix "https://" s = false)
  /\ (forall e, normalize_store_url url = Failed e -> e = ValueError "Invalid URL scheme.")
  /\ (forall r,
        normalize_store_url url = Done r
        <-> (String.prefix "http" s = false
             \/ String.prefix "http://" s = true \/ String.prefix "https://" s = true)
            /\ r = rstrip_char "/"
                     (if String.prefix "http" s then s else String.append "https://" s))
  /\ (forall r,
        normalize_store_url url = Done r ->
        (forall t, r <> String.append t "/")
        /\ (String.prefix "http:" r = true \/ String.prefix "https:" r = true)
        /\ isascii r = true
        /\ (rstrip r = r -> r <> "http:"%string -> r <> "https:"%string ->
            normalize_store_url r = Done r)).
Proof.
  intros A s.
  assert (As : isascii s = true) by (apply isascii_rstrip, isascii_lstrip, A).
  set (w := if String.prefix "http" s then s else String.append "https://" s).
  set (ok := negb (String.prefix "http" s)
             || String.prefix "http://" s || String.prefix "https://" s).
  assert (W : String.prefix "http://" w || String.prefix "https://" w = ok).
  { unfold w, ok. destruct (String.prefix "http" s) eqn:P; [reflexivity|].
    now rewrite (prefix_append "https://" s), orb_true_r. }
  assert (N : normalize_store_url url
              = if ok then Done (rstrip_char "/" w)
                else Failed (ValueError "Invalid URL scheme.")).
  { unfold normalize_store_url. cbv zeta. fold s. fold w. now rewrite W. }
  assert (Aw : isascii w = true).
  { unfold w. destruct (String.prefix "http" s); [exact As|].
    rewrite isascii_append. now rewrite As. }
  rewrite N. fold w. clear N.
  split; [|split; [|split]].
  - unfold ok.
    destruct (String.prefix "http" s), (String.prefix "http://" s),
      (String.prefix "https://" s); cbn [negb orb];
      split; try discriminate; try tauto; intros (? & ? & ?); discriminate.
  - intros e H. destruct ok; [discriminate|]. now injection H as <-.
  - intro r. unfold ok, w. clear.
    destruct (String.prefix "http" s), (String.prefix "http://" s),
      (String.prefix "https://" s); cbn [negb orb];
      (split;
       [intro H; first [discriminate H|injection H as <-; split; [tauto|reflexivity]]
       |intros [H ->]; first [reflexivity|destruct H as [H|[H|H]]; discriminate H]]).
  - intros r H. destruct ok eqn:E; [|discriminate]. injection H as <-.
    assert (S : (rstrip_char "/" w = "http:"%string \/ rstrip_char "/" w = "https:"%string)
                \/ (String.prefix "http://" (rstrip_char "/" w) = true
                    \/ String.prefix "https://" (rstrip_char "/" w) = true)).
    { apply orb_true_iff in W. destruct W as [W|W]; apply scheme_after_rstrip in W;
        destruct W as [W|W]; auto. }
    split; [intro t; apply rstrip_char_no_trailing|]. split; [|split].
    + destruct S as [[->| ->]|[S|S]]; auto.
      * left. apply prefix_split in S. destruct S as [x ->]. reflexivity.
      * right. apply prefix_split in S. destruct S as [x ->]. reflexivity.
    + now apply isascii_rstrip_char.
    + intros Hs N1 N2.
      destruct S as [[S|S]|S]; [congruence|congruence|].
      set (r := rstrip_char "/" w) in *.
      assert (Hr : strip r = r).
      { unfold strip. destruct S as [S|S]; apply prefix_split in S; destruct S as [x Hx];
          rewrite Hx in *; simpl lstrip; exact Hs. }
      unfold normalize_store_url. cbv zeta. rewrite Hr.
      assert (Pr : String.prefix "http" r = true).
      { destruct S as [S|S]; apply prefix_split in S; destruct S as [x ->]; reflexivity. }
      rewrite Pr.
      assert (Q : String.prefix "http://" r || String.prefix "https://" r = true).
      { apply orb_true_iff. tauto. }
      rewrite Q. unfold r. now rewrite rstrip_char_idem.
Qed.

(** An instance of X10: a host name with white space around it and a
    trailing slash. *)
Lemma normalize_store_url_outcome_witness :
  isascii " shop.example/ " = true
  /\ (let url := " shop.example/ "%string in
      let s := strip url in
      (normalize_store_url url = Failed (ValueError "Invalid URL scheme.")
       <-> String.prefix "http" s = true
           /\ String.prefix "http://" s = false /\ String.prefix "https://" s = false)
      /\ (forall e, normalize_store_url url = Failed e -> e = ValueError "Invalid URL scheme.")
      /\ (forall r,
            normalize_store_url url = Done r
            <-> (String.prefix "http" s = false
                 \/ String.prefix "http://" s = true \/ String.prefix "https://" s = true)
                /\ r = rstrip_char "/"
                         (if String.prefix "http" s then s else String.append "https://" s))
      /\ (forall r,
            normalize_store_url url = Done r ->
            (forall t, r <> String.append t "/")
            /\ (String.prefix "http:" r = true \/ String.prefix "https:" r = true)
            /\ isascii r = true
            /\ (rstrip r = r -> r <> "http:"%string -> r <> "https:"%string ->
                normalize_store_url r = Done r)))
  /\ normalize_store_url " shop.example/ " = Done "https://shop.example"%string.
Proof.
  split; [reflexivity|]. split; [|reflexivity].
  apply (normalize_store_url_outcome " shop.example/ "). reflexivity.
Defined.

(** ** [parse_dt] *)

Lemma rstrip_append_nonspace (s : string) (c : ascii) :
  is_space c = false ->
  rstrip (String.append s (String c EmptyString)) = String.append s (String c EmptyString).
Proof.
  intro H. induction s as [|a s IH]; simpl.
  - now rewrite H.
  - rewrite IH. now destruct (String.append s (String c EmptyString)) eqn:E;
      [apply append_eq_nil in E; destruct E; discriminate|].
Qed.

Lemma lstrip_append_nonspace (s t : string) (c : ascii) :
  is_space c = false ->
  lstrip (String.append s (String c t)) = String.append (lstrip s) (String c t).
Proof.
  intro H. induction s as [|a s IH]; simpl.
  - now rewrite H.
  - destruct (is_space a); [exact IH|reflexivity].
Qed.

Lemma replace_final_Z_cons (a : ascii) (r : string) :
  r <> EmptyString -> replace_final_Z (String a r) = String a (replace_final_Z r).
Proof. destruct r; [congruence|reflexivity]. Qed.

Lemma append_cons_nonempty (s t : string) (c : ascii) :
  String.append s (String c t) <> EmptyString.
Proof. intro E. apply append_eq_nil in E. destruct E; discriminate. Qed.

Lemma replace_final_Z_Z (s : string) :
  replace_final_Z (String.append s "Z") = String.append s "+00:00".
Proof.
  induction s as [|a s IH]; [reflexivity|].
  simpl String.append.
  rewrite replace_final_Z_cons by apply append_cons_nonempty. now rewrite IH.
Qed.

Lemma replace_final_Z_other (s : string) (c : ascii) :
  Ascii.eqb c "Z" = false ->
  replace_final_Z (String.append s (String c EmptyString)) = String.append s (String c EmptyString).
Proof.
  intro H. induction s as [|a s IH]; [simpl; now rewrite H|].
  simpl String.append.
  rewrite replace_final_Z_cons by apply append_cons_nonempty. now rewrite IH.
Qed.

Section ParseFacts.
Variable fromisoformat : string -> option (Z * option Z).

(** X11: [parse_dt] reads a final [Z] as the offset [+00:00]: the two
    spellings of a timestamp give the same result.  Whatever it returns
    lies within the range of [datetime], and [None] gives [None]. *)
Theorem parse_dt_trailing_Z (s : string) :
  parse_dt fromisoformat (Some (String.append s "Z"))
  = parse_dt fromisoformat (Some (String.append s "+00:00"))
  /\ (forall t, parse_dt fromisoformat (Some s) = Some t ->
                0 <= t <= MAX_US /\ s <> EmptyString)
  /\ parse_dt fromisoformat None = None.
Proof.
  split; [|split; [|reflexivity]].
  - unfold parse_dt.
    destruct (String.eqb (String.append s "Z") EmptyString) eqn:E1.
    { apply String.eqb_eq, append_eq_nil in E1. destruct E1; discriminate. }
    destruct (String.eqb (String.append s "+00:00") EmptyString) eqn:E2.
    { apply String.eqb_eq, append_eq_nil in E2. destruct E2; discriminate. }
    assert (A : replace_final_Z (strip (String.append s "Z"))
                = String.append (lstrip s) "+00:00").
    { unfold strip. rewrite lstrip_append_nonspace by reflexivity.
      rewrite rstrip_append_nonspace by reflexivity. apply replace_final_Z_Z. }
    assert (B : replace_final_Z (strip (String.append s "+00:00"))
                = String.append (lstrip s) "+00:00").
    { unfold strip. rewrite lstrip_append_nonspace by reflexivity.
      change "+00:00"%string with (String.append "+00:0" "0").
      rewrite append_assoc.
      rewrite rstrip_append_nonspace by reflexivity.
      now rewrite replace_final_Z_other by reflexivity. }
    now rewrite A, B.
  - intros t. unfold parse_dt.
    destruct (String.eqb s EmptyString) eqn:E; [discriminate|].
    destruct (fromisoformat _) as [[wall off]|]; [|discriminate].
    destruct (_ && _) eqn:R; [|discriminate].
    intro H. injection H as <-.
    apply andb_true_iff in R. destruct R as [R1 R2].
    apply Z.leb_le in R1, R2. split; [lia|].
    intros ->. discriminate E.
Qed.

End ParseFacts.

(** ** [min] and [max] over optional floats *)

Lemma min_from_somes (m : Q) (xs : list Q) :
  min_from (Some m) (map Some xs)
  = Ok (Some (fold_left (fun m y => if Qlt_bool y m then y else m) xs m)).
Proof.
  revert m. induction xs as [|x r IH]; intro m; simpl; [reflexivity|]. apply IH.
Qed.

Lemma max_from_somes (m : Q) (xs : list Q) :
  max_from (Some m) (map Some xs)
  = Ok (Some (fold_left (fun m y => if Qlt_bool m y then y else m) xs m)).
Proof.
  revert m. induction xs as [|x r IH]; intro m; simpl; [reflexivity|]. apply IH.
Qed.

Lemma all_somes (xs : list (option Q)) : forallb is_some xs = true -> xs = map Some (somes xs).
Proof.
  induction xs as [|[x|] r IH]; simpl; intro H; [reflexivity| |discriminate].
  now rewrite <- IH.
Qed.

Lemma min_from_none (cur : option Q) (xs : list (option Q)) :
  xs <> [] -> forallb is_some (cur :: xs) = false ->
  exists msg, min_from cur xs = Raise (TypeError msg).
Proof.
  revert cur. induction xs as [|x r IH]; intros cur NE H; [congruence|].
  simpl. destruct x as [x|], cur as [m|]; try (eexists; reflexivity).
  destruct r as [|y r'].
  - simpl in H. discriminate.
  - apply IH; [discriminate|]. simpl in *. exact H.
Qed.

Lemma max_from_none (cur : option Q) (xs : list (option Q)) :
  xs <> [] -> forallb is_some (cur :: xs) = false ->
  exists msg, max_from cur xs = Raise (TypeError msg).
Proof.
  revert cur. induction xs as [|x r IH]; intros cur NE H; [congruence|].
  simpl. destruct x as [x|], cur as [m|]; try (eexists; reflexivity).
  destruct r as [|y r'].
  - simpl in H. discriminate.
  - apply IH; [discriminate|]. simpl in *. exact H.
Qed.

Lemma min_or_none_spec (xs : list (option Q)) :
  if comparable xs
  then min_or_none xs = Ok (match xs with
                            | [None] => None
                            | _ => list_min (somes xs)
                            end)
  else exists msg, min_or_none xs = Raise (TypeError msg).
Proof.
  unfold comparable. destruct xs as [|x r]; [reflexivity|].
  destruct r as [|y r'].
  - simpl. now destruct x.
  - cbn [List.length Nat.leb orb].
    destruct (forallb is_some (x :: y :: r')) eqn:E.
    + pose proof (all_somes _ E) as A.
      destruct x as [x|]; [|discriminate]. destruct y as [y|]; [|discriminate].
      cbn [somes map] in A. injection A as A.
      pose proof (min_from_somes x (y :: somes r')) as M.
      cbn [map] in M. rewrite <- A in M. exact M.
    + apply min_from_none; [discriminate|exact E].
Qed.

Lemma max_or_none_spec (xs : list (option Q)) :
  if comparable xs
  then max_or_none xs = Ok (match xs with
                            | [None] => None
                            | _ => list_max (somes xs)
                            end)
  else exists msg, max_or_none xs = Raise (TypeError msg).
Proof.
  unfold comparable. destruct xs as [|x r]; [reflexivity|].
  destruct r as [|y r'].
  - simpl. now destruct x.
  - cbn [List.length Nat.leb orb].
    destruct (forallb is_some (x :: y :: r')) eqn:E.
    + pose proof (all_somes _ E) as A.
      destruct x as [x|]; [|discriminate]. destruct y as [y|]; [|discriminate].
      cbn [somes map] in A. injection A as A.
      pose proof (max_from_somes x (y :: somes r')) as M.
      cbn [map] in M. rewrite <- A in M. exact M.
    + apply max_from_none; [discriminate|exact E].
Qed.

Section NormalizeFacts.
Variable float_of_string : string -> option Q.

(** X12: [normalize_product] raises a [TypeError] whenever the builtins [min]
    and [max] cannot compare the collected prices: when, among the prices
    of the variants whose price is not null, or among the compare-at prices
    of the variants whose compare-at price is truthy, there are two values
    or more and [float] rejects one of them.  So whenever it returns, both
    lists were comparable.  In particular it raises when the first two
    variants have a price and [float] rejects one of the two. *)
Theorem normalize_product_raises_unless_comparable (p : raw_product) (base_url : string) :
  let prices := variant_prices float_of_string (r_variants p) in
  let compare := variant_compare_prices float_of_string (r_variants p) in
  (comparable prices && comparable compare = false ->
   exists msg, normalize_product float_of_string p base_url = Raise (TypeError msg))
  /\ (forall n, normalize_product float_of_string p base_url = Ok n ->
                comparable prices = true /\ comparable compare = true)
  /\ (forall v w rest,
        r_variants p = v :: w :: rest ->
        v_price v <> JNull -> v_price w <> JNull ->
        to_float float_of_string (v_price v) = None
        \/ to_float float_of_string (v_price w) = None ->
        exists msg, normalize_product float_of_string p base_url = Raise (TypeError msg)).
Proof.
  cbv zeta.
  assert (R : comparable (variant_prices float_of_string (r_variants p))
              && comparable (variant_compare_prices float_of_string (r_variants p)) = false ->
              exists msg, normalize_product float_of_string p base_url = Raise (TypeError msg)).
  { unfold normalize_product. cbv zeta.
    pose proof (min_or_none_spec (variant_prices float_of_string (r_variants p))) as A1.
    pose proof (max_or_none_spec (variant_prices float_of_string (r_variants p))) as A2.
    pose proof (min_or_none_spec (variant_compare_prices float_of_string (r_variants p))) as B1.
    destruct (comparable (variant_prices float_of_string (r_variants p))).
    - rewrite A1, A2.
      destruct (comparable (variant_compare_prices float_of_string (r_variants p)));
        [discriminate|].
      intros _. destruct B1 as [msg ->]. now exists msg.
    - intros _. destruct A1 as [msg ->]. now exists msg. }
  split; [exact R|]. split.
  - intros n H.
    destruct (comparable (variant_prices float_of_string (r_variants p))
              && comparable (variant_compare_prices float_of_string (r_variants p))) eqn:C.
    + now apply andb_true_iff in C.
    + destruct (R eq_refl) as [msg E]. congruence.
  - intros v w rest E Hv Hw Hn. apply R. apply andb_false_iff. left.
    assert (Nv : negb (is_null (v_price v)) = true) by (now destruct (v_price v)).
    assert (Nw : negb (is_null (v_price w)) = true) by (now destruct (v_price w)).
    unfold variant_prices. rewrite E. cbn [filter]. rewrite Nv, Nw. cbn [map].
    unfold comparable. cbn [List.length Nat.leb orb forallb].
    destruct Hn as [-> | ->]; cbn [is_some andb]; [reflexivity|apply andb_false_r].
Qed.

Lemma normalize_product_inv (p : raw_product) (base_url : string) (n : normalized) :
  normalize_product float_of_string p base_url = Ok n ->
  let prices := variant_prices float_of_string (r_variants p) in
  let compare := variant_compare_prices float_of_string (r_variants p) in
  price_min (n_product n) = match prices with [None] => None | _ => list_min (somes prices) end
  /\ n_price_max n = match prices with [None] => None | _ => list_max (somes prices) end
  /\ compare_at_min (n_product n)
     = match compare with [None] => None | _ => list_min (somes compare) end
  /\ n_compare_at_max n = match compare with [None] => None | _ => list_max (somes compare) end
  /\ variants_count (n_product n) = Some (len (r_variants p))
  /\ available (n_product n) = existsb (fun v => truthy (v_available v)) (r_variants p)
  /\ images (n_product n)
     = somes (map (fun i => if truthy_s (img_src i) then img_src i else None)
                (firstn 3 (r_images p)))
  /\ created_at (n_product n) = r_created_at p
  /\ published_at (n_product n) = r_published_at p
  /\ updated_at (n_product n) = r_updated_at p.
Proof.
  unfold normalize_product. cbv zeta.
  pose proof (min_or_none_spec (variant_prices float_of_string (r_variants p))) as A1.
  pose proof (max_or_none_spec (variant_prices float_of_string (r_variants p))) as A2.
  pose proof (min_or_none_spec (variant_compare_prices float_of_string (r_variants p))) as B1.
  pose proof (max_or_none_spec (variant_compare_prices float_of_string (r_variants p))) as B2.
  destruct (comparable (variant_prices float_of_string (r_variants p)));
    [|destruct A1 as [msg ->]; discriminate].
  rewrite A1, A2.
  destruct (comparable (variant_compare_prices float_of_string (r_variants p)));
    [|destruct B1 as [msg ->]; discriminate].
  rewrite B1, B2. intro H. injection H as <-. cbn. repeat split.
Qed.

Lemma extremes_cover (xs : list (option Q)) (x : Q) :
  In (Some x) xs ->
  exists lo hi,
    list_min (somes xs) = Some lo /\ list_max (somes xs) = Some hi
    /\ (lo <= x)%Q /\ (x <= hi)%Q.
Proof.
  intro H.
  assert (I : In x (somes xs)).
  { induction xs as [|[y|] r IH]; simpl in *; [tauto| |].
    - destruct H as [H|H]; [injection H as ->; now left|right; auto].
    - destruct H as [H|H]; [discriminate|auto]. }
  assert (NE : somes xs <> []) by (intro E; rewrite E in I; exact I).
  destruct (list_min_max_bounds _ NE) as (lo & hi & E1 & E2 & B).
  exists lo, hi. rewrite Forall_forall in B. specialize (B x I). tauto.
Qed.

(** X13: when [normalize_product] returns, every variant price that [float]
    accepts lies between [price_min] and [price_max], every accepted
    truthy compare-at price between [compare_at_min] and
    [compare_at_max], and a product whose variants all lack a price has
    neither [price_min] nor [price_max]. *)
Theorem normalize_product_price_range (p : raw_product) (base_url : string)
    (n : normalized) :
  normalize_product float_of_string p base_url = Ok n ->
  (forall v x,
     In v (r_variants p) -> v_price v <> JNull -> to_float float_of_string (v_price v) = Some x ->
     exists lo hi,
       price_min (n_product n) = Some lo /\ n_price_max n = Some hi
       /\ (lo <= x)%Q /\ (x <= hi)%Q)
  /\ (forall v x,
        In v (r_variants p) -> truthy (v_compare_at_price v) = true ->
        to_float float_of_string (v_compare_at_price v) = Some x ->
        exists lo hi,
          compare_at_min (n_product n) = Some lo /\ n_compare_at_max n = Some hi
          /\ (lo <= x)%Q /\ (x <= hi)%Q)
  /\ ((forall v, In v (r_variants p) -> v_price v = JNull) ->
      price_min (n_product n) = None /\ n_price_max n = None).
Proof.
  intro H. apply normalize_product_inv in H. cbv zeta in H.
  destruct H as (E1 & E2 & E3 & E4 & _).
  split; [|split].
  - intros v x Hv Hn Hx.
    assert (I : In (Some x) (variant_prices float_of_string (r_variants p))).
    { unfold variant_prices. rewrite <- Hx.
      apply (in_map (fun v => to_float float_of_string (v_price v))), filter_In.
      split; [exact Hv|]. now destruct (v_price v). }
    destruct (extremes_cover _ x I) as (lo & hi & L & U & B).
    exists lo, hi. rewrite E1, E2.
    destruct (variant_prices float_of_string (r_variants p)) as [|[y|] [|z r]];
      try (now split; [exact L|split; [exact U|exact B]]);
      try (now destruct I); destruct I as [I|[]]; discriminate.
  - intros v x Hv Hn Hx.
    assert (I : In (Some x) (variant_compare_prices float_of_string (r_variants p))).
    { unfold variant_compare_prices. rewrite <- Hx.
      apply (in_map (fun v => to_float float_of_string (v_compare_at_price v))), filter_In.
      now split. }
    destruct (extremes_cover _ x I) as (lo & hi & L & U & B).
    exists lo, hi. rewrite E3, E4.
    destruct (variant_compare_prices float_of_string (r_variants p)) as [|[y|] [|z r]];
      try (now split; [exact L|split; [exact U|exact B]]);
      try (now destruct I); destruct I as [I|[]]; discriminate.
  - intro Hall.
    assert (N : variant_prices float_of_string (r_variants p) = []).
    { unfold variant_prices. revert Hall. generalize (r_variants p). intros l Hall.
      induction l as [|v r IH]; [reflexivity|]. simpl.
      rewrite (Hall v (or_introl eq_refl)). simpl. apply IH.
      intros w Hw. apply Hall. now right. }
    rewrite E1, E2, N. split; reflexivity.
Qed.

(** X14: when [normalize_product] returns, [variants_count] is the number of
    variants, [available] holds exactly when some variant is available, at
    most three images are kept, each a non-empty source among the first
    three images of the raw product, and the three timestamps are copied
    unchanged. *)
Theorem normalize_product_shape (p : raw_product) (base_url : string) (n : normalized) :
  normalize_product float_of_string p base_url = Ok n ->
  variants_count (n_product n) = Some (len (r_variants p))
  /\ (available (n_product n) = true
      <-> exists v, In v (r_variants p) /\ truthy (v_available v) = true)
  /\ len (images (n_product n)) <= 3
  /\ Forall (fun src => src <> EmptyString
                        /\ exists i, In i (firstn 3 (r_images p)) /\ img_src i = Some src)
       (images (n_product n))
  /\ created_at (n_product n) = r_created_at p
  /\ published_at (n_product n) = r_published_at p
  /\ updated_at (n_product n) = r_updated_at p.
Proof.
  intro H. apply normalize_product_inv in H. cbv zeta in H.
  destruct H as (_ & _ & _ & _ & E5 & E6 & E7 & E8 & E9 & E10).
  split; [exact E5|]. split.
  { rewrite E6, existsb_exists. reflexivity. }
  split.
  { rewrite E7. pose proof (len_somes_map_le
      (fun i => if truthy_s (img_src i) then img_src i else None) (firstn 3 (r_images p))).
    pose proof (len_firstn_le 3 (r_images p)).
    assert (len (firstn 3 (r_images p)) <= 3).
    { unfold len. rewrite length_firstn. lia. }
    lia. }
  split; [|now repeat split].
  rewrite E7. generalize (firstn 3 (r_images p)). intro l.
  induction l as [|i r IH]; simpl; [constructor|].
  destruct (truthy_s (img_src i)) eqn:T.
  - destruct (img_src i) as [src|] eqn:S; [|discriminate].
    constructor.
    + split.
      * intros ->. discriminate T.
      * exists i. split; [now left|exact S].
    + eapply Forall_impl; [|exact IH]. intros a [A1 (j & J1 & J2)].
      split; [exact A1|]. exists j. split; [now right|exact J2].
  - eapply Forall_impl; [|exact IH]. intros a [A1 (j & J1 & J2)].
    split; [exact A1|]. exists j. split; [now right|exact J2].
Qed.

End NormalizeFacts.

(** ** Paging *)

Lemma pages_succ (page : Z) (k : nat) : pages page (S k) = page :: pages (page + 1) k.
Proof.
  unfold pages. cbn [seq map]. rewrite Z.add_0_r. f_equal.
  rewrite <- seq_shift, map_map. apply map_ext. intro i. lia.
Qed.

Lemma slice_to_short {A : Type} (m : Z) (l : list A) :
  l = [] \/ len l < m -> slice_to m l = l.
Proof.
  unfold slice_to. intros [->|H].
  - destruct (0 <=? m); now rewrite firstn_nil.
  - pose proof (len_nonneg l). destruct (Z.leb_spec 0 m); [|lia].
    apply firstn_all2. unfold len in H. lia.
Qed.

Lemma len_slice_to {A : Type} (m : Z) (l : list A) : 0 <= m -> len (slice_to m l) <= m.
Proof.
  intro H. unfold slice_to. destruct (Z.leb_spec 0 m); [|lia].
  unfold len. rewrite length_firstn. lia.
Qed.

Lemma len_slice_to_le {A : Type} (m : Z) (l : list A) : len (slice_to m l) <= len l.
Proof.
  unfold slice_to. destruct (0 <=? m); apply len_firstn_le.
Qed.

Lemma len_concat_le {A : Type} (b : Z) (ls : list (list A)) :
  Forall (fun l => len l <= b) ls -> len (List.concat ls) <= b * len ls.
Proof.
  induction 1 as [|l ls Hl Hs IH]; [unfold len; simpl; lia|].
  cbn [List.concat]. rewrite len_app, len_cons. lia.
Qed.

Section FetchFacts.
Variable http_get : string -> option response.
Variable store_url : string.
Variable max_products : option Z.

Lemma fetch_loop_spec (n : nat) :
  forall (page : Z) (products : list raw_product),
    let requests := fst (fetch_loop http_get store_url max_products n page products) in
    let outcome := snd (fetch_loop http_get store_url max_products n page products) in
    let all := (products ++ List.concat (map (batch_at http_get) requests))%list in
    (exists k, (k <= n)%nat /\ (1 <= n -> 1 <= k)%nat
               /\ requests = map (page_url store_url) (pages page k))
    /\ match outcome with
       | Done ps =>
           match max_products with
           | None => ps = all
           | Some m =>
               (ps = all /\ (all = products \/ len all < m))
               \/ (m <= len all /\ ps = slice_to m all)
           end
       | Failed _ => True
       end.
Proof.
  induction n as [|n IH]; intros page products.
  - cbn. split.
    + exists 0%nat. repeat split; lia.
    + rewrite app_nil_r. destruct max_products; auto.
  - cbn [fetch_loop]. cbv zeta.
    set (url := page_url store_url page).
    assert (One : exists k, (k <= S n)%nat /\ (1 <= S n -> 1 <= k)%nat
                            /\ [url] = map (page_url store_url) (pages page k)).
    { exists 1%nat. repeat split; try lia. unfold pages. cbn. now rewrite Z.add_0_r. }
    assert (Stop : batch_at http_get url = [] ->
                   match max_products with
                   | Some m =>
                       products = (products ++ List.concat (map (batch_at http_get) [url]))%list /\
                       ((products ++ List.concat (map (batch_at http_get) [url]))%list = products \/
                        len (products ++ List.concat (map (batch_at http_get) [url])) < m) \/
                       m <= len (products ++ List.concat (map (batch_at http_get) [url])) /\
                       products = slice_to m (products ++ List.concat (map (batch_at http_get) [url]))
                   | None => products = (products ++ List.concat (map (batch_at http_get) [url]))%list
                   end).
    { intro B. cbn [map List.concat]. rewrite B. cbn [app]. rewrite app_nil_r.
      destruct max_products; auto. }
    unfold batch_at in Stop. fold url in Stop.
    destruct (http_get url) as [r|] eqn:G; [|cbn; split; [exact One|exact I]].
    destruct (contains "application/json" (content_type r)) eqn:CT; cbn [negb andb] in *;
      [|cbn [fst snd]; split; [exact One|now apply Stop]].
    destruct (Z.eqb_spec (status r) 429) as [E429|N429].
    { cbn [orb fst snd]. split; [exact One|]. apply Stop.
      destruct (Z.eqb_spec (status r) 200); [lia|reflexivity]. }
    destruct (Z.eqb_spec (status r) 403) as [E403|N403].
    { cbn [orb fst snd]. split; [exact One|]. apply Stop.
      destruct (Z.eqb_spec (status r) 200); [lia|reflexivity]. }
    cbn [orb].
    destruct (Z.eqb_spec (status r) 200) as [E200|N200]; cbn [negb];
      [|cbn [fst snd]; split; [exact One|now apply Stop]].
    destruct (json_products r) as [[|b0 bs]|] eqn:J;
      [cbn [fst snd]; split; [exact One|now apply Stop]
      | |cbn [fst snd]; split; [exact One|exact I]].
    clear Stop.
    set (batch := b0 :: bs) in *.
    assert (B : batch_at http_get url = batch).
    { unfold batch_at. rewrite G, CT, J.
      destruct (Z.eqb_spec (status r) 200); [reflexivity|congruence]. }
    specialize (IH (page + 1) (products ++ batch)%list). cbv zeta in IH.
    destruct IH as [(k & K1 & K2 & K3) IH].
    destruct (fetch_loop http_get store_url max_products n (page + 1) (products ++ batch))
      as [requests outcome] eqn:F.
    cbn [fst snd] in *.
    assert (Cont : exists k0, (k0 <= S n)%nat /\ (1 <= S n -> 1 <= k0)%nat
                   /\ url :: requests = map (page_url store_url) (pages page k0)).
    { exists (S k). repeat split; try lia. rewrite pages_succ. cbn [map]. now rewrite K3. }
    assert (A : (products ++ List.concat (map (batch_at http_get) (url :: requests)))%list
                = ((products ++ batch) ++ List.concat (map (batch_at http_get) requests))%list).
    { cbn [map List.concat]. now rewrite B, app_assoc. }
    assert (NEb : forall l : list raw_product,
              ((products ++ batch) ++ l)%list <> products).
    { intros l E. apply (f_equal (@List.length _)) in E. unfold batch in E.
      rewrite !length_app in E. simpl in E. lia. }
    destruct max_products as [m|].
    + destruct (Z.leb_spec m (len (products ++ batch))) as [C|C].
      * cbn [fst snd]. split; [exact One|]. right.
        cbn [map List.concat]. rewrite B, app_nil_r. split; [exact C|reflexivity].
      * cbn [fst snd]. split; [exact Cont|].
        destruct outcome as [ps|e]; [|exact IH].
        rewrite A. destruct IH as [[-> [E|L]]|[L ->]].
        -- left. split; [reflexivity|]. right. rewrite E. exact C.
        -- left. split; [reflexivity|]. now right.
        -- right. now split.
    + cbn [fst snd]. split; [exact Cont|].
      destruct outcome as [ps|e]; [|exact IH]. now rewrite A.
Qed.


(** An exception of the HTTP client or of the JSON decoder ends the loop
    and escapes. *)
Lemma fetch_loop_errors (n : nat) :
  forall (page : Z) (products : list raw_product),
    let requests := fst (fetch_loop http_get store_url max_products n page products) in
    let outcome := snd (fetch_loop http_get store_url max_products n page products) in
    (forall url, In url requests -> http_get url = None -> outcome = Failed TransportError)
    /\ (forall url r,
          In url requests -> http_get url = Some r ->
          contains "application/json" (content_type r) = true -> status r = 200 ->
          json_products r = None -> outcome = Failed JSONDecodeError).
Proof.
  induction n as [|n IH]; intros page products; [cbn; split; intros; contradiction|].
  cbn [fetch_loop]. cbv zeta.
  set (url := page_url store_url page).
  destruct (http_get url) as [r|] eqn:G.
  2:{ cbn [fst snd]. split; [intros; reflexivity|].
      intros u r [<-|[]] Hu. congruence. }
  assert (Last : forall o : web_result (list raw_product),
            (contains "application/json" (content_type r) = true -> status r = 200 ->
             json_products r = None -> o = Failed JSONDecodeError) ->
            (forall u, In u [url] -> http_get u = None -> o = Failed TransportError)
            /\ (forall u r',
                  In u [url] -> http_get u = Some r' ->
                  contains "application/json" (content_type r') = true -> status r' = 200 ->
                  json_products r' = None -> o = Failed JSONDecodeError)).
  { intros o Ho. split.
    - intros u [<-|[]] Hu. congruence.
    - intros u r' [<-|[]] Hu. rewrite G in Hu. injection Hu as <-. exact Ho. }
  destruct (contains "application/json" (content_type r)) eqn:CT; cbn [negb];
    [|cbn [fst snd]; apply Last; discriminate].
  destruct (Z.eqb_spec (status r) 429) as [E429|N429];
    [cbn [orb fst snd]; apply Last; intros; lia|].
  destruct (Z.eqb_spec (status r) 403) as [E403|N403];
    [cbn [orb fst snd]; apply Last; intros; lia|].
  cbn [orb].
  destruct (Z.eqb_spec (status r) 200) as [E200|N200]; cbn [negb];
    [|cbn [fst snd]; apply Last; intros; lia].
  destruct (json_products r) as [[|b0 bs]|] eqn:J;
    [cbn [fst snd]; apply Last; discriminate| |cbn [fst snd]; apply Last; reflexivity].
  specialize (IH (page + 1) (products ++ b0 :: bs)%list). cbv zeta in IH.
  destruct (fetch_loop http_get store_url max_products n (page + 1) (products ++ b0 :: bs))
    as [requests outcome] eqn:F.
  cbn [fst snd] in IH. destruct IH as [IH1 IH2].
  assert (Cont : (forall u, In u (url :: requests) -> http_get u = None ->
                            outcome = Failed TransportError)
                 /\ (forall u r',
                       In u (url :: requests) -> http_get u = Some r' ->
                       contains "application/json" (content_type r') = true ->
                       status r' = 200 -> json_products r' = None ->
                       outcome = Failed JSONDecodeError)).
  { split.
    - intros u [<-|Hu] Hn; [congruence|now apply (IH1 u)].
    - intros u r' [<-|Hu] Hg C S N; [|now apply (IH2 u r')].
      rewrite G in Hg. injection Hg as <-. congruence. }
  destruct max_products as [m|]; [|exact Cont].
  destruct (Z.leb_spec m (len (products ++ b0 :: bs))); [|exact Cont].
  cbn [fst snd]. apply Last. congruence.
Qed.

(** X15: [fetch_products_shopify] requests the pages 1, 2, ... in order, at
    least one and at most ten, and nothing else.  If it returns, the result
    is the concatenation of the product lists of the requested pages that
    answered with JSON and status 200, cut by [max_products] when that is
    given.  An exception of the HTTP client on a requested page escapes,
    and so does the exception of the JSON decoder on a reply with a JSON
    content type and status 200. *)
Theorem fetch_products_shopify_pages :
  let requests := fst (fetch_products_shopify http_get store_url max_products) in
  let outcome := snd (fetch_products_shopify http_get store_url max_products) in
  let all := List.concat (map (batch_at http_get) requests) in
  (exists k, (1 <= k <= 10)%nat /\ requests = map (page_url store_url) (pages 1 k))
  /\ (forall ps,
        outcome = Done ps ->
        ps = match max_products with
             | Some m => slice_to m all
             | None => all
             end)
  /\ (forall url, In url requests -> http_get url = None -> outcome = Failed TransportError)
  /\ (forall url r,
        In url requests -> http_get url = Some r ->
        contains "application/json" (content_type r) = true -> status r = 200 ->
        json_products r = None -> outcome = Failed JSONDecodeError).
Proof.
  unfold fetch_products_shopify, MAX_PAGES.
  pose proof (fetch_loop_spec 10 1 []) as H. cbv zeta in H. cbn [app] in H.
  destruct H as [(k & K1 & K2 & K3) H]. cbv zeta. split; [|split].
  - exists k. split; [lia|exact K3].
  - intros ps E. rewrite E in H.
    destruct max_products as [m|]; [|exact H].
    destruct H as [[-> S]|[_ ->]]; [|reflexivity].
    symmetry. apply slice_to_short. exact S.
  - exact (fetch_loop_errors 10 1 []).
Qed.

(** X16: what [fetch_products_shopify] returns has at most [max_products]
    products when that bound is given and not negative; it has at most ten
    times as many products as the largest page served; and every product of
    it was served, with status 200, on one of the pages 1 to 10. *)
Theorem fetch_products_shopify_caps (ps : list raw_product) :
  snd (fetch_products_shopify http_get store_url max_products) = Done ps ->
  (forall m, max_products = Some m -> 0 <= m -> len ps <= m)
  /\ (forall b,
        (forall url r batch,
           http_get url = Some r -> json_products r = Some batch -> len batch <= b) ->
        0 <= b -> len ps <= b * 10)
  /\ (forall p, In p ps ->
        exists page r batch,
          1 <= page <= 10 /\ http_get (page_url store_url page) = Some r
          /\ status r = 200 /\ json_products r = Some batch /\ In p batch).
Proof.
  intro H.
  pose proof (fetch_loop_spec 10 1 []) as S. cbv zeta in S. cbn [app] in S.
  unfold fetch_products_shopify, MAX_PAGES in H.
  destruct S as [(k & K1 & K2 & K3) S]. rewrite H in S.
  set (requests := fst (fetch_loop http_get store_url max_products 10 1 [])) in *.
  set (all := List.concat (map (batch_at http_get) requests)) in *.
  assert (P : ps = all \/ exists m, ps = slice_to m all).
  { destruct max_products as [m|]; [|now left].
    destruct S as [[-> _]|[_ ->]]; [now left|right; now exists m]. }
  split; [|split].
  - intros m E Hm. rewrite E in S. destruct S as [[-> [E'|L]]|[_ ->]].
    + rewrite E'. unfold len. simpl. exact Hm.
    + lia.
    + now apply len_slice_to.
  - intros b Hb Hb0.
    assert (L : len all <= b * 10).
    { unfold all.
      assert (L1 : len (List.concat (map (batch_at http_get) requests))
                   <= b * len (map (batch_at http_get) requests)).
      { apply len_concat_le. rewrite Forall_forall. intros l Hl.
        apply in_map_iff in Hl. destruct Hl as (url & <- & _). unfold batch_at.
        destruct (http_get url) as [r|] eqn:G; [|unfold len; simpl; lia].
        destruct (_ && _); [|unfold len; simpl; lia].
        destruct (json_products r) as [batch|] eqn:J; [|unfold len; simpl; lia].
        exact (Hb url r batch G J). }
      rewrite len_map in L1.
      assert (L2 : len requests <= 10).
      { rewrite K3. unfold len, pages. rewrite !length_map, length_seq. lia. }
      pose proof (len_nonneg requests). nia. }
    destruct P as [->|[m ->]]; [exact L|].
    pose proof (len_slice_to_le m all). lia.
  - intros p Hp.
    assert (Ia : In p all).
    { destruct P as [->|[m ->]]; [exact Hp|].
      unfold slice_to in Hp. destruct (0 <=? m); now apply firstn_incl in Hp. }
    unfold all in Ia. apply in_concat in Ia. destruct Ia as (l & Hl & Il).
    apply in_map_iff in Hl. destruct Hl as (url & <- & Hu).
    rewrite K3 in Hu. apply in_map_iff in Hu. destruct Hu as (page & <- & Hpage).
    unfold pages in Hpage. apply in_map_iff in Hpage. destruct Hpage as (i & <- & Hi).
    apply in_seq in Hi.
    unfold batch_at in Il.
    destruct (http_get (page_url store_url (1 + Z.of_nat i))) as [r|] eqn:G; [|destruct Il].
    destruct (contains _ _ && (status r =? 200)) eqn:C; [|destruct Il].
    destruct (json_products r) as [batch|] eqn:J; [|destruct Il].
    apply andb_true_iff in C. destruct C as [_ C]. apply Z.eqb_eq in C.
    exists (1 + Z.of_nat i), r, batch. repeat split; try assumption; lia.
Qed.

End FetchFacts.

(** ** The notes of [generate] *)





Section GenerateFacts.
Variable fromisoformat : string -> option (Z * option Z).
Variable clock : nat -> Z.
Variable float_of_string : string -> option Q.
Variable http_get : string -> option response.





End GenerateFacts.

(** ** The services on concrete inputs *)

Example normalize_store_url_examples :
  normalize_store_url "  shop.example/ " = Done "https://shop.example"%string
  /\ normalize_store_url "http://shop.example//" = Done "http://shop.example"%string
  /\ normalize_store_url "httpbin.org" = Failed (ValueError "Invalid URL scheme.")
  /\ normalize_store_url "https://" = Done "https:"%string
  /\ normalize_store_url "https:" = Failed (ValueError "Invalid URL scheme.").
Proof. repeat split. Qed.

Example normalize_product_sample :
  normalize_product float_of_string_basic sample_raw "https://shop.example"
  = Ok sample_normalized.
Proof. vm_compute. reflexivity. Qed.

Example normalize_product_unparsable_price :
  normalize_product float_of_string_basic unpriced_raw "https://shop.example"
  = Raise (TypeError "'<' not supported between instances of 'NoneType' and 'float'").
Proof. vm_compute. reflexivity. Qed.

Example fetch_products_shopify_sample :
  fetch_products_shopify sample_web "https://shop.example/" None
  = (["https://shop.example/products.json?limit=250&page=1";
      "https://shop.example/products.json?limit=250&page=2"]%string,
     Done [sample_raw; sample_raw])
  /\ fetch_products_shopify sample_web "https://shop.example" (Some 1)
     = (["https://shop.example/products.json?limit=250&page=1"]%string, Done [sample_raw])
  /\ List.length (fst (fetch_products_shopify endless_web "https://shop.example" None)) = 10%nat
  /\ fetch_products_shopify (fun _ => None) "https://shop.example" None
     = (["https://shop.example/products.json?limit=250&page=1"]%string, Failed TransportError).
Proof. repeat split; vm_compute; reflexivity. Qed.

Example generate_sample :
  (let out := generate fromisoformat_basic clock_march float_of_string_basic sample_web
                (Some "shop.example"%string) None 0%nat in
   match snd out with
   | Done (ins, k') =>
       store ins = {| base_url := "https://shop.example"; product_count := 2 |}
       /\ k' = 7%nat
       /\ List.length (confidence_notes (analysis ins)) = 9%nat
   | Failed _ => False
   end)
  /\ generate fromisoformat_basic clock_march float_of_string_basic sample_web None None 0%nat
     = ([], Failed (HTTPException 422 "store_url is required"))
  /\ generate fromisoformat_basic clock_march float_of_string_basic sample_web None
       (Some [("store_url", "httpbin.org")]%string) 0%nat
     = ([], Failed (ValueError "Invalid URL scheme.")).
Proof.
  split; [vm_compute; repeat split|split; vm_compute; reflexivity].
Qed.

(** ** Instances *)

(** An instance of X2: the report of three dated products. *)
Lemma newest_and_recently_updated_lists_witness :
  analyze_products fromisoformat_basic clock_march sample_catalog 0%nat
  = Ok (catalog_report, 7%nat)
  /\ ((exists ps,
         Permutation ps sample_catalog
         /\ StronglySorted (not_older (created_dt fromisoformat_basic)) ps
         /\ newest_products (lists catalog_report) = map compact (firstn 10 ps))
      /\ (exists ps,
            Permutation ps sample_catalog
            /\ StronglySorted (not_older (updated_dt fromisoformat_basic)) ps
            /\ recently_updated (lists catalog_report) = map compact (firstn 10 ps))
      /\ len (newest_products (lists catalog_report)) = Z.min 10 (len sample_catalog)
      /\ len (recently_updated (lists catalog_report)) = Z.min 10 (len sample_catalog)).
Proof.
  split; [vm_compute; reflexivity|].
  apply (newest_and_recently_updated_lists fromisoformat_basic clock_march sample_catalog
           0%nat 7%nat catalog_report).
  vm_compute; reflexivity.
Defined.

(** An instance of X3: the report of three products, two of them discounted. *)
Lemma top_expensive_and_top_discounts_witness :
  analyze_products fromisoformat_basic clock_march sample_catalog 0%nat
  = Ok (catalog_report, 7%nat)
  /\ ((exists ps,
         Permutation ps sample_catalog
         /\ StronglySorted dearer_first ps
         /\ top_expensive (lists catalog_report) = map compact (firstn 10 ps))
      /\ (exists ds,
            Permutation ds (filter (fun p => is_some (discount_of p)) sample_catalog)
            /\ StronglySorted deeper_discount_first ds
            /\ top_discounts (lists catalog_report) = map compact (firstn 10 ds))
      /\ Forall (fun c => c_discount_pct c <> None) (top_discounts (lists catalog_report))).
Proof.
  split; [vm_compute; reflexivity|].
  apply (top_expensive_and_top_discounts fromisoformat_basic clock_march sample_catalog
           0%nat 7%nat catalog_report).
  vm_compute; reflexivity.
Defined.

(** An instance of X4: the report of three products of two vendors. *)
Lemma vendor_and_bucket_counts_add_up_witness :
  analyze_products fromisoformat_basic clock_march sample_catalog 0%nat
  = Ok (catalog_report, 7%nat)
  /\ (zsum (map snd (vendors (catalog catalog_report))) = total_products (catalog catalog_report)
      /\ total_products (catalog catalog_report) = len sample_catalog
      /\ zsum (map snd (pr_buckets (pricing catalog_report))) = pr_count (pricing catalog_report)
      /\ (forall b n, In (b, n) (pr_buckets (pricing catalog_report)) ->
                      1 <= n /\ In b (pr_bucket_order (pricing catalog_report)))
      /\ (forall v n, In (v, n) (vendors (catalog catalog_report)) -> 1 <= n)
      /\ vendor_count (catalog catalog_report) <= total_products (catalog catalog_report)).
Proof.
  split; [vm_compute; reflexivity|].
  apply (vendor_and_bucket_counts_add_up fromisoformat_basic clock_march sample_catalog
           0%nat 7%nat catalog_report).
  vm_compute; reflexivity.
Defined.

(** An instance of X7: the report of three products. *)
Lemma positioning_scores_and_labels_witness :
  analyze_products fromisoformat_basic clock_march sample_catalog 0%nat
  = Ok (catalog_report, 7%nat)
  /\ (Forall (fun s => 0 <= score s <= 100
                       /\ (label s = "High"%string <-> 75 <= score s)
                       /\ (label s = "Medium"%string <-> 45 <= score s < 75)
                       /\ (label s = "Low"%string <-> score s < 45))
        [promo_intensity (positioning catalog_report);
         launch_velocity (positioning catalog_report);
         catalog_complexity (positioning catalog_report)]
      /\ (market_position_label (positioning catalog_report) = "—"%string
          <-> pr_count (pricing catalog_report) = 0)).
Proof.
  split; [vm_compute; reflexivity|].
  apply (positioning_scores_and_labels fromisoformat_basic clock_march sample_catalog
           0%nat 7%nat catalog_report).
  vm_compute; reflexivity.
Defined.

(** An instance of X8: the report of three priced products. *)
Lemma pricing_statistics_between_extremes_witness :
  analyze_products fromisoformat_basic clock_march sample_catalog 0%nat
  = Ok (catalog_report, 7%nat)
  /\ (let p := pricing catalog_report in
      pr_count p = count_if (fun x => match price_min x with
                                      | Some v => Qlt_bool 0 v
                                      | None => false
                                      end) sample_catalog
      /\ (pr_count p = 0 ->
          pr_min p = None /\ pr_p25 p = None /\ pr_median p = None /\ pr_p75 p = None
          /\ pr_max p = None)
      /\ (0 < pr_count p ->
          between_opt (Some 0%Q) (pr_min p) (pr_max p)
          /\ between_opt (pr_min p) (pr_p25 p) (pr_max p)
          /\ between_opt (pr_min p) (pr_median p) (pr_max p)
          /\ between_opt (pr_min p) (pr_p75 p) (pr_max p))).
Proof.
  split; [vm_compute; reflexivity|].
  apply (pricing_statistics_between_extremes fromisoformat_basic clock_march sample_catalog
           0%nat 7%nat catalog_report).
  vm_compute; reflexivity.
Defined.

(** An instance of X9: the report of three products, two of them discounted. *)
Lemma discounted_vs_full_price_agrees_witness :
  analyze_products fromisoformat_basic clock_march sample_catalog 0%nat
  = Ok (catalog_report, 7%nat)
  /\ ((sample_catalog <> [] ->
       compute_discounted_vs_full_price sample_catalog
       = Some (cmp_discounted_vs_full_price (comparisons catalog_report)))
      /\ (sample_catalog = [] -> compute_discounted_vs_full_price sample_catalog = None)
      /\ discounted_count (discounts catalog_report)
         <= dvf_discounted_count (cmp_discounted_vs_full_price (comparisons catalog_report))
         <= total_products (catalog catalog_report)).
Proof.
  split; [vm_compute; reflexivity|].
  apply (discounted_vs_full_price_agrees fromisoformat_basic clock_march sample_catalog
           0%nat 7%nat catalog_report).
  vm_compute; reflexivity.
Defined.

(** An instance of X13: a product with two priced variants. *)
Lemma normalize_product_price_range_witness :
  normalize_product float_of_string_basic sample_raw "https://shop.example"
  = Ok sample_normalized
  /\ ((forall v x,
         In v (r_variants sample_raw) -> v_price v <> JNull ->
         to_float float_of_string_basic (v_price v) = Some x ->
         exists lo hi,
           price_min (n_product sample_normalized) = Some lo
           /\ n_price_max sample_normalized = Some hi
           /\ (lo <= x)%Q /\ (x <= hi)%Q)
      /\ (forall v x,
            In v (r_variants sample_raw) -> truthy (v_compare_at_price v) = true ->
            to_float float_of_string_basic (v_compare_at_price v) = Some x ->
            exists lo hi,
              compare_at_min (n_product sample_normalized) = Some lo
              /\ n_compare_at_max sample_normalized = Some hi
              /\ (lo <= x)%Q /\ (x <= hi)%Q)
      /\ ((forall v, In v (r_variants sample_raw) -> v_price v = JNull) ->
          price_min (n_product sample_normalized) = None
          /\ n_price_max sample_normalized = None)).
Proof.
  split; [vm_compute; reflexivity|].
  apply (normalize_product_price_range float_of_string_basic sample_raw "https://shop.example"
           sample_normalized).
  vm_compute; reflexivity.
Defined.

(** An instance of X14: a product with four images, the second without
    source. *)
Lemma normalize_product_shape_witness :
  normalize_product float_of_string_basic sample_raw "https://shop.example"
  = Ok sample_normalized
  /\ (variants_count (n_product sample_normalized) = Some (len (r_variants sample_raw))
      /\ (available (n_product sample_normalized) = true
          <-> exists v, In v (r_variants sample_raw) /\ truthy (v_available v) = true)
      /\ len (images (n_product sample_normalized)) <= 3
      /\ Forall (fun src => src <> EmptyString
                            /\ exists i, In i (firstn 3 (r_images sample_raw))
                                         /\ img_src i = Some src)
           (images (n_product sample_normalized))
      /\ created_at (n_product sample_normalized) = r_created_at sample_raw
      /\ published_at (n_product sample_normalized) = r_published_at sample_raw
      /\ updated_at (n_product sample_normalized) = r_updated_at sample_raw).
Proof.
  split; [vm_compute; reflexivity|].
  apply (normalize_product_shape float_of_string_basic sample_raw "https://shop.example"
           sample_normalized).
  vm_compute; reflexivity.
Defined.

(** An instance of X16: a store with two products, fetched with a bound of
    one. *)
Lemma fetch_products_shopify_caps_witness :
  snd (fetch_products_shopify sample_web "https://shop.example" (Some 1)) = Done [sample_raw]
  /\ ((forall m, Some 1 = Some m -> 0 <= m -> len [sample_raw] <= m)
      /\ (forall b,
            (forall url r batch,
               sample_web url = Some r -> json_products r = Some batch -> len batch <= b) ->
            0 <= b -> len [sample_raw] <= b * 10)
      /\ (forall p, In p [sample_raw] ->
            exists page r batch,
              1 <= page <= 10 /\ sample_web (page_url "https://shop.example" page) = Some r
              /\ status r = 200 /\ json_products r = Some batch /\ In p batch)).
Proof.
  split; [vm_compute; reflexivity|].
  apply (fetch_products_shopify_caps sample_web "https://shop.example" (Some 1) [sample_raw]).
  vm_compute; reflexivity.
Defined.

(** ** Takeaways *)

Lemma generate_launch_insights_length (analysis : launch) :
  1 <= len (generate_launch_insights analysis) <= 4.
Proof.
  unfold generate_launch_insights. cbv zeta. rewrite !len_app.
  repeat match goal with
         | |- context [len (if ?b then _ else _)] => destruct b
         | |- context [len (match ?o with Some _ => _ | None => _ end)] => destruct o
         end;
    unfold len; simpl; lia.
Qed.

Lemma generate_launch_insights_error (msg : string) :
  generate_launch_insights (LaunchError msg)
  = ["Low launch velocity: 0 products/month, suggesting mature/stable catalog."%string].
Proof. reflexivity. Qed.

Lemma len_opt_list {A : Type} (o : option A) : 0 <= len (opt_list o) <= 1.
Proof. destruct o; unfold len; simpl; lia. Qed.

Lemma catalog_takeaways_length (newest products : list product) :
  products <> [] -> 2 <= len (catalog_takeaways newest products) <= 6.
Proof.
  intro NE. unfold catalog_takeaways. cbv zeta.
  destruct (len products =? 0) eqn:E.
  { destruct products; [congruence|]. rewrite len_cons in E.
    pose proof (len_nonneg products). lia. }
  rewrite !len_app.
  repeat match goal with
         | |- context [len (opt_list ?o)] =>
             let H := fresh in pose proof (len_opt_list o) as H; generalize dependent (len (opt_list o)); intros
         end.
  change (len [_; _]) with 2. lia.
Qed.

Section TakeawayFacts.
Variable fromisoformat : string -> option (Z * option Z).
Variable clock : nat -> Z.

Lemma launch_timeline_at_undated (now : Z) (products : list product) :
  Forall (fun p => created_dt fromisoformat p = None) products ->
  launch_timeline_at fromisoformat now products
  = LaunchError "No products have created_at/published_at dates".
Proof.
  intro H. unfold launch_timeline_at. cbv zeta.
  assert (E : somes (map (fun p => match created_dt fromisoformat p with
                                   | Some dt => Some (p, dt)
                                   | None => None
                                   end) products) = []).
  { induction H as [|p ps Hp Hs IH]; [reflexivity|]. simpl. now rewrite Hp. }
  now rewrite E.
Qed.

Lemma analyze_products_launch (products : list product) (k k' : nat) (r : report) :
  analyze_products fromisoformat clock products k = Ok (r, k') ->
  exists pack c30 c90 c180 newest recent cut90 utcnow,
    r = assemble fromisoformat products pack c30 c90 c180 newest recent cut90
          (if len products =? 0 then LaunchEmpty
           else launch_timeline_at fromisoformat (clock (5 + k)%nat) products)
          utcnow.
Proof.
  rewrite analyze_products_eq.
  destruct (sorted_desc_dt (newest_dt fromisoformat) products); [|discriminate].
  destruct (sorted_desc_dt (updated_key fromisoformat) products); [|discriminate].
  cbv zeta. intro H. apply Ok_pair_inj in H. subst r.
  eexists _, _, _, _, _, _, _, _. reflexivity.
Qed.

Lemma len_zero_iff {A : Type} (l : list A) : (len l =? 0) = true <-> l = [].
Proof.
  destruct l; [split; reflexivity|].
  rewrite len_cons. pose proof (len_nonneg l) as N. split; [|discriminate].
  intro H. apply Z.eqb_eq in H. lia.
Qed.

(** X18: a returned report has no takeaways for no products and between 3 and
    10 otherwise.  For products none of which has a creation instant, the
    launch section is the error marker and the first takeaway is still a
    velocity sentence: "Low launch velocity: 0 products/month, suggesting
    mature/stable catalog." *)
Theorem takeaways_shape (products : list product) (k k' : nat) (r : report) :
  analyze_products fromisoformat clock products k = Ok (r, k') ->
  (products = [] -> takeaways r = [])
  /\ (products <> [] -> 3 <= len (takeaways r) <= 10)
  /\ (products <> [] ->
      Forall (fun p => created_dt fromisoformat p = None) products ->
      hd_error (takeaways r)
      = Some "Low launch velocity: 0 products/month, suggesting mature/stable catalog."%string
      /\ launch_timeline r = LaunchError "No products have created_at/published_at dates").
Proof.
  intro H. apply analyze_products_launch in H.
  destruct H as (pack & c30 & c90 & c180 & newest & recent & cut90 & utcnow & ->).
  cbn [takeaways assemble launch_timeline].
  split; [|split].
  - intros ->. reflexivity.
  - intro NE. rewrite len_app.
    pose proof (catalog_takeaways_length newest products NE).
    destruct (len products =? 0) eqn:E; [apply len_zero_iff in E; congruence|].
    set (launch := launch_timeline_at fromisoformat (clock (5 + k)%nat) products).
    assert (N : launch <> LaunchEmpty).
    { unfold launch, launch_timeline_at. cbv zeta. destruct (somes _); discriminate. }
    pose proof (generate_launch_insights_length launch).
    destruct launch; [congruence| |]; lia.
  - intros NE U.
    destruct (len products =? 0) eqn:E; [apply len_zero_iff in E; congruence|].
    rewrite (launch_timeline_at_undated _ _ U). split; reflexivity.
Qed.

End TakeawayFacts.

(** ** Counts and missing dates *)

Section MissingFacts.
Variable fromisoformat : string -> option (Z * option Z).
Variable clock : nat -> Z.

Lemma created_count_and_missing (cut : Z) (products : list product) :
  count_if (fun d => match d with Some t => cut <=? t | None => false end)
    (map (fun p => parse_dt fromisoformat (created_at p)) products)
  + count_if (fun p => negb (is_some (parse_dt fromisoformat (created_at p)))) products
  <= len products.
Proof.
  rewrite count_if_map. apply count_if_disjoint. intro p.
  destruct (parse_dt fromisoformat (created_at p)); simpl; [apply andb_false_r|reflexivity].
Qed.

Lemma updated_count_and_missing (now : Z) (products : list product)
    (f : update_activity -> Z) :
  (forall o u, new_vs_old_and_updates_at fromisoformat now products = (o, Some u) ->
               0 <= f u <= organic_update_count u) ->
  0 <= get_updated f (snd (new_vs_old_and_updates_at fromisoformat now products))
  /\ get_updated f (snd (new_vs_old_and_updates_at fromisoformat now products))
     + count_if (fun p => negb (is_some (parse_dt fromisoformat (updated_at p)))) products
     <= len products.
Proof.
  intro H.
  pose proof (count_if_le (fun p => negb (is_some (parse_dt fromisoformat (updated_at p))))
                products) as M.
  destruct (new_vs_old_and_updates_at fromisoformat now products) as [o [u|]] eqn:E;
    cbn [snd get_updated]; [|lia].
  specialize (H o u eq_refl).
  pose proof (update_pack_fields fromisoformat now products o u E) as F. cbv zeta in F.
  destruct F as (_ & _ & _ & _ & F & _).
  pose proof (organic_updates_len (meaningful_updates fromisoformat products)
                (fst (fst (detect_bulk_update_spike
                             (meaningful_updates fromisoformat products) "day")))
                (snd (fst (detect_bulk_update_spike
                             (meaningful_updates fromisoformat products) "day")))) as O.
  rewrite <- F in O.
  assert (L : len (meaningful_updates fromisoformat products)
              + count_if (fun p => negb (is_some (parse_dt fromisoformat (updated_at p))))
                  products
              <= len products).
  { unfold meaningful_updates. rewrite len_somes_map. apply count_if_disjoint. intro p.
    unfold meaningful_update_dt, updated_dt.
    destruct (parse_dt fromisoformat (updated_at p)); simpl; [apply andb_false_r|reflexivity]. }
  lia.
Qed.

(** X19: in the [new_vs_old] section of a returned report, [total] is the
    number of records, [missing] counts the records whose [created_at]
    (respectively [updated_at]) does not parse, and each window count plus
    the missing count of its group is at most the total, whatever the
    clock read. *)
Theorem new_vs_old_counts_and_missing (products : list product) (k k' : nat) (r : report) :
  analyze_products fromisoformat clock products k = Ok (r, k') ->
  let n := new_vs_old r in
  nvo_total n = len products
  /\ Forall (fun c => 0 <= cp_count c /\ cp_count c + missing (created n) <= nvo_total n)
       [d30 (created n); d90 (created n); d180 (created n)]
  /\ Forall (fun c => 0 <= cp_count c /\ cp_count c + missing (updated n) <= nvo_total n)
       [d30 (updated n); d90 (updated n); d180 (updated n)]
  /\ missing (created n)
     = count_if (fun p => negb (is_some (parse_dt fromisoformat (created_at p)))) products
  /\ missing (updated n)
     = count_if (fun p => negb (is_some (parse_dt fromisoformat (updated_at p)))) products.
Proof.
  intro H. apply analyze_products_inv in H.
  destruct H as (newest & recent & launch & _ & _ & _ & ->).
  cbv zeta. cbn [new_vs_old assemble]. unfold new_vs_old_of.
  cbn [nvo_total created updated d30 d90 d180 missing cp_count snd].
  assert (U : forall o u,
             new_vs_old_and_updates_at fromisoformat (clock k) products = (o, Some u) ->
             (0 <= updated_30 u <= organic_update_count u)
             /\ (0 <= updated_90 u <= organic_update_count u)
             /\ (0 <= updated_180 u <= organic_update_count u)).
  { intros o u E.
    pose proof (update_pack_fields fromisoformat (clock k) products o u E) as F.
    cbv zeta in F. destruct F as (_ & _ & _ & _ & F0 & _ & F1 & F2 & F3).
    rewrite F0, F1, F2, F3. repeat split; apply count_if_le. }
  split; [reflexivity|]. split; [|split; [|split; reflexivity]].
  - repeat (apply Forall_cons;
            [split; [apply count_if_le|apply created_count_and_missing]|]).
    apply Forall_nil.
  - repeat (apply Forall_cons;
            [apply updated_count_and_missing; intros o u E; apply (U o u E)|]).
    apply Forall_nil.
Qed.

End MissingFacts.

(** ** [fetch_all_products] *)

Lemma len_slice_to_min {A : Type} (m : Z) (l : list A) :
  0 <= m -> len (slice_to m l) = Z.min m (len l).
Proof.
  intro H. unfold slice_to. destruct (Z.leb_spec 0 m); [|lia].
  unfold len. rewrite length_firstn. lia.
Qed.

Section FetchAllFacts.
Variable http_get : string -> option response.
Variable store_url : string.

Lemma fetch_all_loop_enough (fuel : nat) :
  forall (page : Z) (products : list raw_product),
    (room products <= fuel)%nat ->
    exists requests outcome,
      fetch_all_loop http_get store_url fuel page products = (requests, Some outcome)
      /\ (forall fuel', (room products <= fuel')%nat ->
                        fetch_all_loop http_get store_url fuel' page products
                        = (requests, Some outcome))
      /\ (List.length requests <= room products)%nat
      /\ match outcome with
         | Done ps => len ps <= Z.max MAX_PRODUCTS (len products)
         | Failed _ => True
         end.
Proof.
  induction fuel as [|n IH]; intros page products R.
  - assert (F : (len products <? MAX_PRODUCTS) = false).
    { apply Z.ltb_ge. unfold room in R. lia. }
    exists [], (Done products). simpl. rewrite F. repeat split; try lia.
    intros fuel' _. destruct fuel'; simpl; now rewrite F.
  - cbn [fetch_all_loop].
    destruct (Z.ltb_spec (len products) MAX_PRODUCTS) as [Lt|Ge].
    2:{ exists [], (Done products). repeat split; try (cbn [List.length]; lia).
        intros fuel' _. destruct fuel'; cbn [fetch_all_loop];
          destruct (Z.ltb_spec (len products) MAX_PRODUCTS); try lia; reflexivity. }
    cbv zeta.
    set (url := String.append store_url
                  (String.append "/products.json?limit=250&page=" (str_int page))).
    assert (Pos : (1 <= room products)%nat) by (unfold room; lia).
    assert (Stop : forall o,
              (match o with
               | Done ps => len ps <= Z.max MAX_PRODUCTS (len products)
               | Failed _ => True
               end) ->
              (forall fuel', (room products <= fuel')%nat ->
                  fetch_all_loop http_get store_url fuel' page products = ([url], Some o)) ->
              exists requests outcome,
                ([url], Some o) = (requests, Some outcome)
                /\ (forall fuel', (room products <= fuel')%nat ->
                      fetch_all_loop http_get store_url fuel' page products
                      = (requests, Some outcome))
                /\ (List.length requests <= room products)%nat
                /\ match outcome with
                   | Done ps => len ps <= Z.max MAX_PRODUCTS (len products)
                   | Failed _ => True
                   end).
    { intros o Ho Hf. exists [url], o. repeat split; [exact Hf|cbn [List.length]; lia|exact Ho]. }
    assert (Unfold : forall fuel', (room products <= fuel')%nat ->
              fetch_all_loop http_get store_url fuel' page products
              = match http_get url with
                | None => ([url], Some (Failed TransportError))
                | Some r =>
                    if negb (status r =? 200) then ([url], Some (Done products))
                    else
                      match json_products r with
                      | None => ([url], Some (Failed JSONDecodeError))
                      | Some [] => ([url], Some (Done products))
                      | Some batch =>
                          let '(requests, outcome) :=
                            fetch_all_loop http_get store_url (Nat.pred fuel') (page + 1)
                              (slice_to MAX_PRODUCTS (products ++ batch)) in
                          (url :: requests, outcome)
                      end
                end).
    { intros fuel' Hf. destruct fuel' as [|m]; [lia|]. cbn [fetch_all_loop Nat.pred].
      destruct (Z.ltb_spec (len products) MAX_PRODUCTS); [reflexivity|lia]. }
    destruct (http_get url) as [r|] eqn:G.
    2:{ apply Stop; [exact I|]. intros fuel' Hf. now rewrite (Unfold fuel' Hf). }
    destruct (negb (status r =? 200)) eqn:S.
    { apply Stop; [lia|]. intros fuel' Hf. now rewrite (Unfold fuel' Hf). }
    destruct (json_products r) as [[|b0 bs]|] eqn:J.
    { apply Stop; [lia|]. intros fuel' Hf. now rewrite (Unfold fuel' Hf). }
    2:{ apply Stop; [exact I|]. intros fuel' Hf. now rewrite (Unfold fuel' Hf). }
    clear Stop.
    set (products' := slice_to MAX_PRODUCTS (products ++ b0 :: bs)) in *.
    assert (L' : len products' = Z.min MAX_PRODUCTS (len products + 1 + len bs)).
    { unfold products'. rewrite len_slice_to_min by (unfold MAX_PRODUCTS; lia).
      rewrite len_app, len_cons. f_equal. lia. }
    pose proof (len_nonneg bs) as Nb. pose proof (len_nonneg products) as Np.
    assert (R' : (room products' < room products)%nat).
    { unfold room. rewrite L'. unfold MAX_PRODUCTS in *. lia. }
    destruct (IH (page + 1) products' ltac:(lia)) as (requests & outcome & E & Ind & Len & Out).
    exists (url :: requests), outcome. rewrite E. split; [reflexivity|]. split; [|split].
    + intros fuel' Hf. rewrite (Unfold fuel' Hf).
      rewrite (Ind (Nat.pred fuel')) by lia. reflexivity.
    + cbn [List.length]. lia.
    + destruct outcome as [ps|e]; [|exact Out].
      rewrite L' in Out. unfold MAX_PRODUCTS in *. lia.
Qed.

(** X20: the loop of [fetch_all_products] ends: 250 iterations are always
    enough, more change nothing, at most 250 requests are made, and at most
    250 products are returned. *)
Theorem fetch_all_products_terminates (extra : nat) :
  exists requests outcome,
    fetch_all_products http_get 250 store_url = (requests, Some outcome)
    /\ fetch_all_products http_get (250 + extra) store_url = (requests, Some outcome)
    /\ (List.length requests <= 250)%nat
    /\ (forall ps, outcome = Done ps -> len ps <= 250).
Proof.
  unfold fetch_all_products.
  destruct (fetch_all_loop_enough 250 1 [] ltac:(unfold room, MAX_PRODUCTS, len; simpl; lia))
    as (requests & outcome & E & Ind & Len & Out).
  exists requests, outcome. split; [exact E|]. split; [|split].
  - apply Ind. unfold room, MAX_PRODUCTS, len. simpl. lia.
  - unfold room, MAX_PRODUCTS, len in Len. simpl in Len. lia.
  - intros ps ->. unfold MAX_PRODUCTS, len in Out. simpl in Out. unfold len. lia.
Qed.

End FetchAllFacts.

(** ** Instances *)

(** An instance of X18: the report of three products without timestamps. *)
Lemma takeaways_shape_witness :
  analyze_products fromisoformat_basic clock_march undated_catalog 0%nat
  = Ok (undated_report, 7%nat)
  /\ ((undated_catalog = [] -> takeaways undated_report = [])
      /\ (undated_catalog <> [] -> 3 <= len (takeaways undated_report) <= 10)
      /\ (undated_catalog <> [] ->
          Forall (fun p => created_dt fromisoformat_basic p = None) undated_catalog ->
          hd_error (takeaways undated_report)
          = Some "Low launch velocity: 0 products/month, suggesting mature/stable catalog."%string
          /\ launch_timeline undated_report
             = LaunchError "No products have created_at/published_at dates")).
Proof.
  split; [vm_compute; reflexivity|].
  apply (takeaways_shape fromisoformat_basic clock_march undated_catalog 0%nat 7%nat
           undated_report).
  vm_compute; reflexivity.
Defined.

(** An instance of X19: the report of three dated products. *)
Lemma new_vs_old_counts_and_missing_witness :
  analyze_products fromisoformat_basic clock_march sample_catalog 0%nat
  = Ok (catalog_report, 7%nat)
  /\ (let n := new_vs_old catalog_report in
      nvo_total n = len sample_catalog
      /\ Forall (fun c => 0 <= cp_count c /\ cp_count c + missing (created n) <= nvo_total n)
           [d30 (created n); d90 (created n); d180 (created n)]
      /\ Forall (fun c => 0 <= cp_count c /\ cp_count c + missing (updated n) <= nvo_total n)
           [d30 (updated n); d90 (updated n); d180 (updated n)]
      /\ missing (created n)
         = count_if (fun p => negb (is_some (parse_dt fromisoformat_basic (created_at p))))
             sample_catalog
      /\ missing (updated n)
         = count_if (fun p => negb (is_some (parse_dt fromisoformat_basic (updated_at p))))
             sample_catalog).
Proof.
  split; [vm_compute; reflexivity|].
  apply (new_vs_old_counts_and_missing fromisoformat_basic clock_march sample_catalog
           0%nat 7%nat catalog_report).
  vm_compute; reflexivity.
Defined.

